(** * HomeGenie MCP server: shallow embedding and verified properties

    The development follows [src/homegenie_mcp_server.py]:
    - [PyFloat]: Python floats as IEEE-754 binary64 values ([spec_float]),
      with [round(x, n)], literals, comparison and [repr];
    - [PyStr]: the string operations the server uses;
    - [DateTime]: naive [datetime] values, [timedelta(hours=i)] addition,
      [strftime] and [isoformat];
    - [Json]: Python values and [json.dumps];
    - the server functions themselves, in a small state-and-exception monad
      over the clock and the random source. *)

From Stdlib Require Import ZArith List String Ascii Bool Lia.
From Stdlib Require Import Floats.SpecFloat.
Import ListNotations.

Set Warnings "-register-all".
Local Open Scope Z_scope.

(* ================================================================== *)
(** ** Python strings

    A [str] is kept as the bytes of its UTF-8 encoding; every operation the
    server applies to a string of unknown content is concatenation, and
    the others ([title], [replace], slicing, [in]) act on ASCII text. *)
(* ================================================================== *)

Module PyStr.

Local Open Scope string_scope.

Definition digit_char (d : Z) : ascii := ascii_of_nat (48 + Z.to_nat d).

(** Decimal digits of [n >= 0], most significant first, in front of
    [acc]. *)
Fixpoint digits_acc (fuel : nat) (n : Z) (acc : string) : string :=
  let acc' := String (digit_char (n mod 10)%Z) acc in
  match fuel with
  | O => acc'
  | S fuel' => if (n <? 10)%Z then acc' else digits_acc fuel' (n / 10)%Z acc'
  end.

(** [str(n)] for an integer. *)
Definition of_Z (n : Z) : string :=
  let a := Z.abs n in
  let ds := digits_acc (Z.to_nat (Z.log2 a)) a "" in
  if (n <? 0)%Z then "-" ++ ds else ds.

Fixpoint repeat (c : ascii) (n : nat) : string :=
  match n with
  | O => ""
  | S n' => String c (repeat c n')
  end.

(** ["%0wd" % n] for [n >= 0]. *)
Definition zero_pad (w : nat) (n : Z) : string :=
  let ds := of_Z n in
  repeat "0" (w - String.length ds)%nat ++ ds.

(** [needle in hay] *)
Fixpoint contains (needle hay : string) : bool :=
  String.prefix needle hay ||
  match hay with
  | "" => false
  | String _ rest => contains needle rest
  end.

(** [s.replace(a, b)] for one-character [a] and [b]. *)
Fixpoint replace (a b : ascii) (s : string) : string :=
  match s with
  | "" => ""
  | String c rest => String (if Ascii.eqb c a then b else c) (replace a b rest)
  end.

Definition is_lower (c : ascii) : bool :=
  let n := nat_of_ascii c in (97 <=? n)%nat && (n <=? 122)%nat.
Definition is_upper (c : ascii) : bool :=
  let n := nat_of_ascii c in (65 <=? n)%nat && (n <=? 90)%nat.
Definition to_upper (c : ascii) : ascii :=
  if is_lower c then ascii_of_nat (nat_of_ascii c - 32) else c.
Definition to_lower (c : ascii) : ascii :=
  if is_upper c then ascii_of_nat (nat_of_ascii c + 32) else c.

(** [s.lower()] *)
Fixpoint lower (s : string) : string :=
  match s with
  | "" => ""
  | String c rest => String (to_lower c) (lower rest)
  end.

(** [s.title()]: a cased character is upper-cased after an uncased one
    and lower-cased after a cased one.  The cased characters here are the
    ASCII letters: this is [str.title] on ASCII text, which is what the
    server titles (the four descriptions and the three period labels). *)
Fixpoint title_from (previous_is_cased : bool) (s : string) : string :=
  match s with
  | "" => ""
  | String c rest =>
      if is_lower c then
        String (if previous_is_cased then c else to_upper c) (title_from true rest)
      else if is_upper c then
        String (if previous_is_cased then to_lower c else c) (title_from true rest)
      else String c (title_from false rest)
  end.

Definition title (s : string) : string := title_from false s.

(** [s[:n]] *)
Definition take (n : nat) (s : string) : string := String.substring 0 n s.

(** [sep.join(parts)] *)
Fixpoint join (sep : string) (parts : list string) : string :=
  match parts with
  | [] => ""
  | x :: rest =>
      match rest with
      | [] => x
      | _ => x ++ sep ++ join sep rest
      end
  end.

End PyStr.

(* ================================================================== *)
(** ** Python floats *)
(* ================================================================== *)

Module PyFloat.

Definition prec : Z := 53.
Definition emax : Z := 1024.

Definition float : Type := spec_float.

Definition mul : float -> float -> float := SFmul prec emax.
Definition add : float -> float -> float := SFadd prec emax.
Definition sub : float -> float -> float := SFsub prec emax.
Definition div : float -> float -> float := SFdiv prec emax.

(** [x < y], [x <= y] on floats. *)
Definition ltb (x y : float) : bool := SFltb x y.
Definition leb (x y : float) : bool := SFleb x y.

(** An integer as a mantissa with exponent 0 (not normalised: only used
    as an operand of [div], which normalises its result). *)
Definition raw_of_Z (z : Z) : float :=
  match z with
  | Z0 => S754_zero false
  | Zpos p => S754_finite false p 0
  | Zneg p => S754_finite true p 0
  end.

(** [float(z)]: the double nearest to the integer [z]. *)
Definition of_Z (z : Z) : float := binary_normalize prec emax z 0 false.

(** The double nearest to [n * 10^k] (what [strtod] returns for the
    decimal numeral): a correctly rounded quotient or product. *)
Definition of_scaled (n : Z) (k : Z) : float :=
  if k <? 0 then div (raw_of_Z n) (raw_of_Z (10 ^ (- k)))
  else of_Z (n * 10 ^ k).

(** A decimal literal with [k] digits after the point: [of_decimal 18 1]
    is the literal [1.8]. *)
Definition of_decimal (n : Z) (k : nat) : float :=
  of_scaled n (- Z.of_nat k).

(** Nearest integer to [num / den] ([den > 0]), ties to even. *)
Definition round_half_even (num den : Z) : Z :=
  let q := num / den in
  let r := num mod den in
  match 2 * r ?= den with
  | Lt => q
  | Gt => q + 1
  | Eq => if Z.even q then q else q + 1
  end.

(** The magnitude [m * 2^e] as a fraction. *)
Definition frac_of (m : positive) (e : Z) : Z * Z :=
  if 0 <=? e then (Zpos m * 2 ^ e, 1) else (Zpos m, 2 ^ (- e)).

(** [round(x, ndigits)] for [ndigits >= 0]: the exact binary value is
    rounded to [ndigits] decimals, ties to even, and the decimal is read
    back as the nearest double; zeros, infinities and nan round to
    themselves. *)
Definition round (x : float) (ndigits : nat) : float :=
  match x with
  | S754_finite s m e =>
      let '(num, den) := frac_of m e in
      let q := round_half_even (num * 10 ^ Z.of_nat ndigits) den in
      if q =? 0 then S754_zero s
      else of_decimal (if s then - q else q) ndigits
  | _ => x
  end.

(** *** [repr]

    [float.__repr__] prints the shortest decimal that reads back as the
    same double (the nearest such decimal when several have that
    length), in fixed notation when the decimal point position [decpt]
    satisfies [-4 < decpt <= 16] and in exponent notation otherwise. *)

(** [num / den < 10^p] *)
Definition lt_pow10 (num den p : Z) : bool :=
  if 0 <=? p then num <? den * 10 ^ p else num * 10 ^ (- p) <? den.

(** The [p] with [10^(p-1) <= num/den < 10^p], searched from a guess. *)
Fixpoint find_decpt (fuel : nat) (num den p : Z) : Z :=
  match fuel with
  | O => p
  | S fuel' =>
      if lt_pow10 num den (p - 1) then find_decpt fuel' num den (p - 1)
      else if lt_pow10 num den p then p
      else find_decpt fuel' num den (p + 1)
  end.

Definition decpt_of (m : positive) (e : Z) : Z :=
  let '(num, den) := frac_of m e in
  find_decpt 700 num den ((Z.log2 (Zpos m) + e) * 3 / 10).

(** The [ndig]-digit decimal [c * 10^(p - ndig)] that reads back as
    [S754_finite false m e], if there is one: the nearest first. *)
Definition candidate (m : positive) (e p : Z) (ndig : Z) : option Z :=
  let '(num, den) := frac_of m e in
  let t := ndig - p in
  let '(n', d') := if 0 <=? t then (num * 10 ^ t, den) else (num, den * 10 ^ (- t)) in
  let lo := n' / d' in
  let near := round_half_even n' d' in
  let far := if near =? lo then lo + 1 else lo in
  let reads_back c := SFeqb (of_scaled c (- t)) (S754_finite false m e) in
  if reads_back near then Some near
  else if reads_back far then Some far
  else None.

Fixpoint shortest (fuel : nat) (m : positive) (e p : Z) (ndig : Z) : Z * Z :=
  match candidate m e p ndig with
  | Some c => (c, ndig)
  | None =>
      match fuel with
      | O => (round_half_even (fst (frac_of m e) * 10 ^ (17 - p)) (snd (frac_of m e)), 17)
      | S fuel' => shortest fuel' m e p (ndig + 1)
      end
  end.

(** Digits and decimal point position of the shortest representation. *)
Definition shortest_digits (m : positive) (e : Z) : string * Z :=
  let p := decpt_of m e in
  let '(c, ndig) := shortest 16 m e p 1 in
  if c =? 10 ^ ndig then ("1"%string, p + 1) else (PyStr.of_Z c, p).

Definition format_digits (ds : string) (decpt : Z) : string :=
  let n := Z.of_nat (String.length ds) in
  if (decpt <=? -4) || (16 <? decpt) then
    let ex := decpt - 1 in
    let mant :=
      match ds with
      | String d EmptyString => ds
      | String d rest => String d (String "."%char rest)
      | EmptyString => ds
      end in
    let sign := if ex <? 0 then "-"%string else "+"%string in
    (mant ++ "e" ++ sign ++ PyStr.zero_pad 2 (Z.abs ex))%string
  else if decpt <=? 0 then
    ("0." ++ PyStr.repeat "0"%char (Z.to_nat (- decpt)) ++ ds)%string
  else if n <=? decpt then
    (ds ++ PyStr.repeat "0"%char (Z.to_nat (decpt - n)) ++ ".0")%string
  else
    (String.substring 0 (Z.to_nat decpt) ds ++ "." ++
     String.substring (Z.to_nat decpt) (Z.to_nat (n - decpt)) ds)%string.

(** [repr(x)], which is also [str(x)] and what an f-string inserts. *)
Definition repr (x : float) : string :=
  match x with
  | S754_zero s => if s then "-0.0"%string else "0.0"%string
  | S754_infinity s => if s then "-inf"%string else "inf"%string
  | S754_nan => "nan"%string
  | S754_finite s m e =>
      let '(ds, decpt) := shortest_digits m e in
      let sign := if s then "-"%string else ""%string in
      (sign ++ format_digits ds decpt)%string
  end.

(** A float against an integer, on exact values (Python compares the
    two without converting the integer). *)
Definition compare_Z (x : float) (n : Z) : option comparison :=
  match x with
  | S754_nan => None
  | S754_infinity s => Some (if s then Lt else Gt)
  | S754_zero _ => Some (0 ?= n)
  | S754_finite s m e =>
      let '(num, den) := frac_of m e in
      Some ((if s then - num else num) ?= n * den)
  end.

(** [int(x)]: truncation toward zero of a finite float. *)
Definition trunc (x : float) : Z :=
  match x with
  | S754_finite s m e =>
      let '(num, den) := frac_of m e in
      if s then - (num / den) else num / den
  | _ => 0
  end.

End PyFloat.

Abbreviation float := PyFloat.float.

(* ================================================================== *)
(** ** Naive [datetime] values

    [datetime.now()] returns a naive local date and time.  Adding a
    [timedelta] goes through the proleptic Gregorian ordinal of the date
    (day 1 is 0001-01-01) and raises [OverflowError] outside
    [1 .. MAXORDINAL]. *)
(* ================================================================== *)

Module DateTime.

Record datetime : Type := mk {
  year : Z; month : Z; day : Z;
  hour : Z; minute : Z; second : Z; microsecond : Z
}.

Definition MAXORDINAL : Z := 3652059.

Definition is_leap (y : Z) : bool :=
  (y mod 4 =? 0) && (negb (y mod 100 =? 0) || (y mod 400 =? 0)).

Definition DAYS_IN_MONTH : list Z := [31; 28; 31; 30; 31; 30; 31; 31; 30; 31; 30; 31].
Definition DAYS_BEFORE_MONTH : list Z :=
  [0; 31; 59; 90; 120; 151; 181; 212; 243; 273; 304; 334].

Definition table (t : list Z) (m : Z) : Z := nth (Z.to_nat (m - 1)) t 0.

Definition days_in_month (y m : Z) : Z :=
  if (m =? 2) && is_leap y then 29 else table DAYS_IN_MONTH m.

Definition days_before_month (y m : Z) : Z :=
  table DAYS_BEFORE_MONTH m + (if (2 <? m) && is_leap y then 1 else 0).

Definition days_before_year (y : Z) : Z :=
  let y' := y - 1 in y' * 365 + y' / 4 - y' / 100 + y' / 400.

Definition ymd2ord (y m d : Z) : Z :=
  days_before_year y + days_before_month y m + d.

Definition DI400Y : Z := 146097.
Definition DI100Y : Z := 36524.
Definition DI4Y : Z := 1461.

(** Month and day of the [n]-th day (from 0) of a year: the estimate
    [(n + 50) >> 5] is the month or one more. *)
Definition month_day (leapyear : bool) (n : Z) : Z * Z :=
  let m := Z.shiftr (n + 50) 5 in
  let preceding :=
    table DAYS_BEFORE_MONTH m + (if (2 <? m) && leapyear then 1 else 0) in
  if n <? preceding then
    let m' := m - 1 in
    let preceding' :=
      preceding - (table DAYS_IN_MONTH m' + (if (m' =? 2) && leapyear then 1 else 0)) in
    (m', n - preceding' + 1)
  else (m, n - preceding + 1).

Definition ord2ymd (n : Z) : Z * Z * Z :=
  let n := n - 1 in
  let n400 := n / DI400Y in
  let n := n mod DI400Y in
  let n100 := n / DI100Y in
  let n := n mod DI100Y in
  let n4 := n / DI4Y in
  let n := n mod DI4Y in
  let n1 := n / 365 in
  let n := n mod 365 in
  let y := n400 * 400 + 1 + n100 * 100 + n4 * 4 + n1 in
  if (n1 =? 4) || (n100 =? 4) then (y - 1, 12, 31)
  else
    let leapyear := (n1 =? 3) && (negb (n4 =? 24) || (n100 =? 3)) in
    let '(m, d) := month_day leapyear n in
    (y, m, d).

(** What [month_day] has to satisfy, as a check on one day number. *)
Definition month_day_ok (leap : bool) (n : Z) : bool :=
  let '(m, d) := month_day leap n in
  (table DAYS_BEFORE_MONTH m + (if (2 <? m) && leap then 1 else 0) + d =? n + 1) &&
  (1 <=? m) && (m <=? 12) && (1 <=? d) &&
  (d <=? (if (m =? 2) && leap then 29 else table DAYS_IN_MONTH m)).

Definition toordinal (t : datetime) : Z := ymd2ord (year t) (month t) (day t).

(** Well-formed values: the ones the [datetime] constructor accepts. *)
Definition validb (t : datetime) : bool :=
  (1 <=? year t) && (year t <=? 9999) &&
  (1 <=? month t) && (month t <=? 12) &&
  (1 <=? day t) && (day t <=? days_in_month (year t) (month t)) &&
  (0 <=? hour t) && (hour t <? 24) &&
  (0 <=? minute t) && (minute t <? 60) &&
  (0 <=? second t) && (second t <? 60) &&
  (0 <=? microsecond t) && (microsecond t <? 1000000).

Definition valid (t : datetime) : Prop := validb t = true.

(** [t + timedelta(hours=i)]; [None] stands for [OverflowError]. *)
Definition add_hours (t : datetime) (i : Z) : option datetime :=
  let secs := hour t * 3600 + minute t * 60 + second t + i * 3600 in
  let days := toordinal t + secs / 86400 in
  let secs := secs mod 86400 in
  let h := secs / 3600 in
  let rem := secs mod 3600 in
  if (0 <? days) && (days <=? MAXORDINAL) then
    let '(y, m, d) := ord2ymd days in
    Some (mk y m d h (rem / 60) (rem mod 60) (microsecond t))
  else None.

(** [t.replace(hour=h, minute=mi)] *)
Definition replace_hm (t : datetime) (h mi : Z) : datetime :=
  mk (year t) (month t) (day t) h mi (second t) (microsecond t).

(** [t.strftime("%H:%M")] *)
Definition strftime_HM (t : datetime) : string :=
  (PyStr.zero_pad 2 (hour t) ++ ":" ++ PyStr.zero_pad 2 (minute t))%string.

(** [t.strftime("%Y-%m-%d")], which the C library formats: [%Y] is the
    year as a decimal number, on Linux without leading zeros, so that a year
    below 1000 takes fewer than four characters ([999-02-28]). *)
Definition strftime_Ymd (t : datetime) : string :=
  (PyStr.of_Z (year t) ++ "-" ++ PyStr.zero_pad 2 (month t) ++ "-" ++
   PyStr.zero_pad 2 (day t))%string.

(** The date part of [t.isoformat()], [%04d-%02d-%02d]. *)
Definition isoformat_date (t : datetime) : string :=
  (PyStr.zero_pad 4 (year t) ++ "-" ++ PyStr.zero_pad 2 (month t) ++ "-" ++
   PyStr.zero_pad 2 (day t))%string.

(** [t.isoformat()]: the fraction is printed only when it is not zero. *)
Definition isoformat (t : datetime) : string :=
  let fraction :=
    if microsecond t =? 0 then ""%string
    else ("." ++ PyStr.zero_pad 6 (microsecond t))%string in
  (isoformat_date t ++ "T" ++
   PyStr.zero_pad 2 (hour t) ++ ":" ++ PyStr.zero_pad 2 (minute t) ++ ":" ++
   PyStr.zero_pad 2 (second t) ++ fraction)%string.

(** Seconds from the start of day 0 of the calendar: the position of [t]
    on the time line, up to its microseconds. *)
Definition to_seconds (t : datetime) : Z :=
  toordinal t * 86400 + hour t * 3600 + minute t * 60 + second t.

End DateTime.

Abbreviation datetime := DateTime.datetime.

(* ================================================================== *)
(** ** Python values and [json.dumps] *)
(* ================================================================== *)

Module Json.

Local Open Scope string_scope.

(** The values the server builds: [None], [bool], [int], [float], [str],
    [list], and [dict] with string keys, in insertion order. *)
Inductive value : Type :=
| Null
| Bool (b : bool)
| Int (z : Z)
| Float (f : float)
| Str (s : string)
| List (items : list value)
| Dict (items : list (string * value)).

Definition nl : string := String (ascii_of_nat 10) "".
Definition dquote : string := String (ascii_of_nat 34) "".
Definition backslash : string := String (ascii_of_nat 92) "".

Definition byte (c : ascii) : Z := Z.of_nat (nat_of_ascii c).
Definition is_cont (b : Z) : bool := (128 <=? b)%Z && (b <? 192)%Z.
Definition cont (b : Z) : Z := Z.land b 63.

(** The code points of a UTF-8 encoded string; a byte that starts no
    well-formed sequence is passed through as it is. *)
Fixpoint code_points (s : string) : list Z :=
  match s with
  | "" => []
  | String c0 r0 =>
      let b0 := byte c0 in
      let single := b0 :: code_points r0 in
      if (b0 <? 192)%Z then single
      else
        match r0 with
        | String c1 r1 =>
            let b1 := byte c1 in
            if negb (is_cont b1) then single
            else if (b0 <? 224)%Z then
              (Z.shiftl (Z.land b0 31) 6 + cont b1)%Z :: code_points r1
            else
              match r1 with
              | String c2 r2 =>
                  let b2 := byte c2 in
                  if negb (is_cont b2) then single
                  else if (b0 <? 240)%Z then
                    (Z.shiftl (Z.land b0 15) 12 + Z.shiftl (cont b1) 6 + cont b2)%Z
                      :: code_points r2
                  else
                    match r2 with
                    | String c3 r3 =>
                        let b3 := byte c3 in
                        if negb (is_cont b3) then single
                        else
                          (Z.shiftl (Z.land b0 7) 18 + Z.shiftl (cont b1) 12 +
                           Z.shiftl (cont b2) 6 + cont b3)%Z :: code_points r3
                    | "" => single
                    end
              | "" => single
              end
        | "" => single
        end
  end.

Definition hex_digit (d : Z) : ascii :=
  if (d <? 10)%Z then ascii_of_nat (48 + Z.to_nat d) else ascii_of_nat (87 + Z.to_nat d).

(** ['\\u{0:04x}'.format(n)] *)
Definition u_escape (n : Z) : string :=
  backslash ++ "u" ++
  String (hex_digit (Z.shiftr n 12 mod 16)%Z)
    (String (hex_digit (Z.shiftr n 8 mod 16)%Z)
       (String (hex_digit (Z.shiftr n 4 mod 16)%Z)
          (String (hex_digit (n mod 16)%Z) ""))).

(** One code point under [ensure_ascii=True]. *)
Definition escape_code_point (n : Z) : string :=
  if (n =? 34)%Z then backslash ++ dquote
  else if (n =? 92)%Z then backslash ++ backslash
  else if (n =? 10)%Z then backslash ++ "n"
  else if (n =? 13)%Z then backslash ++ "r"
  else if (n =? 9)%Z then backslash ++ "t"
  else if (n =? 12)%Z then backslash ++ "f"
  else if (n =? 8)%Z then backslash ++ "b"
  else if (32 <=? n)%Z && (n <=? 126)%Z then String (ascii_of_nat (Z.to_nat n)) ""
  else if (n <? 65536)%Z then u_escape n
  else
    let n' := (n - 65536)%Z in
    u_escape (Z.lor 55296 (Z.land (Z.shiftr n' 10) 1023)) ++
    u_escape (Z.lor 56320 (Z.land n' 1023)).

(** [py_encode_basestring_ascii] *)
Definition encode_string (s : string) : string :=
  dquote ++ String.concat "" (map escape_code_point (code_points s)) ++ dquote.

(** [float.__repr__], with the JavaScript names for the non-finite
    values. *)
Definition encode_float (f : float) : string :=
  match f with
  | S754_nan => "NaN"
  | S754_infinity false => "Infinity"
  | S754_infinity true => "-Infinity"
  | _ => PyFloat.repr f
  end.

Section Encoder.

(** [json.dumps(obj, indent=indent)]: with an indent the item
    separator is [","] followed by a new line, without one it is
    [", "]; the key separator is [": "] in both. *)
Variable indent : option nat.

Definition newline_indent (level : nat) : string :=
  match indent with
  | Some n => nl ++ PyStr.repeat " "%char (n * level)
  | None => ""
  end.

Definition separator (level : nat) : string :=
  match indent with
  | Some _ => "," ++ newline_indent level
  | None => ", "
  end.

(** An array or object from the encodings of its parts: the empty one is
    written without a line break. *)
Definition bracket (opening closing : string) (level : nat) (parts : list string) : string :=
  match parts with
  | [] => opening ++ closing
  | _ =>
      opening ++ newline_indent (S level) ++
      PyStr.join (separator (S level)) parts ++
      newline_indent level ++ closing
  end.

Fixpoint encode (level : nat) (v : value) {struct v} : string :=
  match v with
  | Null => "null"
  | Bool b => if b then "true" else "false"
  | Int z => PyStr.of_Z z
  | Float f => encode_float f
  | Str s => encode_string s
  | List items => bracket "[" "]" level (map (encode (S level)) items)
  | Dict items =>
      bracket "{" "}" level
        (map (fun member : string * value =>
                let (k, x) := member in
                encode_string k ++ ": " ++ encode (S level) x) items)
  end.

End Encoder.

Definition dumps (indent : option nat) (v : value) : string := encode indent 0 v.

End Json.

(* ================================================================== *)
(** ** Effects: exceptions, the clock, the random source, the log *)
(* ================================================================== *)

Inductive exn : Type :=
| KeyError | IndexError | TypeError | ValueError | OverflowError | ValidationError.

Inductive outcome (A : Type) : Type :=
| Ok (a : A)
| Raise (e : exn).

Arguments Ok {A} a.
Arguments Raise {A} e.

(** What the process reads from outside, and how far it has read:
    - [now_at n] is the value of the [n]-th call of [datetime.now()];
    - [local_seconds t] is the number of seconds from the epoch to the
      local wall-clock time [t] (its microseconds apart), as the time zone
      of the process gives it;
    - [timestamp_error t] is the exception that [t.timestamp()] raises, if
      it raises one: to find the seconds of the local time [t] the library
      converts moments around [t] back to local time, and that fails with
      [ValueError] where such a moment has no year from 1 to 9999 (so on
      the first day of year 1, with the day before it) and with
      [OverflowError] where the platform cannot express it;
    - [random_at n] is the 53-bit numerator of the [n]-th draw when that
      draw is [random.random()], and [randbelow_at n k] its value when it is
      a draw below [k] ([random.randint], [random.choice]);
    - [log] collects the messages passed to [logger.info]. *)
Record World : Type := {
  now_at : nat -> datetime;
  clock_reads : nat;
  local_seconds : datetime -> Z;
  timestamp_error : datetime -> option exn;
  random_at : nat -> Z;
  randbelow_at : nat -> Z -> Z;
  rng_calls : nat;
  log : list string
}.

Definition M (A : Type) : Type := World -> outcome (A * World).

Definition ret {A} (a : A) : M A := fun w => Ok (a, w).

Definition bind {A B} (c : M A) (k : A -> M B) : M B :=
  fun w =>
    match c w with
    | Ok (a, w') => k a w'
    | Raise e => Raise e
    end.

Definition raise {A} (e : exn) : M A := fun _ => Raise e.

Definition lift {A} (r : outcome A) : M A :=
  fun w => match r with Ok a => Ok (a, w) | Raise e => Raise e end.

Definition rbind {A B} (r : outcome A) (k : A -> outcome B) : outcome B :=
  match r with
  | Ok a => k a
  | Raise e => Raise e
  end.

Declare Scope monad_scope.
Delimit Scope monad_scope with monad.
Declare Scope outcome_scope.
Delimit Scope outcome_scope with outcome.

Notation "x <- c ;; k" := (bind c (fun x => k))
  (at level 61, c at next level, right associativity) : monad_scope.
Notation "c ;; k" := (bind c (fun _ => k))
  (at level 61, right associativity) : monad_scope.
Notation "x <- c ;; k" := (rbind c (fun x => k))
  (at level 61, c at next level, right associativity) : outcome_scope.

Definition tick (w : World) : World :=
  {| now_at := now_at w; clock_reads := S (clock_reads w);
     local_seconds := local_seconds w;
     timestamp_error := timestamp_error w;
     random_at := random_at w; randbelow_at := randbelow_at w;
     rng_calls := rng_calls w; log := log w |}.

(** [datetime.now()] *)
Definition datetime_now : M datetime :=
  fun w => Ok (now_at w (clock_reads w), tick w).

Definition next_draw (w : World) : World :=
  {| now_at := now_at w; clock_reads := clock_reads w;
     local_seconds := local_seconds w;
     timestamp_error := timestamp_error w;
     random_at := random_at w; randbelow_at := randbelow_at w;
     rng_calls := S (rng_calls w); log := log w |}.

(** [random.random()]: [k / 2^53] for a 53-bit [k], which is exact. *)
Definition random_random : M float :=
  fun w =>
    Ok (binary_normalize PyFloat.prec PyFloat.emax (random_at w (rng_calls w)) (-53) false,
        next_draw w).

(** [random.uniform(a, b)] is [a + (b - a) * self.random()]. *)
Definition random_uniform (a b : float) : M float :=
  (r <- random_random ;;
   ret (PyFloat.add a (PyFloat.mul (PyFloat.sub b a) r)))%monad.

Definition randbelow (k : Z) : M Z :=
  fun w => Ok (randbelow_at w (rng_calls w) k, next_draw w).

(** [random.randint(a, b)] is [a + self._randbelow(b - a + 1)]. *)
Definition random_randint (a b : Z) : M Z :=
  (k <- randbelow (b - a + 1) ;; ret (a + k))%monad.

(** [random.choice(seq)] is [seq[self._randbelow(len(seq))]], and
    [IndexError] on an empty sequence. *)
Definition random_choice {A} (seq : list A) : M A :=
  match seq with
  | [] => raise IndexError
  | _ =>
      (k <- randbelow (Z.of_nat (List.length seq)) ;;
       match nth_error seq (Z.to_nat k) with
       | Some x => ret x
       | None => raise IndexError
       end)%monad
  end.

(** The value of [int(t.timestamp())] for a naive [t], where
    [t.timestamp()] returns: the local epoch seconds plus
    [microsecond / 1e6], in floating point, truncated. *)
Definition timestamp_at (w : World) (t : datetime) : Z :=
  PyFloat.trunc
    (PyFloat.add (PyFloat.of_Z (local_seconds w t))
       (PyFloat.div (PyFloat.of_Z (DateTime.microsecond t)) (PyFloat.of_Z 1000000))).

(** [int(t.timestamp())]: the exception of [t.timestamp()] where it raises
    one, the value above otherwise. *)
Definition int_timestamp (t : datetime) : M Z :=
  fun w =>
    match timestamp_error w t with
    | Some e => Raise e
    | None => Ok (timestamp_at w t, w)
    end.

Definition logged (msg : string) (w : World) : World :=
  {| now_at := now_at w; clock_reads := clock_reads w;
     local_seconds := local_seconds w;
     timestamp_error := timestamp_error w;
     random_at := random_at w; randbelow_at := randbelow_at w;
     rng_calls := rng_calls w; log := log w ++ [msg] |}.

(** [logger.info(msg)] *)
Definition logger_info (msg : string) : M unit :=
  fun w => Ok (tt, logged msg w).

(* ================================================================== *)
(** ** Operations on Python values *)
(* ================================================================== *)

Module Py.

Import Json.
Local Open Scope string_scope.

Fixpoint lookup (k : string) (items : list (string * value)) : option value :=
  match items with
  | [] => None
  | (k', v) :: rest => if String.eqb k' k then Some v else lookup k rest
  end.

(** [d[k]] *)
Definition getitem (d : value) (k : string) : outcome value :=
  match d with
  | Dict items =>
      match lookup k items with
      | Some v => Ok v
      | None => Raise KeyError
      end
  | _ => Raise TypeError
  end.

(** [l[i]] for [i >= 0] *)
Definition getindex (l : value) (i : nat) : outcome value :=
  match l with
  | List items =>
      match nth_error items i with
      | Some v => Ok v
      | None => Raise IndexError
      end
  | _ => Raise TypeError
  end.

(** [d.get(k, default)] *)
Definition dict_get (d : value) (k : string) (default : value) : outcome value :=
  match d with
  | Dict items =>
      match lookup k items with
      | Some v => Ok v
      | None => Ok default
      end
  | _ => Raise TypeError
  end.

(** [v[:n]] on a list or a string *)
Definition slice_to (v : value) (n : nat) : outcome value :=
  match v with
  | List items => Ok (List (firstn n items))
  | Str s => Ok (Str (PyStr.take n s))
  | _ => Raise TypeError
  end.

(** What an f-string inserts for [{v}]: [str(v)].  The server only
    inserts numbers and strings. *)
Definition format (v : value) : outcome string :=
  match v with
  | Str s => Ok s
  | Int z => Ok (PyStr.of_Z z)
  | Float f => Ok (PyFloat.repr f)
  | Bool b => Ok (if b then "True" else "False")
  | Null => Ok "None"
  | _ => Raise TypeError
  end.

Definition lt_of (c : option comparison) : bool :=
  match c with Some Lt => true | _ => false end.
Definition gt_of (c : option comparison) : bool :=
  match c with Some Gt => true | _ => false end.

(** [a < b] *)
Definition lt (a b : value) : outcome bool :=
  match a, b with
  | Float x, Float y => Ok (PyFloat.ltb x y)
  | Float x, Int n => Ok (lt_of (PyFloat.compare_Z x n))
  | Int m, Float y => Ok (gt_of (PyFloat.compare_Z y m))
  | Int m, Int n => Ok (m <? n)%Z
  | _, _ => Raise TypeError
  end.

(** [a > b] *)
Definition gt (a b : value) : outcome bool :=
  match a, b with
  | Float x, Float y => Ok (PyFloat.ltb y x)
  | Float x, Int n => Ok (gt_of (PyFloat.compare_Z x n))
  | Int m, Float y => Ok (lt_of (PyFloat.compare_Z y m))
  | Int m, Int n => Ok (n <? m)%Z
  | _, _ => Raise TypeError
  end.

(** [v == s] for a string literal [s] *)
Definition eq_str (v : value) (s : string) : bool :=
  match v with
  | Str t => String.eqb t s
  | _ => false
  end.

(** [needle in v] for a string literal [needle] *)
Definition contains (needle : string) (v : value) : outcome bool :=
  match v with
  | Str s => Ok (PyStr.contains needle s)
  | _ => Raise TypeError
  end.

(** [v.title()] *)
Definition title (v : value) : outcome value :=
  match v with
  | Str s => Ok (Str (PyStr.title s))
  | _ => Raise TypeError
  end.

(** [v.replace(a, b)] *)
Definition replace (v : value) (a b : ascii) : outcome value :=
  match v with
  | Str s => Ok (Str (PyStr.replace a b s))
  | _ => Raise TypeError
  end.

End Py.

(* ================================================================== *)
(** ** Pricing tiers *)
(* ================================================================== *)

Definition base_price : float := PyFloat.of_decimal 25 2.

(** The [if]/[elif]/[else] chain of [get_mock_energy_prices], which the
    source writes out twice with the same conditions and constants: once on
    [hour] for the current price and once on [f_hour] for every forecast
    entry.  It yields [(multiplier, period)]. *)
Definition price_tier (hour : Z) : float * string :=
  if ((7 <=? hour) && (hour <=? 9)) || ((17 <=? hour) && (hour <=? 20)) then
    (PyFloat.of_decimal 18 1, "peak"%string)
  else if (22 <=? hour) || (hour <=? 6) then
    (PyFloat.of_decimal 7 1, "off_peak"%string)
  else
    (PyFloat.of_decimal 10 1, "standard"%string).

Definition tier_multiplier (hour : Z) : float := fst (price_tier hour).
Definition tier_label (hour : Z) : string := snd (price_tier hour).

(** [round(base_price * multiplier, 3)] *)
Definition tier_price (hour : Z) : float :=
  PyFloat.round (PyFloat.mul base_price (tier_multiplier hour)) 3.

(* ================================================================== *)
(** ** The server *)
(* ================================================================== *)

Import Json.
Local Open Scope string_scope.

(** *** Tool inputs *)

Record WeatherRequest : Type := { location : string }.

Record EnergyRequest : Type := { region : string; include_forecast : bool }.

(** Validation of a request object against the model: a field that is
    absent takes its [Field(default=...)], a field that is present must
    have the declared type and is taken as it is. *)
Definition validate_str (payload : list (string * value)) (field default : string)
  : outcome string :=
  match Py.lookup field payload with
  | None => Ok default
  | Some (Str s) => Ok s
  | Some _ => Raise ValidationError
  end.

Definition bool_words (b : bool) : list string :=
  if b then ["1"; "on"; "t"; "true"; "y"; "yes"]
  else ["0"; "off"; "f"; "false"; "n"; "no"].

(** A [bool] field also takes the numbers 0 and 1 and the usual words. *)
Definition validate_bool (payload : list (string * value)) (field : string) (default : bool)
  : outcome bool :=
  match Py.lookup field payload with
  | None => Ok default
  | Some (Bool b) => Ok b
  | Some (Int 0) => Ok false
  | Some (Int 1) => Ok true
  | Some (Float f) =>
      if SFeqb f (PyFloat.of_Z 0) then Ok false
      else if SFeqb f (PyFloat.of_Z 1) then Ok true
      else Raise ValidationError
  | Some (Str s) =>
      if existsb (String.eqb (PyStr.lower s)) (bool_words true) then Ok true
      else if existsb (String.eqb (PyStr.lower s)) (bool_words false) then Ok false
      else Raise ValidationError
  | Some _ => Raise ValidationError
  end.

Definition WeatherRequest_validate (payload : list (string * value)) : outcome WeatherRequest :=
  (l <- validate_str payload "location" "London" ;;
   Ok {| location := l |})%outcome.

Definition EnergyRequest_validate (payload : list (string * value)) : outcome EnergyRequest :=
  (r <- validate_str payload "region" "EU" ;;
   f <- validate_bool payload "include_forecast" true ;;
   Ok {| region := r; include_forecast := f |})%outcome.

(** *** Utility functions *)

Definition conditions : list string :=
  ["clear sky"; "few clouds"; "scattered clouds"; "light rain"].

(** The dictionary that [get_mock_weather_data] returns. *)
Definition weather_reading (name : string) (temp feels_like : float) (humidity pressure : Z)
    (main description : string) (speed : float) (dt sunrise sunset : Z) : value :=
  Dict [
    ("name", Str name);
    ("main", Dict [
       ("temp", Float temp);
       ("feels_like", Float feels_like);
       ("humidity", Int humidity);
       ("pressure", Int pressure)]);
    ("weather", List [Dict [
       ("main", Str main);
       ("description", Str description);
       ("icon", Str "01d")]]);
    ("wind", Dict [("speed", Float speed)]);
    ("dt", Int dt);
    ("sys", Dict [("sunrise", Int sunrise); ("sunset", Int sunset)])].

Definition get_mock_weather_data (location : string) : M value :=
  (temp <- random_uniform (PyFloat.of_decimal 150 1) (PyFloat.of_decimal 250 1) ;;
   feels_like <- random_uniform (PyFloat.of_decimal 140 1) (PyFloat.of_decimal 260 1) ;;
   humidity <- random_randint 40 80 ;;
   pressure <- random_randint 1000 1020 ;;
   main <- random_choice ["Clear"; "Clouds"; "Rain"] ;;
   description <- random_choice conditions ;;
   speed <- random_uniform (PyFloat.of_decimal 10 1) (PyFloat.of_decimal 100 1) ;;
   now <- datetime_now ;;
   dt <- int_timestamp now ;;
   now1 <- datetime_now ;;
   sunrise <- int_timestamp (DateTime.replace_hm now1 6 30) ;;
   now2 <- datetime_now ;;
   sunset <- int_timestamp (DateTime.replace_hm now2 19 45) ;;
   ret (weather_reading location
          (PyFloat.round temp 1) (PyFloat.round feels_like 1) humidity pressure
          main description (PyFloat.round speed 1) dt sunrise sunset))%monad.

Definition OverflowError_or {A} (o : option A) : outcome A :=
  match o with
  | Some a => Ok a
  | None => Raise OverflowError
  end.

(** The dictionary appended to [forecast] for the moment [time]. *)
Definition forecast_point (time : datetime) : value :=
  let f_hour := DateTime.hour time in
  let '(f_multiplier, f_period) := price_tier f_hour in
  Dict [
    ("time", Str (DateTime.strftime_HM time));
    ("date", Str (DateTime.strftime_Ymd time));
    ("price_per_kwh", Float (PyFloat.round (PyFloat.mul base_price f_multiplier) 3));
    ("period", Str f_period)].

(** One turn of the loop [for i in range(24)]: the entry appended for [i]. *)
Definition forecast_entry (base_time : datetime) (i : Z) : outcome value :=
  (time <- OverflowError_or (DateTime.add_hours base_time i) ;;
   Ok (forecast_point time))%outcome.

(** The loop itself, over the values of [i] still to come, with the list
    built so far. *)
Fixpoint forecast_loop (base_time : datetime) (range : list Z) (forecast : list value)
  : outcome (list value) :=
  match range with
  | [] => Ok forecast
  | i :: range' =>
      (entry <- forecast_entry base_time i ;;
       forecast_loop base_time range' (forecast ++ [entry]))%outcome
  end.

Definition range (n : nat) : list Z := map Z.of_nat (seq 0 n).

(** The [current_price] entry of the report. *)
Definition current_price_entry (current_price : float) (period : string) : value :=
  Dict [
    ("price_per_kwh", Float current_price);
    ("currency", Str "EUR");
    ("period", Str period);
    ("unit", Str "kWh")].

(** The dictionary that [get_mock_energy_prices] returns. *)
Definition energy_price_report (region timestamp : string) (current_price : float)
    (period : string) (forecast : list value) (last_updated : string) : value :=
  Dict [
    ("region", Str region);
    ("timestamp", Str timestamp);
    ("current_price", current_price_entry current_price period);
    ("price_forecast", List forecast);
    ("market_info", Dict [
       ("market", Str "Day Ahead");
       ("source", Str "Energy Exchange");
       ("last_updated", Str last_updated)])].

Definition get_mock_energy_prices (region : string) : M value :=
  (now <- datetime_now ;;
   let hour := DateTime.hour now in
   let '(multiplier, period) := price_tier hour in
   let current_price := PyFloat.round (PyFloat.mul base_price multiplier) 3 in
   base_time <- datetime_now ;;
   forecast <- lift (forecast_loop base_time (range 24) []) ;;
   timestamp <- datetime_now ;;
   last_updated <- datetime_now ;;
   ret (energy_price_report region (DateTime.isoformat timestamp) current_price period
          forecast (DateTime.isoformat last_updated)))%monad.

(** *** Tools *)

(** The three conditional expressions of the [HomeGenie Impact] lines. *)
Definition heating_recommendation (temp : value) : outcome string :=
  (cold <- Py.lt temp (Int 18) ;;
   if cold : bool then Ok "Increase"
   else
     mild <- Py.lt temp (Int 22) ;;
     Ok (if mild : bool then "Maintain" else "Decrease"))%outcome.

Definition natural_lighting (description : value) : outcome string :=
  (cloud <- Py.contains "cloud" description ;;
   dull <- (if cloud : bool then Ok true else Py.contains "rain" description) ;;
   Ok (if dull : bool then "Low - consider increasing indoor lighting" else "Good"))%outcome.

Definition window_management (description : value) : outcome string :=
  (rain <- Py.contains "rain" description ;;
   Ok (if rain : bool then "Close windows" else "Consider ventilation"))%outcome.

(** The report of [get_weather_data], from the statement that reads
    [temp] to the [return]: a pure function of [weather_data]. *)
Definition format_weather (weather_data : value) : outcome string :=
  (main <- Py.getitem weather_data "main" ;;
   temp <- Py.getitem main "temp" ;;
   weather <- Py.getitem weather_data "weather" ;;
   weather0 <- Py.getindex weather 0 ;;
   description <- Py.getitem weather0 "description" ;;
   main1 <- Py.getitem weather_data "main" ;;
   humidity <- Py.getitem main1 "humidity" ;;
   wind <- Py.getitem weather_data "wind" ;;
   wind_speed <- Py.getitem wind "speed" ;;
   name <- Py.getitem weather_data "name" ;;
   name_s <- Py.format name ;;
   temp_s <- Py.format temp ;;
   titled <- Py.title description ;;
   titled_s <- Py.format titled ;;
   humidity_s <- Py.format humidity ;;
   wind_speed_s <- Py.format wind_speed ;;
   main2 <- Py.getitem weather_data "main" ;;
   pressure <- Py.getitem main2 "pressure" ;;
   pressure_s <- Py.format pressure ;;
   heating <- heating_recommendation temp ;;
   lighting <- natural_lighting description ;;
   window <- window_management description ;;
   Ok ("🌤️ Weather Data for " ++ name_s ++ ":" ++ nl ++
       "        " ++ nl ++
       "📊 Current Conditions:" ++ nl ++
       "• Temperature: " ++ temp_s ++ "°C" ++ nl ++
       "• Description: " ++ titled_s ++ nl ++
       "• Humidity: " ++ humidity_s ++ "%" ++ nl ++
       "• Wind Speed: " ++ wind_speed_s ++ " m/s" ++ nl ++
       "• Pressure: " ++ pressure_s ++ " hPa" ++ nl ++
       nl ++
       "🏠 HomeGenie Impact:" ++ nl ++
       "• Heating recommendation: " ++ heating ++ nl ++
       "• Natural lighting: " ++ lighting ++ nl ++
       "• Window management: " ++ window ++ nl ++
       nl ++
       "📱 Raw Data: " ++ dumps (Some 2%nat) weather_data))%outcome.

Definition get_weather_data (request : WeatherRequest) : M string :=
  (logger_info ("Fetching weather data for: " ++ location request) ;;
   weather_data <- get_mock_weather_data (location request) ;;
   lift (format_weather weather_data))%monad.

(** [current['period'].replace('_', ' ').title()] *)
Definition period_title (current : value) : outcome string :=
  (period <- Py.getitem current "period" ;;
   spaced <- Py.replace period "_" " " ;;
   titled <- Py.title spaced ;;
   Py.format titled)%outcome.

(** The conditional expressions of the [Cost Impact] and [Smart Actions]
    lines. *)
Definition cost_impact (current : value) : outcome string :=
  (price1 <- Py.getitem current "price_per_kwh" ;;
   high <- Py.gt price1 (Float (PyFloat.of_decimal 35 2)) ;;
   if high : bool then Ok "High cost - consider energy saving"
   else
     price2 <- Py.getitem current "price_per_kwh" ;;
     standard <- Py.gt price2 (Float (PyFloat.of_decimal 20 2)) ;;
     Ok (if standard : bool then "Standard cost"
         else "Low cost - good time for energy-intensive tasks"))%outcome.

Definition smart_actions (current : value) : outcome string :=
  (period1 <- Py.getitem current "period" ;;
   if Py.eq_str period1 "peak" then Ok "Delay washing/heating"
   else
     period2 <- Py.getitem current "period" ;;
     Ok (if Py.eq_str period2 "off_peak" then "Good time for appliances"
         else "Normal usage"))%outcome.

(** The first f-string of [get_energy_prices]. *)
Definition energy_summary (request : EnergyRequest) (price_data current : value)
  : outcome string :=
  (price <- Py.getitem current "price_per_kwh" ;;
   price_s <- Py.format price ;;
   period_s <- period_title current ;;
   currency <- Py.getitem current "currency" ;;
   currency_s <- Py.format currency ;;
   timestamp <- Py.getitem price_data "timestamp" ;;
   updated <- Py.slice_to timestamp 19 ;;
   updated_s <- Py.format updated ;;
   period_type_s <- period_title current ;;
   cost <- cost_impact current ;;
   action <- smart_actions current ;;
   Ok ("⚡ Energy Prices for " ++ region request ++ ":" ++ nl ++
       "        " ++ nl ++
       "💰 Current Price:" ++ nl ++
       "• Price: €" ++ price_s ++ "/kWh" ++ nl ++
       "• Period: " ++ period_s ++ nl ++
       "• Currency: " ++ currency_s ++ nl ++
       "• Last Updated: " ++ updated_s ++ nl ++
       nl ++
       "🏠 HomeGenie Recommendations:" ++ nl ++
       "• Period Type: " ++ period_type_s ++ nl ++
       "• Cost Impact: " ++ cost ++ nl ++
       "• Smart Actions: " ++ action))%outcome.

(** The line added for one [hour_data]. *)
Definition forecast_line (hour_data : value) : outcome string :=
  (time <- Py.getitem hour_data "time" ;;
   time_s <- Py.format time ;;
   price <- Py.getitem hour_data "price_per_kwh" ;;
   price_s <- Py.format price ;;
   period <- Py.getitem hour_data "period" ;;
   period_s <- Py.format period ;;
   Ok ("• " ++ time_s ++ ": €" ++ price_s ++ "/kWh (" ++ period_s ++ ")" ++ nl))%outcome.

(** [for hour_data in forecast: result += ...] *)
Fixpoint forecast_lines (forecast : list value) (result : string) : outcome string :=
  match forecast with
  | [] => Ok result
  | hour_data :: rest =>
      (line <- forecast_line hour_data ;;
       forecast_lines rest (result ++ line))%outcome
  end.

Definition forecast_header : string :=
  nl ++ nl ++ "📈 Next 8 Hours Forecast:" ++ nl.

(** The body of [if request.include_forecast:]. *)
Definition forecast_section (price_data : value) (result : string) : outcome string :=
  (all <- Py.dict_get price_data "price_forecast" (List []) ;;
   forecast <- Py.slice_to all 8 ;;
   match forecast with
   | List items => forecast_lines items (result ++ forecast_header)
   | _ => Raise TypeError
   end)%outcome.

Definition raw_data (price_data : value) : string :=
  nl ++ nl ++ "📱 Raw Data: " ++ dumps (Some 2%nat) price_data.

(** The report of [get_energy_prices], from [current = ...] to the
    [return]: a pure function of the request and of [price_data]. *)
Definition format_energy (request : EnergyRequest) (price_data : value) : outcome string :=
  (current <- Py.getitem price_data "current_price" ;;
   result <- energy_summary request price_data current ;;
   result <- (if include_forecast request then forecast_section price_data result
              else Ok result) ;;
   Ok (result ++ raw_data price_data))%outcome.

Definition get_energy_prices (request : EnergyRequest) : M string :=
  (logger_info ("Fetching energy prices for region: " ++ region request) ;;
   price_data <- get_mock_energy_prices (region request) ;;
   lift (format_energy request price_data))%monad.

Definition health_check : M string :=
  (now <- datetime_now ;;
   ret (dumps None (Dict [
     ("status", Str "healthy");
     ("timestamp", Str (DateTime.isoformat now));
     ("service", Str "HomeGenie MCP Server");
     ("version", Str "1.0.0")])))%monad.


(* ================================================================== *)
(** ** The main block

    What runs under [if __name__ == "__main__":].  The process meets its
    surroundings through a [Host]; what it writes is a list of [output]s,
    and it ends by running off the end of the script or with an exception
    that nothing caught. *)
(* ================================================================== *)

Module Startup.

(** An exception on its way up: an instance of [Exception] with the
    text that [str(e)] gives for it, [KeyboardInterrupt], or another
    exception that is no [Exception] ([SystemExit], [GeneratorExit]). *)
Inductive raised : Type :=
| Exception (message : string)
| KeyboardInterrupt
| BaseException.

(** What the script puts into the HTTP application it hands to
    [uvicorn.run]: the arguments of [FastAPI(...)] and, for each
    [@app.get(path)] of the script, the content its handler passes to
    [JSONResponse].  The routes that [FastAPI] sets up by itself (the
    OpenAPI schema and the documentation pages) are not the script's and
    are not part of this record. *)
Record App : Type := {
  title : string;
  version : string;
  handlers : list (string * M value)
}.

(** What the process finds when it starts:
    - [environ name] is [os.environ.get(name)];
    - [import_module name] is how [import name] ends: [None] when the
      module is found, the exception otherwise;
    - [int_of_str s] is [int(s)] for a [str]: the integer, or the
      [ValueError];
    - [uvicorn_run app host port log_level] is how
      [uvicorn.run(app, host=host, port=port, log_level=log_level)] ends,
      and [mcp_run] how [mcp.run()] ends: [None] when the call returns, the
      exception otherwise. *)
Record Host : Type := {
  environ : string -> option string;
  import_module : string -> option raised;
  int_of_str : string -> Z + raised;
  uvicorn_run : App -> string -> Z -> string -> option raised;
  mcp_run : option raised
}.

(** A record of the logger, by level, or a line given to [print]. *)
Inductive output : Type :=
| Logged_info (message : string)
| Logged_error (message : string)
| Printed (text : string).

(** [os.getenv(name)]: the value of the variable, or [None]. *)
Definition getenv (h : Host) (name : string) : option string := environ h name.

(** [os.getenv("HOST", "127.0.0.1")] *)
Definition host_of (h : Host) : string :=
  match getenv h "HOST" with
  | Some s => s
  | None => "127.0.0.1"
  end.

(** [int(os.getenv("PORT", 8000))]: a value of the variable is a [str]
    and is converted, the default is the integer itself. *)
Definition port_of (h : Host) : Z + raised :=
  match getenv h "PORT" with
  | Some s => int_of_str h s
  | None => inl 8000
  end.

(** The truth value of what [os.getenv(name)] returned: [None] and the
    empty string are false, every other string is true. *)
Definition truthy (v : option string) : bool :=
  match v with
  | Some s => negb (String.eqb s "")
  | None => false
  end.

(** The two handlers, as the content of the responses they build. *)
Definition health : M value :=
  (now <- datetime_now ;;
   ret (Dict [
     ("status", Str "healthy");
     ("timestamp", Str (DateTime.isoformat now));
     ("service", Str "HomeGenie MCP Server");
     ("version", Str "1.0.0")]))%monad.

Definition root : M value :=
  ret (Dict [
    ("service", Str "HomeGenie MCP Server");
    ("status", Str "running");
    ("tools", List [Str "get_weather_data"; Str "get_energy_prices"]);
    ("version", Str "1.0.0")]).

Definition app : App :=
  {| title := "HomeGenie MCP Server";
     version := "1.0.0";
     handlers := [("/health", health); ("/", root)] |}.

(** The first failure of a sequence of steps. *)
Definition and_then (first : option raised) (next : option raised) : option raised :=
  match first with
  | Some e => Some e
  | None => next
  end.

(** The body of the [try]: the production server when [HOST] is
    [0.0.0.0] or [PRODUCTION] is set to anything but the empty string, the
    stdio server otherwise. *)
Definition serve (h : Host) (host : string) (port : Z) : option raised :=
  if String.eqb host "0.0.0.0" || truthy (getenv h "PRODUCTION") then
    and_then (import_module h "fastapi")
      (and_then (import_module h "fastapi.responses")
         (uvicorn_run h app host port "info"))
  else mcp_run h.

(** The three lines logged before the server starts. *)
Definition starting (host : string) (port : Z) : list output :=
  [Logged_info "🏠 HomeGenie MCP Server starting...";
   Logged_info "Available tools: get_weather_data, get_energy_prices, health_check";
   Logged_info ("Starting server on " ++ host ++ ":" ++ PyStr.of_Z port)].

(** The two [except] clauses, on the way the [try] body ended. *)
Definition handled (ended : option raised) : list output * option raised :=
  match ended with
  | None => ([], None)
  | Some KeyboardInterrupt => ([Logged_info "Server stopped by user"], None)
  | Some (Exception message) =>
      ([Logged_error ("Server error: " ++ message);
        Printed ("❌ Error starting server: " ++ message);
        Printed (nl ++ "💡 For production, set HOST=0.0.0.0 environment variable")],
       None)
  | Some BaseException => ([], Some BaseException)
  end.

(** The script: what it wrote, and the exception it ended with, if any. *)
Definition main (h : Host) : list output * option raised :=
  match import_module h "uvicorn" with
  | Some e => ([], Some e)
  | None =>
      let host := host_of h in
      match port_of h with
      | inr e => ([], Some e)
      | inl port =>
          let '(written, e) := handled (serve h host port) in
          ((starting host port ++ written)%list, e)
      end
  end.

End Startup.
(* ================================================================== *)
(** ** Vocabulary of the statements *)
(* ================================================================== *)

(** The moment [i] hours after [base_time], where the calendar has one. *)
Definition hours_later (base_time : datetime) (i : Z) : datetime :=
  match DateTime.add_hours base_time i with
  | Some t => t
  | None => base_time
  end.

(** The forecast that starts at [base_time]. *)
Definition forecast_from (base_time : datetime) : list value :=
  map (fun i => forecast_point (hours_later base_time i)) (range 24).

(** [n] further readings of the clock. *)
Fixpoint ticks (n : nat) (w : World) : World :=
  match n with
  | O => w
  | S n' => ticks n' (tick w)
  end.

(** The clock reading that [get_mock_energy_prices] takes as [base_time]
    (its second one) is a well-formed [datetime] and lies before the last
    day of the calendar, so that the 23 hours after it exist. *)
Definition forecast_representable (w : World) : Prop :=
  let base_time := now_at w (S (clock_reads w)) in
  DateTime.valid base_time /\ DateTime.toordinal base_time < DateTime.MAXORDINAL.

(** [x] is finite, non-negative, has no exponent above 0, and its exact
    value lies between the integers [lo] and [hi]. *)
Definition between (lo hi : Z) (x : float) : Prop :=
  match x with
  | S754_zero _ => lo <= 0 <= hi
  | S754_finite false m e => e <= 0 /\ lo * 2 ^ (- e) <= Zpos m <= hi * 2 ^ (- e)
  | _ => False
  end.

(** The two kinds of draw stay in their ranges: a 53-bit numerator for
    [random.random()], and a number below [k] for a draw below [k]. *)
Definition random_source_ok (w : World) : Prop :=
  (forall n, 0 <= random_at w n < 2 ^ 53) /\
  (forall n k, 0 < k -> 0 <= randbelow_at w n k < k).

(** The three moments that [get_mock_weather_data] converts with
    [timestamp()]: its first clock reading, and 06:30 and 19:45 on the days
    of its second and third. *)
Definition converted_moments (w : World) : list datetime :=
  let c := clock_reads w in
  [now_at w c;
   DateTime.replace_hm (now_at w (S c)) 6 30;
   DateTime.replace_hm (now_at w (S (S c))) 19 45].

(** [timestamp()] raises for none of them. *)
Definition timestamps_defined (w : World) : Prop :=
  forall t, In t (converted_moments w) -> timestamp_error w t = None.

(** The exception of the first of them for which it raises. *)
Fixpoint first_error (errors : list (option exn)) : option exn :=
  match errors with
  | [] => None
  | Some e :: _ => Some e
  | None :: rest => first_error rest
  end.

Definition timestamps_error (w : World) : option exn :=
  first_error (map (timestamp_error w) (converted_moments w)).

(** [x] is the double of a one-decimal number [q / 10] with
    [lo <= q <= hi], and compares accordingly with the doubles of
    [lo / 10] and [hi / 10]. *)
Definition one_decimal_between (lo hi : Z) (x : float) : Prop :=
  exists q, lo <= q <= hi /\ x = PyFloat.of_decimal q 1 /\
            PyFloat.leb (PyFloat.of_decimal lo 1) x = true /\
            PyFloat.leb x (PyFloat.of_decimal hi 1) = true.

(** The check of the above over every [q] of the range. *)
Definition decimal_range_ok (lo hi : Z) : bool :=
  forallb (fun k => let x := PyFloat.of_decimal (lo + k) 1 in
                    PyFloat.leb (PyFloat.of_decimal lo 1) x &&
                    PyFloat.leb x (PyFloat.of_decimal hi 1))
          (range (Z.to_nat (hi - lo + 1))).

(** The value of [random.uniform(a, b)] when the numerator drawn is [k]. *)
Definition uniform_value (a b : float) (k : Z) : float :=
  PyFloat.add a (PyFloat.mul (PyFloat.sub b a)
                   (binary_normalize PyFloat.prec PyFloat.emax k (-53) false)).

(** The hours of the two priced bands, as the conditions test them. *)
Definition peak_hours (h : Z) : Prop := 7 <= h <= 9 \/ 17 <= h <= 20.
Definition off_peak_hours (h : Z) : Prop := h >= 22 \/ h <= 6.

(** [price_data["current_price"]["price_per_kwh"]] *)
Definition current_price_of (price_data : value) : outcome value :=
  (current <- Py.getitem price_data "current_price" ;;
   Py.getitem current "price_per_kwh")%outcome.

(** [price_data["price_forecast"][i][field]] *)
Definition forecast_field (price_data : value) (i : nat) (field : string) : outcome value :=
  (forecast <- Py.getitem price_data "price_forecast" ;;
   entry <- Py.getindex forecast i ;;
   Py.getitem entry field)%outcome.

(** [timestamp()] in UTC: it raises on the first day of the calendar,
    where the day before, which the conversion looks at, has no year. *)
Definition utc_timestamp_error (t : datetime) : option exn :=
  if (DateTime.toordinal t <=? 1)%Z then Some ValueError else None.

(** A world for the examples: the clock reads 2024-02-28 08:00:00 and
    advances by a millisecond per reading, the time zone is UTC, and the
    draws cycle. *)
Definition sample_world : World :=
  {| now_at := fun n => DateTime.mk 2024 2 28 8 0 0 (Z.of_nat n * 1000);
     clock_reads := 0;
     local_seconds := fun t => DateTime.to_seconds t - 62135683200;
     timestamp_error := utc_timestamp_error;
     random_at := fun n => (Z.of_nat n * 1234567890123457) mod 2 ^ 53;
     randbelow_at := fun n k => Z.of_nat n mod k;
     rng_calls := 0;
     log := [] |}.

(** The world after [n] draws. *)
Fixpoint draws (n : nat) (w : World) : World :=
  match n with
  | O => w
  | S n' => draws n' (next_draw w)
  end.

(** The element that [random.choice(seq)] picks at draw [n]. *)
Definition choice_at (seq : list string) (w : World) (n : nat) : string :=
  nth (Z.to_nat (randbelow_at w n (Z.of_nat (List.length seq)))) seq "".

(** The reading that [get_mock_weather_data] builds in the world [w]:
    seven draws, then three readings of the clock. *)
Definition generated_reading (location : string) (w : World) : value :=
  let n := rng_calls w in
  let c := clock_reads w in
  weather_reading location
    (PyFloat.round
       (uniform_value (PyFloat.of_decimal 150 1) (PyFloat.of_decimal 250 1) (random_at w n)) 1)
    (PyFloat.round
       (uniform_value (PyFloat.of_decimal 140 1) (PyFloat.of_decimal 260 1)
          (random_at w (S n))) 1)
    (40 + randbelow_at w (S (S n)) (80 - 40 + 1))
    (1000 + randbelow_at w (S (S (S n))) (1020 - 1000 + 1))
    (choice_at ["Clear"; "Clouds"; "Rain"] w (S (S (S (S n)))))
    (choice_at conditions w (S (S (S (S (S n))))))
    (PyFloat.round
       (uniform_value (PyFloat.of_decimal 10 1) (PyFloat.of_decimal 100 1)
          (random_at w (S (S (S (S (S (S n)))))))) 1)
    (timestamp_at w (now_at w c))
    (timestamp_at w (DateTime.replace_hm (now_at w (S c)) 6 30))
    (timestamp_at w (DateTime.replace_hm (now_at w (S (S c))) 19 45)).

(** *** The weather report *)

(** [x < n] for a float and an integer. *)
Definition below (x : float) (n : Z) : bool := Py.lt_of (PyFloat.compare_Z x n).

(** The three recommendations as functions of the temperature and of
    the description. *)
Definition heating_for (temp : float) : string :=
  if below temp 18 then "Increase" else if below temp 22 then "Maintain" else "Decrease".

Definition lighting_for (description : string) : string :=
  if PyStr.contains "cloud" description || PyStr.contains "rain" description
  then "Low - consider increasing indoor lighting" else "Good".

Definition window_for (description : string) : string :=
  if PyStr.contains "rain" description then "Close windows" else "Consider ventilation".

(** The text of the report for a reading with these fields. *)
Definition weather_text (reading : value) (name : string) (temp : float)
    (humidity pressure : Z) (description : string) (speed : float) : string :=
  "🌤️ Weather Data for " ++ name ++ ":" ++ nl ++
  "        " ++ nl ++
  "📊 Current Conditions:" ++ nl ++
  "• Temperature: " ++ PyFloat.repr temp ++ "°C" ++ nl ++
  "• Description: " ++ PyStr.title description ++ nl ++
  "• Humidity: " ++ PyStr.of_Z humidity ++ "%" ++ nl ++
  "• Wind Speed: " ++ PyFloat.repr speed ++ " m/s" ++ nl ++
  "• Pressure: " ++ PyStr.of_Z pressure ++ " hPa" ++ nl ++
  nl ++
  "🏠 HomeGenie Impact:" ++ nl ++
  "• Heating recommendation: " ++ heating_for temp ++ nl ++
  "• Natural lighting: " ++ lighting_for description ++ nl ++
  "• Window management: " ++ window_for description ++ nl ++
  nl ++
  "📱 Raw Data: " ++ dumps (Some 2%nat) reading.

(** The lighting rule in the words of the specification: the test
    ignores case, and the label is the one the specification quotes. *)
Definition lighting_as_specified (description : string) : string :=
  if PyStr.contains "cloud" (PyStr.lower description) ||
     PyStr.contains "rain" (PyStr.lower description)
  then "Low, increase indoor lighting" else "Good".

(** *** The energy report *)

(** The two recommendations as functions of the price and of the
    period. *)
Definition cost_for (price : float) : string :=
  if PyFloat.ltb (PyFloat.of_decimal 35 2) price then "High cost - consider energy saving"
  else if PyFloat.ltb (PyFloat.of_decimal 20 2) price then "Standard cost"
  else "Low cost - good time for energy-intensive tasks".

Definition action_for (period : string) : string :=
  if String.eqb period "peak" then "Delay washing/heating"
  else if String.eqb period "off_peak" then "Good time for appliances"
  else "Normal usage".

(** The cost rule in the words of the specification: the labels are
    the ones the specification quotes. *)
Definition cost_as_specified (price : float) : string :=
  if PyFloat.ltb (PyFloat.of_decimal 35 2) price then "High cost"
  else if PyFloat.ltb (PyFloat.of_decimal 20 2) price then "Standard cost"
  else "Low cost, good time for energy-intensive tasks".

(** The text of the summary for a report with these fields. *)
Definition summary_for (region : string) (price : float) (period timestamp : string) : string :=
  "⚡ Energy Prices for " ++ region ++ ":" ++ nl ++
  "        " ++ nl ++
  "💰 Current Price:" ++ nl ++
  "• Price: €" ++ PyFloat.repr price ++ "/kWh" ++ nl ++
  "• Period: " ++ PyStr.title (PyStr.replace "_" " " period) ++ nl ++
  "• Currency: " ++ "EUR" ++ nl ++
  "• Last Updated: " ++ PyStr.take 19 timestamp ++ nl ++
  nl ++
  "🏠 HomeGenie Recommendations:" ++ nl ++
  "• Period Type: " ++ PyStr.title (PyStr.replace "_" " " period) ++ nl ++
  "• Cost Impact: " ++ cost_for price ++ nl ++
  "• Smart Actions: " ++ action_for period.

(** The forecast line for the moment [time]. *)
Definition line_for (time : datetime) : string :=
  "• " ++ DateTime.strftime_HM time ++ ": €" ++
  PyFloat.repr (tier_price (DateTime.hour time)) ++ "/kWh (" ++
  tier_label (DateTime.hour time) ++ ")" ++ nl.

(** The moments of the first [n] forecast entries. *)
Definition first_hours (base_time : datetime) (n : nat) : list datetime :=
  map (fun i => hours_later base_time i) (range n).

(** The forecast section: its header and the eight lines. *)
Definition forecast_text (base_time : datetime) : string :=
  forecast_header ++ String.concat "" (map line_for (first_hours base_time 8)).

(** What [get_energy_prices] returns on [w]: the report it formats. *)
Definition report_at (region : string) (w : World) : value :=
  let n := clock_reads w in
  energy_price_report region
    (DateTime.isoformat (now_at w (S (S n))))
    (tier_price (DateTime.hour (now_at w n)))
    (tier_label (DateTime.hour (now_at w n)))
    (forecast_from (now_at w (S n)))
    (DateTime.isoformat (now_at w (S (S (S n))))).

(** The summary of that report. *)
Definition summary_at (region : string) (w : World) : string :=
  let n := clock_reads w in
  summary_for region
    (tier_price (DateTime.hour (now_at w n)))
    (tier_label (DateTime.hour (now_at w n)))
    (DateTime.isoformat (now_at w (S (S n)))).

(** [x] occurs in [s]. *)
Definition occurs_in (x s : string) : Prop := exists pre post, s = pre ++ x ++ post.

(** *** Request defaults in the words of the specification *)

(** An absent or empty [location] becomes ["London"]. *)
Definition location_as_specified (input : option string) : string :=
  match input with
  | None => "London"
  | Some s => if String.eqb s "" then "London" else s
  end.

(** *** The health payload *)

Definition is_digit (c : ascii) : bool :=
  let n := nat_of_ascii c in (48 <=? n)%nat && (n <=? 57)%nat.

(** [s] is [n] digits followed by a text that [rest] accepts. *)
Fixpoint digits_then (n : nat) (rest : string -> bool) (s : string) : bool :=
  match n with
  | O => rest s
  | S n' =>
      match s with
      | String c s' => is_digit c && digits_then n' rest s'
      | EmptyString => false
      end
  end.

(** [s] is the character [c] followed by a text that [rest] accepts. *)
Definition char_then (c : ascii) (rest : string -> bool) (s : string) : bool :=
  match s with
  | String c' s' => Ascii.eqb c' c && rest s'
  | EmptyString => false
  end.

Definition is_empty (s : string) : bool :=
  match s with EmptyString => true | _ => false end.

(** The extended ISO 8601 form [YYYY-MM-DDTHH:MM:SS], with an optional
    fraction of six digits. *)
Definition iso_fraction (s : string) : bool :=
  is_empty s || char_then "." (digits_then 6 is_empty) s.

Definition iso_time : string -> bool :=
  digits_then 2 (char_then ":" (digits_then 2 (char_then ":" (digits_then 2 iso_fraction)))).

Definition iso8601 : string -> bool :=
  digits_then 4 (char_then "-" (digits_then 2 (char_then "-" (digits_then 2
    (char_then "T" iso_time))))).

Fixpoint all_digits (s : string) : bool :=
  match s with
  | EmptyString => true
  | String c s' => is_digit c && all_digits s'
  end.

(** Printable ASCII other than the quote and the backslash: what
    [json.dumps] copies unchanged. *)
Definition is_plain (c : ascii) : bool :=
  let n := nat_of_ascii c in
  (32 <=? n)%nat && (n <=? 126)%nat && negb (n =? 34)%nat && negb (n =? 92)%nat.

Fixpoint all_plain (s : string) : bool :=
  match s with
  | EmptyString => true
  | String c s' => is_plain c && all_plain s'
  end.

(** The text that [health_check] returns for the clock reading [now]. *)
Definition health_payload (now : datetime) : string :=
  "{" ++ dquote ++ "status" ++ dquote ++ ": " ++ dquote ++ "healthy" ++ dquote ++ ", " ++
  dquote ++ "timestamp" ++ dquote ++ ": " ++ dquote ++ DateTime.isoformat now ++ dquote ++ ", " ++
  dquote ++ "service" ++ dquote ++ ": " ++ dquote ++ "HomeGenie MCP Server" ++ dquote ++ ", " ++
  dquote ++ "version" ++ dquote ++ ": " ++ dquote ++ "1.0.0" ++ dquote ++ "}".

(* ================================================================== *)
(** ** Vocabulary of the further properties *)
(* ================================================================== *)

Local Open Scope string_scope.
Local Open Scope Z_scope.

(** *** The calendar *)

Module Calendar.

Import DateTime.

(** The number of day [d] of month [m] in its year, from 1. *)
(** The day [d] of month [m] is found again from its number in the year. *)
Definition day_of_year (leap : bool) (m d : Z) : Z :=
  table DAYS_BEFORE_MONTH m + (if (2 <? m) && leap then 1 else 0) + d.

Definition month_length (leap : bool) (m : Z) : Z :=
  if (m =? 2) && leap then 29 else table DAYS_IN_MONTH m.

(** The day [d] of month [m] is found again from its number in the
    year, which is at most 365 or 366 and is 366 only on 31 December. *)
Definition day_found_again (leap : bool) (md : Z * Z) : bool :=
  let '(m, d) := md in
  let n := day_of_year leap m d in
  implb (d <=? month_length leap m)
    (let '(m', d') := month_day leap (n - 1) in
     (m' =? m) && (d' =? d) && (1 <=? n) && (n <=? (if leap then 366 else 365)) &&
     implb (n =? 366) ((m =? 12) && (d =? 31))).

Definition month_days : list (Z * Z) :=
  list_prod (map Z.of_nat (seq 1 12)) (map Z.of_nat (seq 1 31)).

End Calendar.

(** [t] with its microseconds dropped. *)
Definition whole_second (t : datetime) : datetime :=
  DateTime.mk (DateTime.year t) (DateTime.month t) (DateTime.day t)
    (DateTime.hour t) (DateTime.minute t) (DateTime.second t) 0.

(** The forms [HH:MM] and [YYYY-MM-DD]. *)
Definition clock_text : string -> bool :=
  digits_then 2 (char_then ":" (digits_then 2 is_empty)).

Definition date_text : string -> bool :=
  digits_then 4 (char_then "-" (digits_then 2 (char_then "-" (digits_then 2 is_empty)))).

(** *** The price forecast *)

(** The label of the [period] field of a forecast entry. *)
Definition period_of (entry : value) : string :=
  match Py.getitem entry "period" with
  | Ok (Str s) => s
  | _ => ""
  end.

(** How many entries of [forecast] carry the period [label]. *)
Definition period_count (label : string) (forecast : list value) : nat :=
  count_occ string_dec (map period_of forecast) label.

(** The labels of a forecast that starts at the hour [h]. *)
Definition labels_from (h : Z) : list string :=
  map (fun i => tier_label ((h + i) mod 24)) (range 24).

(** The check that a day has 7 peak, 9 off-peak and 8 standard hours,
    wherever it starts. *)
Definition day_counts_ok (h : Z) : bool :=
  (count_occ string_dec (labels_from h) "peak" =? 7)%nat &&
  (count_occ string_dec (labels_from h) "off_peak" =? 9)%nat &&
  (count_occ string_dec (labels_from h) "standard" =? 8)%nat.

(** [price_data["current_price"][field]] and
    [price_data["market_info"][field]] *)
Definition current_field (price_data : value) (field : string) : outcome value :=
  (current <- Py.getitem price_data "current_price" ;; Py.getitem current field)%outcome.

Definition market_field (price_data : value) (field : string) : outcome value :=
  (market <- Py.getitem price_data "market_info" ;; Py.getitem market field)%outcome.

(** The keys of a dictionary, in their order. *)
Definition keys (d : value) : list string :=
  match d with
  | Dict items => map fst items
  | _ => []
  end.

(** *** Worlds and replies *)

(** A clock that stands at [t]. *)
Definition world_at (t : datetime) : World :=
  {| now_at := fun _ => t;
     clock_reads := 0;
     local_seconds := fun t => DateTime.to_seconds t - 62135683200;
     timestamp_error := utc_timestamp_error;
     random_at := fun _ => 0;
     randbelow_at := fun _ _ => 0;
     rng_calls := 0;
     log := [] |}.

(** [sample_world] with another random source, another log and another
    time zone, one on which no [timestamp()] succeeds. *)
Definition other_sources : World :=
  {| now_at := now_at sample_world;
     clock_reads := clock_reads sample_world;
     local_seconds := fun t => DateTime.to_seconds t;
     timestamp_error := fun _ => Some OverflowError;
     random_at := fun _ => 1;
     randbelow_at := fun _ _ => 0;
     rng_calls := 5;
     log := ["started"] |}.

(** A random source whose draws in [0, 1) all have the numerator [k] and
    whose draws below [n] all give [j], reduced below [n]. *)
Definition world_drawing (k j : Z) : World :=
  {| now_at := now_at sample_world;
     clock_reads := 0;
     local_seconds := local_seconds sample_world;
     timestamp_error := timestamp_error sample_world;
     random_at := fun _ => k;
     randbelow_at := fun _ n => j mod n;
     rng_calls := 0;
     log := [] |}.

(** What a call answers, the state it leaves apart. *)
Definition answer {A} (o : outcome (A * World)) : outcome A :=
  match o with
  | Ok (a, _) => Ok a
  | Raise e => Raise e
  end.

(** [d] with the value of its first entry replaced by [v]. *)
Definition with_first (v : value) (d : value) : value :=
  match d with
  | Dict ((k, _) :: rest) => Dict ((k, v) :: rest)
  | _ => d
  end.

(** The same reply for another name in the first entry. *)
Definition renamed (name : string) (o : outcome (value * World)) : outcome (value * World) :=
  match o with
  | Ok (d, w) => Ok (with_first (Str name) d, w)
  | Raise e => Raise e
  end.

(** *** The weather reading *)

(** [reading["main"][field]] and [reading["wind"]["speed"]] *)
Definition main_field (reading : value) (field : string) : outcome value :=
  (main <- Py.getitem reading "main" ;; Py.getitem main field)%outcome.

(** [reading["weather"][0][field]] *)
Definition weather_field (reading : value) (field : string) : outcome value :=
  (weather <- Py.getitem reading "weather" ;;
   first <- Py.getindex weather 0 ;;
   Py.getitem first field)%outcome.

Definition wind_speed_of (reading : value) : outcome value :=
  (wind <- Py.getitem reading "wind" ;; Py.getitem wind "speed")%outcome.

(** The decimal text of [q / 10], with its one decimal. *)
Definition one_decimal_text (q : Z) : string :=
  PyStr.of_Z (q / 10) ++ "." ++ PyStr.of_Z (q mod 10).

(** The check that every one-decimal number of a range prints as such. *)
Definition prints_one_decimal (lo hi : Z) : bool :=
  forallb (fun k => String.eqb (PyFloat.repr (PyFloat.of_decimal (lo + k) 1))
                      (one_decimal_text (lo + k)))
          (range (Z.to_nat (hi - lo + 1))).

(** The same float, field by field. *)
Definition same_float (x y : float) : bool :=
  match x, y with
  | S754_zero a, S754_zero b => Bool.eqb a b
  | S754_infinity a, S754_infinity b => Bool.eqb a b
  | S754_nan, S754_nan => true
  | S754_finite a m e, S754_finite b n f => Bool.eqb a b && Pos.eqb m n && Z.eqb e f
  | _, _ => false
  end.

(** A numerator that makes [random.uniform(lo / 10, hi / 10)] round to
    [q / 10]. *)
Definition draw_for (lo hi q : Z) : Z :=
  Z.min (2 ^ 53 - 1) ((q - lo) * 2 ^ 53 / (hi - lo)).

(** The check that every one-decimal number of a range is reached. *)
Definition draws_reach (lo hi : Z) : bool :=
  forallb (fun k =>
             same_float (PyFloat.round
                      (uniform_value (PyFloat.of_decimal lo 1) (PyFloat.of_decimal hi 1)
                         (draw_for lo hi (lo + k))) 1)
                   (PyFloat.of_decimal (lo + k) 1))
          (range (Z.to_nat (hi - lo + 1))).

(** [reading["sys"][field]] *)
Definition sys_field (reading : value) (field : string) : outcome value :=
  (sys <- Py.getitem reading "sys" ;; Py.getitem sys field)%outcome.

(** [x] is finite, non-negative, has no exponent above [- k], and its
    exact value lies between [lo / 2^k] and [hi / 2^k]. *)
Definition between_at (k lo hi : Z) (x : float) : Prop :=
  match x with
  | S754_zero _ => lo <= 0 <= hi
  | S754_finite false m e => e <= - k /\ lo * 2 ^ (- k - e) <= Zpos m <= hi * 2 ^ (- k - e)
  | _ => False
  end.

(** *** The raw data *)

(** A printable ASCII character or a line feed. *)
Definition is_text (c : ascii) : bool :=
  let n := nat_of_ascii c in ((32 <=? n)%nat && (n <=? 126)%nat) || (n =? 10)%nat.

Fixpoint all_text (s : string) : bool :=
  match s with
  | EmptyString => true
  | String c s' => is_text c && all_text s'
  end.

(** *** The main block *)

(** The process runs the HTTP server. *)
Definition production (h : Startup.Host) : Prop :=
  Startup.host_of h = "0.0.0.0" \/
  exists s, Startup.environ h "PRODUCTION" = Some s /\ s <> "".

(** How the script ends when the server it runs ends as [ended]: the
    three starting lines, then what the [except] clauses do. *)
Definition script_after (h : Startup.Host) (port : Z) (ended : option Startup.raised)
  : list Startup.output * option Startup.raised :=
  ((Startup.starting (Startup.host_of h) port ++ fst (Startup.handled ended))%list,
   snd (Startup.handled ended)).

(** Two hosts for the examples, with [PRODUCTION=false] and no other
    variable, where every module is found and [uvicorn.run] returns: on the
    first [mcp.run()] returns, on the second it fails. *)
Definition sample_host : Startup.Host :=
  {| Startup.environ :=
       fun name => if String.eqb name "PRODUCTION" then Some "false" else None;
     Startup.import_module := fun _ => None;
     Startup.int_of_str := fun _ => inr (Startup.Exception "invalid literal for int()");
     Startup.uvicorn_run := fun _ _ _ _ => None;
     Startup.mcp_run := None |}.

Definition sample_host_without_stdio : Startup.Host :=
  {| Startup.environ := Startup.environ sample_host;
     Startup.import_module := Startup.import_module sample_host;
     Startup.int_of_str := Startup.int_of_str sample_host;
     Startup.uvicorn_run := Startup.uvicorn_run sample_host;
     Startup.mcp_run := Some (Startup.Exception "no stdio") |}.

(* ================================================================== *)
(** * Properties *)
(* ================================================================== *)

Local Open Scope Z_scope.

(** ** Calendar arithmetic *)

Module DateTimeFacts.

Import DateTime.
Local Open Scope Z_scope.

Lemma is_leap_decomposed n400 n100 n4 n1 :
  0 <= n400 -> 0 <= n100 <= 3 -> 0 <= n4 <= 24 -> 0 <= n1 <= 3 ->
  is_leap (n400 * 400 + 1 + n100 * 100 + n4 * 4 + n1) =
  (n1 =? 3) && (negb (n4 =? 24) || (n100 =? 3)).
Proof.
  intros H400 H100 H4 H1. unfold is_leap.
  set (y := n400 * 400 + 1 + n100 * 100 + n4 * 4 + n1).
  assert (E4 : y mod 4 = 0 <-> n1 = 3) by (subst y; Z.div_mod_to_equations; lia).
  assert (E100 : y mod 100 = 0 <-> (n1 = 3 /\ n4 = 24)) by (subst y; Z.div_mod_to_equations; lia).
  assert (E400 : y mod 400 = 0 <-> (n1 = 3 /\ n4 = 24 /\ n100 = 3)) by (subst y; Z.div_mod_to_equations; lia).
  destruct (Z.eqb_spec (y mod 4) 0), (Z.eqb_spec (y mod 100) 0), (Z.eqb_spec (y mod 400) 0),
    (Z.eqb_spec n1 3), (Z.eqb_spec n4 24), (Z.eqb_spec n100 3); simpl; try reflexivity; lia.
Qed.

Lemma days_before_year_decomposed n400 n100 n4 n1 :
  0 <= n400 -> 0 <= n100 <= 3 -> 0 <= n4 <= 24 -> 0 <= n1 <= 3 ->
  days_before_year (n400 * 400 + 1 + n100 * 100 + n4 * 4 + n1) =
  n400 * DI400Y + n100 * DI100Y + n4 * DI4Y + n1 * 365.
Proof.
  intros. unfold days_before_year, DI400Y, DI100Y, DI4Y. cbv zeta.
  replace (n400 * 400 + 1 + n100 * 100 + n4 * 4 + n1 - 1) with (n400 * 400 + n100 * 100 + n4 * 4 + n1) by lia.
  Z.div_mod_to_equations. lia.
Qed.

Lemma month_day_table leap :
  forallb (month_day_ok leap) (map Z.of_nat (seq 0 (if leap then 366 else 365))) = true.
Proof. destruct leap; vm_compute; reflexivity. Qed.

Lemma month_day_spec (leap : bool) (n : Z) :
  0 <= n < (if leap then 366 else 365) -> month_day_ok leap n = true.
Proof.
  intros Hn.
  pose proof (month_day_table leap) as T.
  rewrite forallb_forall in T. apply T.
  apply in_map_iff. exists (Z.to_nat n). split; [lia|].
  apply in_seq. destruct leap; lia.
Qed.

Lemma ymd2ord_ord2ymd n :
  1 <= n ->
  let '(y, m, d) := ord2ymd n in ymd2ord y m d = n.
Proof.
  intros Hn. unfold ord2ymd. cbv zeta.
  set (n0 := n - 1).
  set (n400 := n0 / DI400Y). set (r1 := n0 mod DI400Y).
  set (n100 := r1 / DI100Y). set (r2 := r1 mod DI100Y).
  set (n4 := r2 / DI4Y). set (r3 := r2 mod DI4Y).
  set (n1 := r3 / 365). set (r4 := r3 mod 365).
  assert (D1 : n0 = DI400Y * n400 + r1 /\ 0 <= r1 < DI400Y /\ 0 <= n400)
    by (subst n400 r1; unfold DI400Y; Z.div_mod_to_equations; lia).
  assert (D2 : r1 = DI100Y * n100 + r2 /\ 0 <= r2 < DI100Y /\ 0 <= n100 <= 4)
    by (subst n100 r2; unfold DI100Y, DI400Y in *; Z.div_mod_to_equations; lia).
  assert (D3 : r2 = DI4Y * n4 + r3 /\ 0 <= r3 < DI4Y /\ 0 <= n4 <= 24)
    by (subst n4 r3; unfold DI100Y, DI4Y in *; Z.div_mod_to_equations; lia).
  assert (D4 : r3 = 365 * n1 + r4 /\ 0 <= r4 < 365 /\ 0 <= n1 <= 4)
    by (subst n1 r4; unfold DI4Y in *; Z.div_mod_to_equations; lia).
  clearbody n400 r1 n100 r2 n4 r3 n1 r4. subst n0.
  unfold DI400Y, DI100Y, DI4Y in *.
  destruct (Z.eqb_spec n1 4) as [E1|E1]; [|destruct (Z.eqb_spec n100 4) as [E100|E100]]; simpl orb; cbv iota.
  - (* last day of a leap year that ends a 4-year cycle *)
    assert (n4 <= 23 /\ n100 <= 3) by lia.
    replace (n400 * 400 + 1 + n100 * 100 + n4 * 4 + n1 - 1)
      with (n400 * 400 + 1 + n100 * 100 + n4 * 4 + 3) by lia.
    unfold ymd2ord, days_before_month.
    rewrite is_leap_decomposed, days_before_year_decomposed by lia.
    replace (n4 =? 24) with false by (symmetry; apply Z.eqb_neq; lia).
    change (table DAYS_BEFORE_MONTH 12) with 334.
    simpl. unfold DI400Y, DI100Y, DI4Y. lia.
  - (* last day of a 400-year cycle *)
    replace (n400 * 400 + 1 + n100 * 100 + n4 * 4 + n1 - 1)
      with (n400 * 400 + 1 + 3 * 100 + 24 * 4 + 3) by lia.
    unfold ymd2ord, days_before_month.
    rewrite is_leap_decomposed, days_before_year_decomposed by lia.
    change (table DAYS_BEFORE_MONTH 12) with 334.
    simpl. unfold DI400Y, DI100Y, DI4Y. lia.
  - set (leap := (n1 =? 3) && (negb (n4 =? 24) || (n100 =? 3))).
    assert (Hr4 : 0 <= r4 < (if leap then 366 else 365)) by (destruct leap; lia).
    pose proof (month_day_spec leap r4 Hr4) as S. unfold month_day_ok in S.
    destruct (month_day leap r4) as [m d].
    rewrite !andb_true_iff in S. destruct S as [[[[S1 _] _] _] _].
    apply Z.eqb_eq in S1.
    unfold ymd2ord, days_before_month.
    rewrite is_leap_decomposed, days_before_year_decomposed by lia.
    fold leap. unfold DI400Y, DI100Y, DI4Y. lia.
Qed.

Lemma valid_fields t :
  valid t ->
  1 <= year t <= 9999 /\ 1 <= month t <= 12 /\
  1 <= day t <= days_in_month (year t) (month t) /\
  0 <= hour t < 24 /\ 0 <= minute t < 60 /\ 0 <= second t < 60 /\
  0 <= microsecond t < 1000000.
Proof.
  unfold valid, validb. rewrite !andb_true_iff.
  rewrite !Z.leb_le, !Z.ltb_lt. tauto.
Qed.

Lemma days_before_month_nonneg y m : 1 <= m <= 12 -> 0 <= days_before_month y m.
Proof.
  intros Hm. unfold days_before_month.
  assert (0 <= table DAYS_BEFORE_MONTH m).
  { assert (C : m = 1 \/ m = 2 \/ m = 3 \/ m = 4 \/ m = 5 \/ m = 6 \/ m = 7 \/
                m = 8 \/ m = 9 \/ m = 10 \/ m = 11 \/ m = 12) by lia.
    repeat (destruct C as [-> | C]; [vm_compute; discriminate|]). subst m. vm_compute; discriminate. }
  destruct ((2 <? m) && is_leap y); lia.
Qed.

Lemma toordinal_pos t : valid t -> 1 <= toordinal t.
Proof.
  intros V. apply valid_fields in V. destruct V as (Hy & Hm & Hd & _).
  unfold toordinal, ymd2ord.
  pose proof (days_before_month_nonneg (year t) (month t) Hm).
  assert (0 <= days_before_year (year t)).
  { unfold days_before_year. cbv zeta. Z.div_mod_to_equations. lia. }
  lia.
Qed.

Lemma add_hours_spec t i :
  valid t -> 0 <= i <= 23 -> toordinal t < MAXORDINAL ->
  exists t',
    add_hours t i = Some t' /\
    hour t' = (hour t + i) mod 24 /\
    minute t' = minute t /\ second t' = second t /\
    microsecond t' = microsecond t /\
    to_seconds t' = to_seconds t + 3600 * i.
Proof.
  intros V Hi Hmax.
  pose proof (toordinal_pos t V) as Hpos.
  apply valid_fields in V. destruct V as (_ & _ & _ & Hh & Hmi & Hs & _).
  unfold add_hours. cbv zeta.
  set (secs := hour t * 3600 + minute t * 60 + second t + i * 3600).
  set (days := toordinal t + secs / 86400).
  assert (Hsecs : 0 <= secs < 2 * 86400) by (subst secs; lia).
  assert (Hdays : 1 <= days <= MAXORDINAL).
  { subst days. unfold MAXORDINAL in *. Z.div_mod_to_equations. lia. }
  replace ((0 <? days) && (days <=? MAXORDINAL)) with true
    by (symmetry; apply andb_true_iff; split; [apply Z.ltb_lt | apply Z.leb_le]; lia).
  pose proof (ymd2ord_ord2ymd days (proj1 Hdays)) as R.
  destruct (ord2ymd days) as [[y m] d].
  eexists. split; [reflexivity|].
  unfold to_seconds, toordinal. cbn [year month day hour minute second microsecond].
  rewrite R.
  repeat split.
  - subst secs. Z.div_mod_to_equations. lia.
  - subst secs. Z.div_mod_to_equations. lia.
  - subst secs. Z.div_mod_to_equations. lia.
  - replace (ymd2ord (year t) (month t) (day t) * 86400 + hour t * 3600 + minute t * 60 +
             second t + 3600 * i)
      with (toordinal t * 86400 + secs) by (subst secs; unfold toordinal; lia).
    subst days. clearbody secs. Z.div_mod_to_equations. lia.
Qed.

End DateTimeFacts.

(** ** Floating point: rounding keeps integer bounds *)

Module FloatFacts.

Local Open Scope Z_scope.

Lemma digits2_pos_size p : digits2_pos p = Pos.size p.
Proof. induction p; simpl; now rewrite ?IHp. Qed.

Lemma digits_lower p : 2 ^ Zpos (digits2_pos p) <= 2 * Zpos p.
Proof.
  rewrite digits2_pos_size. pose proof (Pos.size_le p) as H.
  rewrite <- Pos2Z.inj_pow. exact H.
Qed.

(** A bound on a mantissa bounds its number of digits. *)
Lemma digits_le m k : 0 <= k -> 0 <= m < 2 ^ k -> Zdigits2 m <= k.
Proof.
  intros Hk [H0 H]. destruct m as [|p|p]; [simpl; lia| |lia].
  unfold Zdigits2. pose proof (digits_lower p) as L.
  destruct (Z_le_gt_dec (Zpos (digits2_pos p)) k) as [|G]; [assumption|exfalso].
  assert (2 ^ (k + 1) <= 2 ^ Zpos (digits2_pos p)) by (apply Z.pow_le_mono_r; lia).
  rewrite Z.pow_add_r, Z.pow_1_r in H1 by lia. lia.
Qed.

Lemma iter_pos_nat {A} (f : A -> A) p x :
  iter_pos f p x = Nat.iter (Pos.to_nat p) f x.
Proof.
  revert x. induction p as [p IH|p IH|]; intros x; cbn [iter_pos].
  - rewrite !IH, Pos2Nat.inj_xI, <- Nat.iter_add, <- Nat.iter_succ_r.
    f_equal. lia.
  - rewrite !IH, Pos2Nat.inj_xO, <- Nat.iter_add. f_equal. lia.
  - reflexivity.
Qed.

Lemma shr_1_m mrs : 0 <= shr_m mrs -> shr_m (shr_1 mrs) = shr_m mrs / 2.
Proof.
  destruct mrs as [m r s]. simpl. intros H.
  destruct m as [|[p|p|]|p]; simpl; try reflexivity; try lia.
  - rewrite Pos2Z.inj_xI. apply Z.div_unique with 1; lia.
  - rewrite Pos2Z.inj_xO. apply Z.div_unique with 0; lia.
Qed.

Lemma shr_1_exact mrs :
  0 <= shr_m mrs -> shr_m mrs mod 2 = 0 -> shr_r mrs = false -> shr_s mrs = false ->
  shr_r (shr_1 mrs) = false /\ shr_s (shr_1 mrs) = false.
Proof.
  destruct mrs as [m r s]. simpl. intros H E -> ->.
  destruct m as [|[p|p|]|p]; simpl; auto; try lia.
  - rewrite Pos2Z.inj_xI in E. exfalso. Z.div_mod_to_equations. lia.
  - discriminate E.
Qed.

Lemma shr_iter n m :
  0 <= m ->
  let mrs := Nat.iter n shr_1 (Build_shr_record m false false) in
  shr_m mrs = m / 2 ^ Z.of_nat n /\
  (m mod 2 ^ Z.of_nat n = 0 -> shr_r mrs = false /\ shr_s mrs = false).
Proof.
  intros Hm. induction n as [|n IH]; cbv zeta in *.
  - simpl. rewrite Z.div_1_r. auto.
  - rewrite Nat.iter_succ. destruct IH as [IHm IHe].
    set (mrs := Nat.iter n shr_1 _) in *.
    assert (P : 0 < 2 ^ Z.of_nat n) by (apply Z.pow_pos_nonneg; lia).
    assert (N : 0 <= shr_m mrs) by (rewrite IHm; apply Z.div_pos; lia).
    assert (E : 2 ^ Z.of_nat (S n) = 2 ^ Z.of_nat n * 2)
      by (rewrite Nat2Z.inj_succ, Z.pow_succ_r; lia).
    split.
    + rewrite shr_1_m, IHm, E by exact N. now rewrite Z.div_div by lia.
    + intros Ex. rewrite E in Ex.
      assert (m mod 2 ^ Z.of_nat n = 0 /\ (m / 2 ^ Z.of_nat n) mod 2 = 0) as [E1 E2].
      { rewrite Z.rem_mul_r in Ex by lia.
        pose proof (Z.mod_pos_bound m (2 ^ Z.of_nat n) P).
        pose proof (Z.mod_pos_bound (m / 2 ^ Z.of_nat n) 2 ltac:(lia)). nia. }
      destruct (IHe E1) as [Hr Hs]. apply shr_1_exact; auto. now rewrite IHm.
Qed.

Lemma rne_bounds q l : q <= round_nearest_even q l <= q + 1.
Proof.
  destruct l as [|[| |]]; simpl; try lia. destruct (Z.even q); lia.
Qed.

Lemma loc_exact mrs :
  shr_r mrs = false -> shr_s mrs = false -> loc_of_shr_record mrs = loc_Exact.
Proof. destruct mrs as [m r s]. simpl. now intros -> ->. Qed.

Lemma fexp_eq e : fexp PyFloat.prec PyFloat.emax e = Z.max (e - 53) (-1074).
Proof. reflexivity. Qed.

(** One truncation step of rounding keeps integer bounds. *)
Lemma shr_fexp_stage m e lo hi :
  0 <= m -> e <= 0 -> 0 <= lo -> hi < 2 ^ 53 ->
  lo * 2 ^ (- e) <= m <= hi * 2 ^ (- e) ->
  exists mrs e',
    shr_fexp PyFloat.prec PyFloat.emax m e loc_Exact = (mrs, e') /\
    e' <= 0 /\
    lo * 2 ^ (- e') <= shr_m mrs /\
    shr_m mrs <= round_nearest_even (shr_m mrs) (loc_of_shr_record mrs) /\
    round_nearest_even (shr_m mrs) (loc_of_shr_record mrs) <= hi * 2 ^ (- e').
Proof.
  intros Hm He Hlo Hhi [L H].
  assert (P : 0 < 2 ^ (- e)) by (apply Z.pow_pos_nonneg; lia).
  assert (D : Zdigits2 m <= 53 - e).
  { apply digits_le; [lia|]. split; [assumption|].
    replace (53 - e) with (53 + - e) by lia. rewrite Z.pow_add_r by lia. nia. }
  unfold shr_fexp. rewrite fexp_eq.
  set (s := Z.max (Zdigits2 m + e - 53) (-1074) - e).
  assert (Hs : e + s <= 0) by (subst s; lia).
  unfold shr, shr_record_of_loc.
  destruct s as [|p|p] eqn:Es.
  - eexists _, _. split; [reflexivity|]. cbn [shr_m loc_of_shr_record round_nearest_even]. lia.
  - eexists _, _. split; [reflexivity|].
    rewrite iter_pos_nat.
    destruct (shr_iter (Pos.to_nat p) m Hm) as [Em Ee].
    rewrite positive_nat_Z in Em, Ee.
    set (mrs := Nat.iter (Pos.to_nat p) shr_1 _) in *.
    assert (Q : 0 < 2 ^ Z.pos p) by (apply Z.pow_pos_nonneg; lia).
    assert (Q' : 0 < 2 ^ (- (e + Z.pos p))) by (apply Z.pow_pos_nonneg; lia).
    assert (S : 2 ^ (- e) = 2 ^ (- (e + Z.pos p)) * 2 ^ Z.pos p).
    { rewrite <- Z.pow_add_r by lia. f_equal. lia. }
    rewrite S in L, H.
    pose proof (rne_bounds (shr_m mrs) (loc_of_shr_record mrs)) as B.
    split; [exact Hs|]. split; [|split; [lia|]].
    + rewrite Em. apply Z.div_le_lower_bound; lia.
    + destruct (Z.eq_dec (m mod 2 ^ Z.pos p) 0) as [Z0|NZ].
      * destruct (Ee Z0) as [Hr Hsb]. rewrite (loc_exact _ Hr Hsb). cbn [round_nearest_even].
        rewrite Em. apply Z.div_le_upper_bound; lia.
      * assert (shr_m mrs < hi * 2 ^ (- (e + Z.pos p))); [|lia].
        rewrite Em. apply Z.div_lt_upper_bound; [lia|].
        assert (m <> hi * 2 ^ (- (e + Z.pos p)) * 2 ^ Z.pos p); [|lia].
        intros ->. apply NZ. now rewrite Z.mod_mul by lia.
  - eexists _, _. split; [reflexivity|]. cbn [shr_m loc_of_shr_record round_nearest_even]. lia.
Qed.

Lemma binary_round_aux_between m e lo hi :
  0 <= m -> e <= 0 -> 0 <= lo -> hi < 2 ^ 53 ->
  lo * 2 ^ (- e) <= m <= hi * 2 ^ (- e) ->
  between lo hi (binary_round_aux PyFloat.prec PyFloat.emax false m e loc_Exact).
Proof.
  intros Hm He Hlo Hhi B. unfold binary_round_aux.
  destruct (shr_fexp_stage m e lo hi Hm He Hlo Hhi B) as (mrs1 & e1 & -> & He1 & L1 & M1 & H1).
  set (m2 := round_nearest_even (shr_m mrs1) (loc_of_shr_record mrs1)) in *.
  assert (P1 : 0 < 2 ^ (- e1)) by (apply Z.pow_pos_nonneg; lia).
  assert (Hm2 : 0 <= m2) by nia.
  destruct (shr_fexp_stage m2 e1 lo hi Hm2 He1 Hlo Hhi ltac:(lia))
    as (mrs2 & e2 & -> & He2 & L2 & M2 & H2).
  assert (P2 : 0 < 2 ^ (- e2)) by (apply Z.pow_pos_nonneg; lia).
  destruct (shr_m mrs2) as [|p|p] eqn:E; cbn [between].
  - nia.
  - replace (e2 <=? PyFloat.emax - PyFloat.prec) with true
      by (symmetry; apply Z.leb_le; unfold PyFloat.emax, PyFloat.prec; lia).
    cbn [between]. lia.
  - nia.
Qed.

Lemma pos_iter_xO p d : Zpos (Pos.iter xO p d) = Zpos p * 2 ^ Zpos d.
Proof.
  change (Pos.iter xO p d) with (shift_pos d p).
  rewrite shift_pos_correct, Z.pow_pos_fold. lia.
Qed.

Lemma binary_round_between p e lo hi :
  e <= 0 -> 0 <= lo -> hi < 2 ^ 53 ->
  lo * 2 ^ (- e) <= Zpos p <= hi * 2 ^ (- e) ->
  between lo hi (binary_round PyFloat.prec PyFloat.emax false p e).
Proof.
  intros He Hlo Hhi B. unfold binary_round, shl_align.
  set (e' := fexp PyFloat.prec PyFloat.emax (Zpos (digits2_pos p) + e)).
  destruct (e' - e) as [|d|d] eqn:Ed.
  - apply binary_round_aux_between; auto; lia.
  - apply binary_round_aux_between; auto; lia.
  - assert (e' = e - Zpos d) by lia.
    apply binary_round_aux_between; auto; try lia.
    rewrite pos_iter_xO.
    replace (- e') with (- e + Zpos d) by lia. rewrite Z.pow_add_r by lia.
    assert (0 < 2 ^ Zpos d) by (apply Z.pow_pos_nonneg; lia).
    nia.
Qed.

Lemma between_nonneg lo hi x : between lo hi x -> 0 <= lo -> 0 <= hi.
Proof.
  destruct x as [s| | |[|] m e]; cbn [between]; try tauto; lia.
Qed.

Lemma mul_between l1 h1 l2 h2 x y :
  between l1 h1 x -> between l2 h2 y -> 0 <= l1 -> 0 <= l2 -> h1 * h2 < 2 ^ 53 ->
  between (l1 * l2) (h1 * h2) (PyFloat.mul x y).
Proof.
  intros Bx By H1 H2 Hh.
  pose proof (between_nonneg _ _ _ Bx H1). pose proof (between_nonneg _ _ _ By H2).
  unfold PyFloat.mul.
  destruct x as [sx| | |[|] mx ex], y as [sy| | |[|] my ey]; cbn [between] in *;
    try tauto; cbn [SFmul between]; try nia.
  destruct Bx as (Ex & Lx & Hx), By as (Ey & Ly & Hy).
  cbn [xorb].
  assert (0 < 2 ^ (- ex)) by (apply Z.pow_pos_nonneg; lia).
  assert (0 < 2 ^ (- ey)) by (apply Z.pow_pos_nonneg; lia).
  apply binary_round_aux_between; try lia.
  rewrite Pos2Z.inj_mul.
  replace (- (ex + ey)) with (- ex + - ey) by lia. rewrite Z.pow_add_r by lia.
  split.
  - replace (l1 * l2 * (2 ^ (- ex) * 2 ^ (- ey))) with ((l1 * 2 ^ (- ex)) * (l2 * 2 ^ (- ey))) by ring.
    apply Z.mul_le_mono_nonneg; nia.
  - replace (h1 * h2 * (2 ^ (- ex) * 2 ^ (- ey))) with ((h1 * 2 ^ (- ex)) * (h2 * 2 ^ (- ey))) by ring.
    apply Z.mul_le_mono_nonneg; lia.
Qed.

Lemma between_weaken lo hi lo' hi' x :
  between lo hi x -> lo' <= lo -> hi <= hi' -> between lo' hi' x.
Proof.
  destruct x as [s| | |[|] m e]; cbn [between]; try tauto; try lia.
  intros (He & L & H) Hl Hh.
  assert (0 < 2 ^ (- e)) by (apply Z.pow_pos_nonneg; lia). nia.
Qed.

Lemma shl_align_fst m e e' :
  e' <= e -> Zpos (fst (shl_align m e e')) = Zpos m * 2 ^ (e - e').
Proof.
  intros H. unfold shl_align. destruct (e' - e) as [|d|d] eqn:E; cbn [fst]; try lia.
  - replace (e - e') with 0 by lia. lia.
  - rewrite pos_iter_xO. f_equal. f_equal. lia.
Qed.

Lemma add_between l1 h1 l2 h2 x y :
  between l1 h1 x -> between l2 h2 y -> 0 <= l1 -> 0 <= l2 -> h1 + h2 < 2 ^ 53 ->
  between (l1 + l2) (h1 + h2) (PyFloat.add x y).
Proof.
  intros Bx By H1 H2 Hh.
  pose proof (between_nonneg _ _ _ Bx H1). pose proof (between_nonneg _ _ _ By H2).
  unfold PyFloat.add.
  destruct x as [sx| | |[|] mx ex], y as [sy| | |[|] my ey];
    try (cbn [between] in Bx, By; tauto); cbn [SFadd].
  - destruct sx, sy; cbn [between] in *; lia.
  - apply (between_weaken l2 h2); [exact By| |]; cbn [between] in Bx; lia.
  - apply (between_weaken l1 h1); [exact Bx| |]; cbn [between] in By; lia.
  - cbn [between] in Bx, By. destruct Bx as (Ex & Lx & Hx), By as (Ey & Ly & Hy).
    cbn [cond_Zopp]. set (ez := Z.min ex ey).
    assert (ez <= ex /\ ez <= ey /\ ez <= 0) as (Zx & Zy & Z0) by (subst ez; lia).
    change (Zpos (fst (shl_align mx ex ez)) + Zpos (fst (shl_align my ey ez)))
      with (Zpos (fst (shl_align mx ex ez) + fst (shl_align my ey ez))).
    cbn [binary_normalize].
    apply binary_round_between; try lia.
    rewrite Pos2Z.inj_add, !shl_align_fst by assumption.
    assert (Sx : 2 ^ (- ez) = 2 ^ (- ex) * 2 ^ (ex - ez))
      by (rewrite <- Z.pow_add_r by lia; f_equal; lia).
    assert (Sy : 2 ^ (- ez) = 2 ^ (- ey) * 2 ^ (ey - ez))
      by (rewrite <- Z.pow_add_r by lia; f_equal; lia).
    assert (0 < 2 ^ (ex - ez)) by (apply Z.pow_pos_nonneg; lia).
    assert (0 < 2 ^ (ey - ez)) by (apply Z.pow_pos_nonneg; lia).
    rewrite !Z.mul_add_distr_r. rewrite Sx at 1 3. rewrite Sy. nia.
Qed.

Lemma random_between k :
  0 <= k < 2 ^ 53 ->
  between 0 1 (binary_normalize PyFloat.prec PyFloat.emax k (-53) false).
Proof.
  intros Hk. destruct k as [|p|p]; cbn [binary_normalize between]; try lia.
  apply binary_round_between; lia.
Qed.

Lemma round_half_even_bounds n d a b :
  0 < d -> a * d <= n <= b * d -> a <= PyFloat.round_half_even n d <= b.
Proof.
  intros Hd [L H]. unfold PyFloat.round_half_even.
  assert (Q : a <= n / d) by (apply Z.div_le_lower_bound; lia).
  pose proof (Z.mod_pos_bound n d Hd) as R.
  pose proof (Z.div_mod n d ltac:(lia)) as E.
  destruct (Z.eq_dec (n mod d) 0) as [Z0|NZ].
  - rewrite Z0. replace (2 * 0 ?= d) with Lt by (symmetry; apply Z.compare_lt_iff; lia).
    split; [assumption|]. apply Z.div_le_upper_bound; lia.
  - assert (n <> b * d) by (intros ->; apply NZ; now rewrite Z.mod_mul by lia).
    assert (n / d < b) by (apply Z.div_lt_upper_bound; lia).
    destruct (2 * (n mod d) ?= d); [destruct (Z.even (n / d))| |]; lia.
Qed.

Lemma round_between lo hi x :
  between lo hi x -> 1 <= lo ->
  exists q, lo * 10 <= q <= hi * 10 /\ PyFloat.round x 1 = PyFloat.of_decimal q 1.
Proof.
  intros B Hlo.
  destruct x as [s| | |[|] m e]; cbn [between] in B; try tauto; try lia.
  destruct B as (He & L & H).
  assert (P : 0 < 2 ^ (- e)) by (apply Z.pow_pos_nonneg; lia).
  assert (F : PyFloat.frac_of m e = (Zpos m, 2 ^ (- e))).
  { unfold PyFloat.frac_of. destruct (Z.leb_spec 0 e); [|reflexivity].
    replace e with 0 by lia. f_equal. lia. }
  unfold PyFloat.round. rewrite F.
  change (10 ^ Z.of_nat 1) with 10.
  set (q := PyFloat.round_half_even (Zpos m * 10) (2 ^ (- e))).
  assert (Q : lo * 10 <= q <= hi * 10)
    by (apply round_half_even_bounds; [assumption|nia]).
  exists q. split; [exact Q|].
  destruct (Z.eqb_spec q 0); [lia|reflexivity].
Qed.

Lemma in_range n i : In i (range n) <-> 0 <= i < Z.of_nat n.
Proof.
  unfold range. rewrite in_map_iff. split.
  - intros (k & <- & Hk). apply in_seq in Hk. lia.
  - intros Hi. exists (Z.to_nat i). split; [lia|]. apply in_seq. lia.
Qed.

Lemma decimal_range_spec lo hi q :
  decimal_range_ok lo hi = true -> lo <= q <= hi ->
  PyFloat.leb (PyFloat.of_decimal lo 1) (PyFloat.of_decimal q 1) = true /\
  PyFloat.leb (PyFloat.of_decimal q 1) (PyFloat.of_decimal hi 1) = true.
Proof.
  intros T Hq. unfold decimal_range_ok in T. rewrite forallb_forall in T.
  specialize (T (q - lo)). cbv zeta in T. replace (lo + (q - lo)) with q in T by lia.
  apply andb_true_iff, T, in_range. lia.
Qed.

Lemma uniform_between a b fa fb k :
  between a a fa -> between (b - a) (b - a) (PyFloat.sub fb fa) ->
  0 <= a <= b -> b < 2 ^ 52 -> 0 <= k < 2 ^ 53 ->
  between a b (uniform_value fa fb k).
Proof.
  intros Ba Bd Hab Hb Hk. unfold uniform_value.
  replace b with (a + (b - a) * 1) at 1 by lia.
  replace a with (a + (b - a) * 0) at 1 by lia.
  apply add_between; try lia; [exact Ba|].
  apply mul_between; try lia; [exact Bd|]. now apply random_between.
Qed.

Lemma rounded_uniform lo hi (a b : Z) fa fb k :
  between a a fa -> between (b - a) (b - a) (PyFloat.sub fb fa) ->
  1 <= a <= b -> b < 2 ^ 52 -> 0 <= k < 2 ^ 53 ->
  lo = a * 10 -> hi = b * 10 -> decimal_range_ok lo hi = true ->
  one_decimal_between lo hi (PyFloat.round (uniform_value fa fb k) 1).
Proof.
  intros Ba Bd Hab Hb Hk -> -> T.
  destruct (round_between a b (uniform_value fa fb k)) as (q & Hq & E);
    [apply uniform_between; auto; lia | lia |].
  exists q. rewrite E. split; [lia|]. split; [reflexivity|].
  now apply decimal_range_spec.
Qed.

(** The upper bound is reached: with the largest numerator the sum
    [15.0 + 10.0 * r] rounds to [25.0]. *)
Example uniform_reaches_upper_bound :
  uniform_value (PyFloat.of_decimal 150 1) (PyFloat.of_decimal 250 1) (2 ^ 53 - 1)
  = PyFloat.of_decimal 250 1.
Proof. vm_compute. reflexivity. Qed.

End FloatFacts.

(** ** Strings, digits and JSON text *)

Module StringFacts.

Local Open Scope Z_scope.

Lemma append_assoc (a b c : string) : (a ++ b) ++ c = a ++ b ++ c.
Proof. induction a; simpl; [reflexivity|now f_equal]. Qed.

Lemma append_nil_r (a : string) : a ++ "" = a.
Proof. induction a; simpl; [reflexivity|now f_equal]. Qed.

Lemma digit_char_is_digit d : 0 <= d < 10 -> is_digit (PyStr.digit_char d) = true.
Proof.
  intros Hd.
  assert (C : d = 0 \/ d = 1 \/ d = 2 \/ d = 3 \/ d = 4 \/ d = 5 \/ d = 6 \/ d = 7 \/
              d = 8 \/ d = 9) by lia.
  repeat (destruct C as [-> | C]; [reflexivity|]). now subst d.
Qed.

Lemma digits_acc_spec fuel : forall n acc k,
  0 <= n < 10 ^ Z.of_nat (S k) -> all_digits acc = true ->
  all_digits (PyStr.digits_acc fuel n acc) = true /\
  (String.length (PyStr.digits_acc fuel n acc) <= S k + String.length acc)%nat.
Proof.
  induction fuel as [|fuel IH]; intros n acc k Hn Hacc; cbn [PyStr.digits_acc].
  - cbn [all_digits String.length]. rewrite Hacc, digit_char_is_digit.
    + split; [reflexivity|lia].
    + apply Z.mod_pos_bound. lia.
  - assert (D : is_digit (PyStr.digit_char (n mod 10)) = true)
      by (apply digit_char_is_digit, Z.mod_pos_bound; lia).
    destruct (Z.ltb_spec n 10) as [Lt|Ge].
    + cbn [all_digits String.length]. rewrite Hacc, D. split; [reflexivity|lia].
    + destruct k as [|k].
      * change (10 ^ Z.of_nat 1) with 10 in Hn. lia.
      * destruct (IH (n / 10) (String (PyStr.digit_char (n mod 10)) acc) k) as [A L].
        -- split; [apply Z.div_pos; lia|].
           apply Z.div_lt_upper_bound; [lia|].
           rewrite <- Z.pow_succ_r by lia. rewrite <- Nat2Z.inj_succ. lia.
        -- cbn [all_digits]. now rewrite D, Hacc.
        -- split; [exact A|]. cbn [String.length] in L. lia.
Qed.

Lemma length_append (a b : string) :
  String.length (a ++ b) = (String.length a + String.length b)%nat.
Proof. induction a; simpl; [reflexivity|now rewrite IHa]. Qed.

Lemma all_digits_append a b : all_digits (a ++ b) = all_digits a && all_digits b.
Proof. induction a; simpl; [reflexivity|now rewrite IHa, andb_assoc]. Qed.

Lemma repeat_zero n :
  all_digits (PyStr.repeat "0" n) = true /\ String.length (PyStr.repeat "0" n) = n.
Proof. induction n as [|n [A L]]; simpl; [auto|]. now rewrite A, L. Qed.

(** ["%0wd" % n] is exactly [w] digits when [n] has at most [w] digits. *)
Lemma zero_pad_digits w n :
  0 <= n < 10 ^ Z.of_nat (S w) ->
  all_digits (PyStr.zero_pad (S w) n) = true /\
  String.length (PyStr.zero_pad (S w) n) = S w.
Proof.
  intros Hn. unfold PyStr.zero_pad, PyStr.of_Z.
  replace (n <? 0) with false by (symmetry; apply Z.ltb_ge; lia).
  rewrite Z.abs_eq by lia.
  destruct (digits_acc_spec (Z.to_nat (Z.log2 n)) n "" w Hn eq_refl) as [A L].
  cbn [String.length] in L.
  destruct (repeat_zero (S w - String.length (PyStr.digits_acc (Z.to_nat (Z.log2 n)) n ""))) as [A0 L0].
  rewrite all_digits_append, length_append, A, A0, L0. split; [reflexivity|lia].
Qed.

Lemma digits_then_append n rest a b :
  all_digits a = true -> String.length a = n ->
  digits_then n rest (a ++ b) = rest b.
Proof.
  revert a. induction n as [|n IH]; intros a A L.
  - destruct a; [reflexivity|discriminate].
  - destruct a as [|c a]; [discriminate|]. cbn [all_digits] in A.
    apply andb_true_iff in A. destruct A as [Ac Aa].
    cbn [append digits_then]. rewrite Ac. cbn [andb]. apply IH; [exact Aa|].
    cbn [String.length] in L. lia.
Qed.

(** [isoformat] of a well-formed [datetime] has the ISO 8601 form. *)
Lemma isoformat_iso8601 t : DateTime.valid t -> iso8601 (DateTime.isoformat t) = true.
Proof.
  intros V. apply DateTimeFacts.valid_fields in V.
  destruct V as (Hy & Hmo & Hd & Hh & Hmi & Hs & Hus).
  assert (Hd' : DateTime.day t <= 31).
  { unfold DateTime.days_in_month in Hd.
    destruct ((DateTime.month t =? 2) && DateTime.is_leap (DateTime.year t)); [lia|].
    assert (C : DateTime.month t = 1 \/ DateTime.month t = 2 \/ DateTime.month t = 3 \/
                DateTime.month t = 4 \/ DateTime.month t = 5 \/ DateTime.month t = 6 \/
                DateTime.month t = 7 \/ DateTime.month t = 8 \/ DateTime.month t = 9 \/
                DateTime.month t = 10 \/ DateTime.month t = 11 \/ DateTime.month t = 12) by lia.
    repeat (destruct C as [C | C];
            [rewrite C in Hd; unfold DateTime.table in Hd; simpl in Hd; lia|]).
    rewrite C in Hd. unfold DateTime.table in Hd. simpl in Hd. lia. }
  destruct (zero_pad_digits 3 (DateTime.year t)) as [Ay Ly]; [change (10 ^ Z.of_nat 4) with 10000; lia|].
  destruct (zero_pad_digits 1 (DateTime.month t)) as [Amo Lmo]; [change (10 ^ Z.of_nat 2) with 100; lia|].
  destruct (zero_pad_digits 1 (DateTime.day t)) as [Ad Ld]; [change (10 ^ Z.of_nat 2) with 100; lia|].
  destruct (zero_pad_digits 1 (DateTime.hour t)) as [Ah Lh]; [change (10 ^ Z.of_nat 2) with 100; lia|].
  destruct (zero_pad_digits 1 (DateTime.minute t)) as [Ami Lmi]; [change (10 ^ Z.of_nat 2) with 100; lia|].
  destruct (zero_pad_digits 1 (DateTime.second t)) as [As Ls]; [change (10 ^ Z.of_nat 2) with 100; lia|].
  destruct (zero_pad_digits 5 (DateTime.microsecond t)) as [Aus Lus]; [change (10 ^ Z.of_nat 6) with 1000000; lia|].
  unfold iso8601, iso_time, DateTime.isoformat, DateTime.isoformat_date.
  rewrite !append_assoc.
  rewrite (digits_then_append 4) by assumption. cbn [append char_then Ascii.eqb Bool.eqb andb].
  rewrite (digits_then_append 2) by assumption. cbn [append char_then Ascii.eqb Bool.eqb andb].
  rewrite (digits_then_append 2) by assumption. cbn [append char_then Ascii.eqb Bool.eqb andb].
  rewrite (digits_then_append 2) by assumption. cbn [append char_then Ascii.eqb Bool.eqb andb].
  rewrite (digits_then_append 2) by assumption. cbn [append char_then Ascii.eqb Bool.eqb andb].
  rewrite (digits_then_append 2) by assumption.
  unfold iso_fraction.
  destruct (DateTime.microsecond t =? 0); [reflexivity|].
  cbn [append char_then is_empty Ascii.eqb Bool.eqb andb orb].
  rewrite <- (append_nil_r (PyStr.zero_pad 6 (DateTime.microsecond t))).
  now rewrite (digits_then_append 6) by assumption.
Qed.

Lemma digits_then_plain n rest s :
  (forall u, rest u = true -> all_plain u = true) ->
  digits_then n rest s = true -> all_plain s = true.
Proof.
  intros R. revert s. induction n as [|n IH]; intros s H; [now apply R|].
  destruct s as [|c s]; [discriminate|]. cbn [digits_then] in H.
  apply andb_true_iff in H. destruct H as [D H]. cbn [all_plain].
  rewrite (IH s H), andb_true_r.
  unfold is_digit in D. unfold is_plain.
  apply andb_true_iff in D. destruct D as [D1 D2].
  apply Nat.leb_le in D1, D2.
  rewrite !andb_true_iff, !negb_true_iff, !Nat.leb_le, !Nat.eqb_neq. lia.
Qed.

Lemma char_then_plain c rest s :
  is_plain c = true ->
  (forall u, rest u = true -> all_plain u = true) ->
  char_then c rest s = true -> all_plain s = true.
Proof.
  intros P R H. destruct s as [|c' s]; [discriminate|]. cbn [char_then] in H.
  apply andb_true_iff in H. destruct H as [E H]. apply Ascii.eqb_eq in E. subst c'.
  cbn [all_plain]. now rewrite P, (R s H).
Qed.

Lemma iso_fraction_plain s : iso_fraction s = true -> all_plain s = true.
Proof.
  unfold iso_fraction. intros H. apply orb_true_iff in H. destruct H as [H|H].
  - destruct s; [reflexivity|discriminate].
  - revert H. apply (char_then_plain "."%char); [reflexivity|].
    intros u. apply (digits_then_plain 6). intros v H. destruct v; [reflexivity|discriminate].
Qed.

Lemma iso8601_plain s : iso8601 s = true -> all_plain s = true.
Proof.
  unfold iso8601, iso_time.
  apply (digits_then_plain 4); intro. apply (char_then_plain "-"%char); [reflexivity|]; intro.
  apply (digits_then_plain 2); intro. apply (char_then_plain "-"%char); [reflexivity|]; intro.
  apply (digits_then_plain 2); intro. apply (char_then_plain "T"%char); [reflexivity|]; intro.
  apply (digits_then_plain 2); intro. apply (char_then_plain ":"%char); [reflexivity|]; intro.
  apply (digits_then_plain 2); intro. apply (char_then_plain ":"%char); [reflexivity|]; intro.
  apply (digits_then_plain 2); intro. apply iso_fraction_plain.
Qed.

Lemma escape_plain_char c :
  is_plain c = true -> escape_code_point (byte c) = String c "" /\ (byte c <? 192) = true.
Proof.
  destruct c as [[] [] [] [] [] [] [] []]; try discriminate; intros _; split; reflexivity.
Qed.

Lemma escape_plain s :
  all_plain s = true ->
  String.concat "" (map escape_code_point (code_points s)) = s.
Proof.
  induction s as [|c s IH]; intros H; [reflexivity|].
  cbn [all_plain] in H. apply andb_true_iff in H. destruct H as [P H].
  destruct (escape_plain_char c P) as [E B].
  cbn [code_points]. rewrite B. cbn [map]. rewrite E.
  specialize (IH H).
  destruct (map escape_code_point (code_points s)) as [|x l] eqn:M.
  - simpl in IH. now subst s.
  - cbn [String.concat]. cbn [String.concat] in IH.
    change (String c "" ++ "" ++ ?r) with (String c r). now rewrite IH.
Qed.

Lemma encode_string_plain s :
  all_plain s = true -> encode_string s = dquote ++ s ++ dquote.
Proof. intros H. unfold encode_string. now rewrite (escape_plain s H). Qed.

Lemma occurs_here x post : occurs_in x (x ++ post).
Proof. now exists "", post. Qed.

Lemma occurs_app_r x a b : occurs_in x b -> occurs_in x (a ++ b).
Proof.
  intros (pre & post & ->). exists (a ++ pre), post. now rewrite append_assoc.
Qed.

Lemma occurs_trans x y s : occurs_in x y -> occurs_in y s -> occurs_in x s.
Proof.
  intros (p1 & q1 & ->) (p2 & q2 & ->). exists (p2 ++ p1), (q1 ++ q2).
  now rewrite !append_assoc.
Qed.

Lemma occurs_in_join sep parts p : In p parts -> occurs_in p (PyStr.join sep parts).
Proof.
  induction parts as [|q parts IH]; intros H; [contradiction|].
  cbn [PyStr.join]. destruct H as [->|H].
  - destruct parts; [exists "", ""; now rewrite append_nil_r | apply occurs_here].
  - destruct parts as [|r parts]; [contradiction|].
    do 2 apply occurs_app_r. now apply IH.
Qed.

Lemma occurs_join_in_bracket indent opening closing level p parts :
  occurs_in (PyStr.join (separator indent (S level)) (p :: parts))
    (bracket indent opening closing level (p :: parts)).
Proof. unfold bracket. do 2 apply occurs_app_r. apply occurs_here. Qed.

Lemma occurs_in_bracket indent opening closing level parts p :
  In p parts -> occurs_in p (bracket indent opening closing level parts).
Proof.
  intros H. destruct parts as [|q parts]; [contradiction|].
  eapply occurs_trans; [|apply occurs_join_in_bracket]. now apply occurs_in_join.
Qed.

Lemma occurs_in_dict indent level items k v :
  In (k, v) items ->
  occurs_in (encode indent (S level) v) (encode indent level (Dict items)).
Proof.
  intros H. cbn [encode].
  apply occurs_trans with (encode_string k ++ ": " ++ encode indent (S level) v).
  - do 2 apply occurs_app_r. exists "", "". now rewrite append_nil_r.
  - apply occurs_in_bracket.
    apply (in_map (fun member : string * value =>
                     let (k, x) := member in
                     encode_string k ++ ": " ++ encode indent (S level) x) _ _ H).
Qed.

End StringFacts.

(** ** The monad and the generators *)

Module ServerFacts.

Import StringFacts.

Local Open Scope Z_scope.

Lemma bind_ok {A B} (c : M A) (k : A -> M B) w a w' :
  c w = Ok (a, w') -> bind c k w = k a w'.
Proof. unfold bind. now intros ->. Qed.

Lemma random_uniform_run a b w :
  random_uniform a b w = Ok (uniform_value a b (random_at w (rng_calls w)), next_draw w).
Proof. reflexivity. Qed.

Lemma random_randint_run a b w :
  random_randint a b w = Ok (a + randbelow_at w (rng_calls w) (b - a + 1), next_draw w).
Proof. reflexivity. Qed.

Lemma random_choice_run {A} (seq : list A) (d : A) w :
  seq <> [] ->
  0 <= randbelow_at w (rng_calls w) (Z.of_nat (List.length seq))
    < Z.of_nat (List.length seq) ->
  random_choice seq w =
  Ok (nth (Z.to_nat (randbelow_at w (rng_calls w) (Z.of_nat (List.length seq)))) seq d,
      next_draw w).
Proof.
  intros NE Hk. unfold random_choice. destruct seq as [|x seq]; [congruence|].
  unfold bind, randbelow.
  set (k := randbelow_at w (rng_calls w) (Z.of_nat (List.length (x :: seq)))) in *.
  destruct (nth_error (x :: seq) (Z.to_nat k)) as [y|] eqn:E.
  - now rewrite (nth_error_nth _ _ d E).
  - apply nth_error_None in E. lia.
Qed.

Lemma forecast_loop_acc base_time steps acc :
  forecast_loop base_time steps acc =
  rbind (forecast_loop base_time steps []) (fun l => Ok (acc ++ l)%list).
Proof.
  revert acc. induction steps as [|i steps IH]; intros acc; simpl.
  - now rewrite app_nil_r.
  - destruct (forecast_entry base_time i) as [entry|e]; simpl; [|reflexivity].
    rewrite IH. rewrite (IH [entry]).
    destruct (forecast_loop base_time steps []); simpl; [|reflexivity].
    now rewrite <- app_assoc.
Qed.

Lemma forecast_loop_ok base_time steps :
  (forall i, In i steps -> DateTime.add_hours base_time i <> None) ->
  forecast_loop base_time steps [] =
  Ok (map (fun i => forecast_point (hours_later base_time i)) steps).
Proof.
  induction steps as [|i steps IH]; intros H; simpl; [reflexivity|].
  unfold forecast_entry, hours_later.
  destruct (DateTime.add_hours base_time i) as [t|] eqn:E.
  - simpl. rewrite forecast_loop_acc, IH by (intros; apply H; now right).
    reflexivity.
  - exfalso. now apply (H i); [left|].
Qed.

Lemma get_mock_energy_prices_spec region w :
  forecast_representable w ->
  let n := clock_reads w in
  get_mock_energy_prices region w =
  Ok (energy_price_report region
        (DateTime.isoformat (now_at w (S (S n))))
        (tier_price (DateTime.hour (now_at w n)))
        (tier_label (DateTime.hour (now_at w n)))
        (forecast_from (now_at w (S n)))
        (DateTime.isoformat (now_at w (S (S (S n))))),
      ticks 4 w).
Proof.
  intros [V R]. cbv zeta. unfold get_mock_energy_prices, bind, datetime_now.
  unfold tier_price, tier_label, tier_multiplier.
  destruct (price_tier (DateTime.hour (now_at w (clock_reads w)))) as [multiplier period].
  rewrite forecast_loop_ok.
  - reflexivity.
  - intros i Hi. apply FloatFacts.in_range in Hi. cbn [tick now_at clock_reads].
    destruct (DateTimeFacts.add_hours_spec _ i V ltac:(lia) R) as (t' & E & _).
    rewrite E. discriminate.
Qed.

Lemma forecast_point_fields t :
  forecast_point t =
  Dict [("time", Str (DateTime.strftime_HM t));
        ("date", Str (DateTime.strftime_Ymd t));
        ("price_per_kwh", Float (tier_price (DateTime.hour t)));
        ("period", Str (tier_label (DateTime.hour t)))].
Proof.
  unfold forecast_point, tier_price, tier_label, tier_multiplier.
  now destruct (price_tier (DateTime.hour t)).
Qed.

Lemma length_range n : List.length (range n) = n.
Proof. unfold range. now rewrite length_map, length_seq. Qed.

Lemma nth_error_range n i : (i < n)%nat -> nth_error (range n) i = Some (Z.of_nat i).
Proof.
  intros Hi. unfold range. rewrite nth_error_map.
  rewrite nth_error_seq. 
  destruct (Nat.ltb_spec i n); [reflexivity|lia].
Qed.

Lemma nth_error_forecast_from base_time i :
  (i < 24)%nat ->
  nth_error (forecast_from base_time) i =
  Some (forecast_point (hours_later base_time (Z.of_nat i))).
Proof.
  intros Hi. unfold forecast_from. rewrite nth_error_map, nth_error_range by exact Hi.
  reflexivity.
Qed.

Lemma hours_later_spec t i :
  DateTime.valid t -> DateTime.toordinal t < DateTime.MAXORDINAL -> 0 <= i <= 23 ->
  let t' := hours_later t i in
  DateTime.add_hours t i = Some t' /\
  DateTime.hour t' = (DateTime.hour t + i) mod 24 /\
  DateTime.minute t' = DateTime.minute t /\
  DateTime.second t' = DateTime.second t /\
  DateTime.microsecond t' = DateTime.microsecond t /\
  DateTime.to_seconds t' = DateTime.to_seconds t + 3600 * i.
Proof.
  intros V R Hi. cbv zeta. unfold hours_later.
  destruct (DateTimeFacts.add_hours_spec t i V Hi R) as (t' & E & H).
  rewrite E. split; [reflexivity|exact H].
Qed.

Lemma int_timestamp_run t w :
  timestamp_error w t = None -> int_timestamp t w = Ok (timestamp_at w t, w).
Proof. intros E. unfold int_timestamp. now rewrite E. Qed.

Lemma get_mock_weather_data_run location w :
  random_source_ok w -> timestamps_defined w ->
  get_mock_weather_data location w = Ok (generated_reading location w, ticks 3 (draws 7 w)).
Proof.
  intros [Hr Hb] T. unfold get_mock_weather_data.
  assert (T0 : timestamp_error w (now_at w (clock_reads w)) = None)
    by (apply T; cbn; auto).
  assert (T1 : timestamp_error w
                 (DateTime.replace_hm (now_at w (S (clock_reads w))) 6 30) = None)
    by (apply T; cbn; auto).
  assert (T2 : timestamp_error w
                 (DateTime.replace_hm (now_at w (S (S (clock_reads w)))) 19 45) = None)
    by (apply T; cbn; auto).
  do 2 (erewrite bind_ok by apply random_uniform_run; cbv beta).
  do 2 (erewrite bind_ok by apply random_randint_run; cbv beta).
  erewrite bind_ok by (apply (random_choice_run _ ""); [discriminate|apply Hb; reflexivity]).
  cbv beta.
  erewrite bind_ok by (apply (random_choice_run _ ""); [discriminate|apply Hb; reflexivity]).
  cbv beta.
  erewrite bind_ok by apply random_uniform_run. cbv beta.
  erewrite bind_ok by reflexivity. cbv beta.
  erewrite bind_ok by (apply int_timestamp_run; exact T0). cbv beta.
  erewrite bind_ok by reflexivity. cbv beta.
  erewrite bind_ok by (apply int_timestamp_run; exact T1). cbv beta.
  erewrite bind_ok by reflexivity. cbv beta.
  erewrite bind_ok by (apply int_timestamp_run; exact T2). cbv beta.
  reflexivity.
Qed.

(** *** The weather report *)

Lemma heating_recommendation_float temp :
  heating_recommendation (Float temp) = Ok (heating_for temp).
Proof.
  unfold heating_recommendation, heating_for, below. cbn [Py.lt rbind].
  destruct (Py.lt_of (PyFloat.compare_Z temp 18)); [reflexivity|].
  now destruct (Py.lt_of (PyFloat.compare_Z temp 22)).
Qed.

Lemma natural_lighting_str description :
  natural_lighting (Str description) = Ok (lighting_for description).
Proof.
  unfold natural_lighting, lighting_for. cbn [Py.contains rbind].
  destruct (PyStr.contains "cloud" description); cbn [rbind orb]; [reflexivity|].
  now destruct (PyStr.contains "rain" description).
Qed.

Lemma window_management_str description :
  window_management (Str description) = Ok (window_for description).
Proof.
  unfold window_management, window_for. cbn [Py.contains rbind].
  now destruct (PyStr.contains "rain" description).
Qed.

Lemma format_weather_reading name temp feels_like humidity pressure main description speed
    dt sunrise sunset :
  let reading := weather_reading name temp feels_like humidity pressure main description
                   speed dt sunrise sunset in
  format_weather reading =
  Ok (weather_text reading name temp humidity pressure description speed).
Proof.
  cbv zeta. unfold format_weather, weather_reading.
  cbn [Py.getitem Py.getindex Py.lookup nth_error rbind String.eqb Ascii.eqb Bool.eqb
       Py.format Py.title].
  rewrite heating_recommendation_float, natural_lighting_str, window_management_str.
  reflexivity.
Qed.

Lemma get_weather_data_run request w :
  random_source_ok w -> timestamps_defined w ->
  exists text w', get_weather_data request w = Ok (text, w').
Proof.
  intros R T. unfold get_weather_data.
  erewrite bind_ok by reflexivity. cbv beta.
  erewrite bind_ok by (apply get_mock_weather_data_run; [exact R|exact T]).
  unfold generated_reading. cbv zeta. unfold lift.
  rewrite format_weather_reading. eexists _, _. reflexivity.
Qed.

(** *** The energy report *)

Lemma cost_impact_entry price period :
  cost_impact (current_price_entry price period) = Ok (cost_for price).
Proof.
  unfold cost_impact, cost_for, current_price_entry.
  cbn [Py.getitem Py.lookup rbind String.eqb Ascii.eqb Bool.eqb Py.gt].
  destruct (PyFloat.ltb (PyFloat.of_decimal 35 2) price); [reflexivity|].
  now destruct (PyFloat.ltb (PyFloat.of_decimal 20 2) price).
Qed.

Lemma smart_actions_entry price period :
  smart_actions (current_price_entry price period) = Ok (action_for period).
Proof.
  unfold smart_actions, action_for, current_price_entry.
  cbn [Py.getitem Py.lookup rbind String.eqb Ascii.eqb Bool.eqb Py.eq_str].
  destruct (String.eqb period "peak"); [reflexivity|].
  now destruct (String.eqb period "off_peak").
Qed.

Lemma energy_summary_report request timestamp price period forecast last_updated :
  energy_summary request
    (energy_price_report (region request) timestamp price period forecast last_updated)
    (current_price_entry price period) =
  Ok (summary_for (region request) price period timestamp).
Proof.
  unfold energy_summary. rewrite cost_impact_entry, smart_actions_entry.
  unfold period_title, energy_price_report, current_price_entry, summary_for.
  cbn [Py.getitem Py.lookup rbind String.eqb Ascii.eqb Bool.eqb Py.format Py.title
       Py.replace Py.slice_to].
  reflexivity.
Qed.



Lemma forecast_line_point t : forecast_line (forecast_point t) = Ok (line_for t).
Proof.
  rewrite forecast_point_fields. unfold forecast_line, line_for.
  cbn [Py.getitem Py.lookup rbind String.eqb Ascii.eqb Bool.eqb Py.format].
  reflexivity.
Qed.

Lemma forecast_lines_points ts acc :
  forecast_lines (map forecast_point ts) acc =
  Ok (acc ++ String.concat "" (map line_for ts)).
Proof.
  revert acc. induction ts as [|t ts IH]; intros acc.
  - simpl. now rewrite append_nil_r.
  - cbn [map forecast_lines]. rewrite forecast_line_point. cbn [rbind].
    rewrite IH, append_assoc. f_equal. f_equal.
    destruct ts; cbn [map String.concat]; [now rewrite append_nil_r|reflexivity].
Qed.

Lemma forecast_section_report region timestamp price period base_time last_updated acc :
  forecast_section
    (energy_price_report region timestamp price period (forecast_from base_time) last_updated)
    acc =
  Ok (acc ++ forecast_text base_time).
Proof.
  unfold forecast_section, energy_price_report.
  cbn [Py.dict_get Py.lookup rbind String.eqb Ascii.eqb Bool.eqb Py.slice_to].
  change (firstn 8 (forecast_from base_time))
    with (map forecast_point (first_hours base_time 8)).
  rewrite forecast_lines_points. unfold forecast_text. now rewrite append_assoc.
Qed.

Lemma format_energy_report request timestamp price period base_time last_updated :
  let report := energy_price_report (region request) timestamp price period
                  (forecast_from base_time) last_updated in
  format_energy request report =
  Ok (summary_for (region request) price period timestamp ++
      (if include_forecast request then forecast_text base_time else "") ++
      raw_data report).
Proof.
  cbv zeta. unfold format_energy.
  change (Py.getitem (energy_price_report (region request) timestamp price period
            (forecast_from base_time) last_updated) "current_price")
    with (Ok (A := value) (current_price_entry price period)).
  cbn [rbind]. rewrite energy_summary_report. cbn [rbind].
  destruct (include_forecast request).
  - rewrite forecast_section_report. cbn [rbind]. now rewrite append_assoc.
  - cbn [rbind]. reflexivity.
Qed.

Lemma get_energy_prices_spec request w :
  forecast_representable w ->
  get_energy_prices request w =
  Ok (summary_at (region request) w ++
      (if include_forecast request
       then forecast_text (now_at w (S (clock_reads w))) else "") ++
      raw_data (report_at (region request) w),
      ticks 4 (logged ("Fetching energy prices for region: " ++ region request) w)).
Proof.
  intros R. unfold get_energy_prices.
  erewrite bind_ok by reflexivity. cbv beta.
  erewrite bind_ok by (apply get_mock_energy_prices_spec; exact R).
  cbn [logged now_at clock_reads]. unfold lift.
  rewrite format_energy_report. reflexivity.
Qed.

Lemma dumps_report_forecast region timestamp price period forecast last_updated :
  forecast <> [] ->
  occurs_in
    (PyStr.join ("," ++ nl ++ "    ") (map (encode (Some 2%nat) 2) forecast))
    (dumps (Some 2%nat)
       (energy_price_report region timestamp price period forecast last_updated)).
Proof.
  intros NE. destruct forecast as [|x forecast]; [congruence|].
  unfold dumps, energy_price_report.
  eapply occurs_trans;
    [|apply (occurs_in_dict _ _ _ "price_forecast" (List (x :: forecast)));
      simpl; tauto].
  cbn [encode]. apply (occurs_join_in_bracket (Some 2%nat) "[" "]" 1).
Qed.

End ServerFacts.

(** ** The calendar, both ways *)

Module CalendarFacts.

Import DateTime Calendar DateTimeFacts.
Local Open Scope Z_scope.

Lemma day_found_again_table leap :
  forallb (day_found_again leap) month_days = true.
Proof. destruct leap; vm_compute; reflexivity. Qed.

Lemma day_found_again_spec leap m d :
  1 <= m <= 12 -> 1 <= d <= month_length leap m ->
  let n := day_of_year leap m d in
  month_day leap (n - 1) = (m, d) /\ 1 <= n <= (if leap then 366 else 365) /\
  (n = 366 -> m = 12 /\ d = 31).
Proof.
  intros Hm Hd n.
  assert (D31 : d <= 31).
  { unfold month_length in Hd. destruct ((m =? 2) && leap); [lia|].
    assert (C : m = 1 \/ m = 2 \/ m = 3 \/ m = 4 \/ m = 5 \/ m = 6 \/ m = 7 \/
                m = 8 \/ m = 9 \/ m = 10 \/ m = 11 \/ m = 12) by lia.
    repeat (destruct C as [-> | C]; [unfold table in Hd; simpl in Hd; lia|]).
    subst m. unfold table in Hd; simpl in Hd; lia. }
  pose proof (day_found_again_table leap) as T.
  rewrite forallb_forall in T. specialize (T (m, d)).
  assert (I : In (m, d) month_days).
  { unfold month_days. apply in_prod; apply in_map_iff.
    - exists (Z.to_nat m). split; [lia|]. apply in_seq. lia.
    - exists (Z.to_nat d). split; [lia|]. apply in_seq. lia. }
  specialize (T I). unfold day_found_again in T. fold n in T.
  replace (d <=? month_length leap m) with true in T by (symmetry; apply Z.leb_le; lia).
  simpl implb in T.
  destruct (month_day leap (n - 1)) as [m' d'].
  rewrite !andb_true_iff in T. destruct T as [[[[T1 T2] T3] T4] T5].
  apply Z.eqb_eq in T1, T2. apply Z.leb_le in T3, T4. subst m' d'.
  split; [reflexivity|]. split; [lia|].
  intros E. rewrite E in T5. simpl in T5. rewrite andb_true_iff in T5.
  destruct T5 as [A B]. apply Z.eqb_eq in A, B. auto.
Qed.

Lemma days_in_month_length y m : days_in_month y m = month_length (is_leap y) m.
Proof. reflexivity. Qed.

Lemma ord2ymd_ymd2ord y m d :
  1 <= y -> 1 <= m <= 12 -> 1 <= d <= days_in_month y m ->
  ord2ymd (ymd2ord y m d) = (y, m, d).
Proof.
  intros Hy Hm Hd.
  set (a := y - 1).
  set (n400 := a / 400). set (n100 := (a mod 400) / 100).
  set (n4 := (a mod 100) / 4). set (n1 := a mod 4).
  assert (Y : y = n400 * 400 + 1 + n100 * 100 + n4 * 4 + n1 /\ 0 <= n400 /\
              0 <= n100 <= 3 /\ 0 <= n4 <= 24 /\ 0 <= n1 <= 3)
    by (subst a n400 n100 n4 n1; Z.div_mod_to_equations; lia).
  clearbody n400 n100 n4 n1. clear a. destruct Y as (Y & H400 & H100 & H4 & H1).
  pose proof (is_leap_decomposed n400 n100 n4 n1 H400 H100 H4 H1) as L. rewrite <- Y in L.
  pose proof (days_before_year_decomposed n400 n100 n4 n1 H400 H100 H4 H1) as B.
  rewrite <- Y in B.
  destruct (day_found_again_spec (is_leap y) m d Hm Hd) as (MD & R & Last).
  unfold ymd2ord. rewrite B.
  assert (DB : days_before_month y m = day_of_year (is_leap y) m d - d)
    by (unfold days_before_month, day_of_year; lia).
  rewrite DB. clear DB.
  set (doy := day_of_year (is_leap y) m d) in *.
  unfold ord2ymd. cbv zeta.
  set (n0 := n400 * DI400Y + n100 * DI100Y + n4 * DI4Y + n1 * 365 + (doy - d) + d - 1).
  set (q400 := n0 / DI400Y). set (r1 := n0 mod DI400Y).
  set (q100 := r1 / DI100Y). set (r2 := r1 mod DI100Y).
  set (q4 := r2 / DI4Y). set (r3 := r2 mod DI4Y).
  set (q1 := r3 / 365). set (r4 := r3 mod 365).
  assert (Ldoy : doy = 366 -> n1 = 3 /\ (n4 <> 24 \/ n100 = 3)).
  { intros E. destruct (is_leap y); [|lia]. symmetry in L.
    rewrite andb_true_iff, orb_true_iff, negb_true_iff, !Z.eqb_eq, Z.eqb_neq in L. tauto. }
  assert (Rest : 0 <= n100 * DI100Y + n4 * DI4Y + n1 * 365 + doy - 1 < DI400Y).
  { unfold DI400Y, DI100Y, DI4Y.
    destruct (Z.eq_dec doy 366) as [E|NE]; [destruct (Ldoy E) as [-> [C| ->]]|];
      destruct (is_leap y); lia. }
  assert (E400 : q400 = n400 /\ r1 = n100 * DI100Y + n4 * DI4Y + n1 * 365 + doy - 1).
  { subst q400 r1 n0. unfold DI400Y, DI100Y, DI4Y in *. Z.div_mod_to_equations. lia. }
  destruct E400 as [-> E1]. clearbody r1. subst r1. clear n0 Rest.
  unfold DI400Y, DI100Y, DI4Y in *.
  destruct (Z.eq_dec doy 366) as [E|NE].
  - destruct (Last E) as [-> ->]. destruct (Ldoy E) as [-> C].
    destruct (Z.eq_dec n4 24) as [->|N4].
    + assert (n100 = 3) as -> by tauto.
      assert (q100 = 4 /\ q4 = 0 /\ q1 = 0) as (-> & -> & ->)
        by (subst q100 q4 q1 r2 r3; rewrite E; repeat split; reflexivity).
      simpl orb. cbv iota. f_equal. f_equal. lia.
    + assert (q100 = n100 /\ r2 = n4 * 1461 + 1460) as [-> ->]
        by (subst q100 r2; Z.div_mod_to_equations; lia).
      assert (q4 = n4 /\ r3 = 1460) as [-> ->]
        by (subst q4 r3; Z.div_mod_to_equations; lia).
      assert (q1 = 4) as -> by reflexivity.
      simpl orb. cbv iota. f_equal. f_equal. lia.
  - assert (Q : 1 <= doy <= 365) by (destruct (is_leap y); lia).
    assert (q100 = n100 /\ r2 = n4 * 1461 + n1 * 365 + doy - 1) as [-> ->]
      by (subst q100 r2; Z.div_mod_to_equations; lia).
    assert (q4 = n4 /\ r3 = n1 * 365 + doy - 1) as [-> ->]
      by (subst q4 r3; Z.div_mod_to_equations; lia).
    assert (q1 = n1 /\ r4 = doy - 1) as [-> ->]
      by (subst q1 r4; Z.div_mod_to_equations; lia).
    replace ((n1 =? 4) || (n100 =? 4)) with false
      by (symmetry; apply orb_false_iff; split; apply Z.eqb_neq; lia).
    rewrite <- L, MD. f_equal. f_equal. lia.
Qed.

Lemma ord2ymd_valid n :
  1 <= n <= MAXORDINAL ->
  let '(y, m, d) := ord2ymd n in
  1 <= y <= 9999 /\ 1 <= m <= 12 /\ 1 <= d <= days_in_month y m.
Proof.
  intros Hn. unfold ord2ymd. cbv zeta.
  set (n0 := n - 1).
  set (n400 := n0 / DI400Y). set (r1 := n0 mod DI400Y).
  set (n100 := r1 / DI100Y). set (r2 := r1 mod DI100Y).
  set (n4 := r2 / DI4Y). set (r3 := r2 mod DI4Y).
  set (n1 := r3 / 365). set (r4 := r3 mod 365).
  assert (D1 : n0 = DI400Y * n400 + r1 /\ 0 <= r1 < DI400Y /\ 0 <= n400)
    by (subst n400 r1; unfold DI400Y; Z.div_mod_to_equations; lia).
  assert (D2 : r1 = DI100Y * n100 + r2 /\ 0 <= r2 < DI100Y /\ 0 <= n100 <= 4)
    by (subst n100 r2; unfold DI100Y, DI400Y in *; Z.div_mod_to_equations; lia).
  assert (D3 : r2 = DI4Y * n4 + r3 /\ 0 <= r3 < DI4Y /\ 0 <= n4 <= 24)
    by (subst n4 r3; unfold DI100Y, DI4Y in *; Z.div_mod_to_equations; lia).
  assert (D4 : r3 = 365 * n1 + r4 /\ 0 <= r4 < 365 /\ 0 <= n1 <= 4)
    by (subst n1 r4; unfold DI4Y in *; Z.div_mod_to_equations; lia).
  clearbody n400 r1 n100 r2 n4 r3 n1 r4. subst n0.
  unfold DI400Y, DI100Y, DI4Y, MAXORDINAL in *.
  destruct (Z.eqb_spec n1 4) as [E1|E1]; [|destruct (Z.eqb_spec n100 4) as [E100|E100]];
    simpl orb; cbv iota.
  - split; [lia|]. split; [lia|].
    unfold days_in_month. simpl andb. cbv iota. unfold table. simpl. lia.
  - split; [lia|]. split; [lia|].
    unfold days_in_month. simpl andb. cbv iota. unfold table. simpl. lia.
  - set (leap := (n1 =? 3) && (negb (n4 =? 24) || (n100 =? 3))).
    assert (Hr4 : 0 <= r4 < (if leap then 366 else 365)) by (destruct leap; lia).
    pose proof (month_day_spec leap r4 Hr4) as S. unfold month_day_ok in S.
    destruct (month_day leap r4) as [m d].
    rewrite !andb_true_iff, !Z.leb_le in S. destruct S as [[[[_ S1] S2] S3] S4].
    split; [lia|]. split; [lia|]. split; [lia|].
    unfold days_in_month. rewrite is_leap_decomposed by lia. exact S4.
Qed.

Lemma year_decomposed y :
  1 <= y ->
  exists n400 n100 n4 n1,
    y = n400 * 400 + 1 + n100 * 100 + n4 * 4 + n1 /\ 0 <= n400 /\
    0 <= n100 <= 3 /\ 0 <= n4 <= 24 /\ 0 <= n1 <= 3.
Proof.
  intros Hy.
  exists ((y - 1) / 400), (((y - 1) mod 400) / 100), (((y - 1) mod 100) / 4), ((y - 1) mod 4).
  Z.div_mod_to_equations. lia.
Qed.

Lemma toordinal_max t : valid t -> toordinal t <= MAXORDINAL.
Proof.
  intros V. apply valid_fields in V. destruct V as (Hy & Hm & Hd & _).
  rewrite (days_in_month_length (year t)) in Hd.
  destruct (day_found_again_spec (is_leap (year t)) (month t) (day t) Hm Hd) as (_ & R & _).
  unfold toordinal, ymd2ord.
  replace (days_before_year (year t) + days_before_month (year t) (month t) + day t)
    with (days_before_year (year t) + day_of_year (is_leap (year t)) (month t) (day t))
    by (unfold days_before_month, day_of_year; lia).
  set (doy := day_of_year _ _ _) in *. clearbody doy.
  destruct (year_decomposed (year t) ltac:(lia)) as (n400 & n100 & n4 & n1 & Y & H400 & H100 & H4 & H1).
  rewrite Y in *.
  rewrite is_leap_decomposed in R by assumption.
  rewrite days_before_year_decomposed by assumption.
  unfold DI400Y, DI100Y, DI4Y, MAXORDINAL.
  destruct (Z.eqb_spec n1 3) as [E|NE]; simpl andb in R; cbv iota in R; [|lia].
  destruct (Z.eqb_spec n4 24), (Z.eqb_spec n100 3); simpl in R; lia.
Qed.

Lemma days_before_next_year y :
  days_before_year (y + 1) = days_before_year y + 365 + (if is_leap y then 1 else 0).
Proof.
  unfold days_before_year, is_leap. cbv zeta.
  replace (y + 1 - 1) with y by lia.
  destruct (Z.eqb_spec (y mod 4) 0), (Z.eqb_spec (y mod 100) 0), (Z.eqb_spec (y mod 400) 0);
    cbn [andb orb negb]; Z.div_mod_to_equations; lia.
Qed.

Lemma days_before_year_mono y y' : y <= y' -> days_before_year y <= days_before_year y'.
Proof. intros H. unfold days_before_year. cbv zeta. Z.div_mod_to_equations. lia. Qed.

(** The days of a year lie after those of the years before it and within
    its own. *)
Lemma toordinal_in_year t :
  valid t ->
  days_before_year (year t) < toordinal t <= days_before_year (year t + 1).
Proof.
  intros V. apply valid_fields in V. destruct V as (Hy & Hm & Hd & _).
  rewrite (days_in_month_length (year t)) in Hd.
  destruct (day_found_again_spec (is_leap (year t)) (month t) (day t) Hm Hd) as (_ & R & _).
  rewrite days_before_next_year.
  unfold toordinal, ymd2ord.
  replace (days_before_year (year t) + days_before_month (year t) (month t) + day t)
    with (days_before_year (year t) + day_of_year (is_leap (year t)) (month t) (day t))
    by (unfold days_before_month, day_of_year; lia).
  destruct (is_leap (year t)); lia.
Qed.

(** A later day is not in an earlier year. *)
Lemma year_monotone t t' :
  valid t -> valid t' -> toordinal t <= toordinal t' -> year t <= year t'.
Proof.
  intros V V' H.
  pose proof (toordinal_in_year t V) as [L _].
  pose proof (toordinal_in_year t' V') as [_ U].
  destruct (Z.le_gt_cases (year t) (year t')) as [Le|Gt]; [exact Le|].
  pose proof (days_before_year_mono (year t' + 1) (year t) ltac:(lia)). lia.
Qed.

Lemma add_hours_exact t i :
  valid t -> 0 <= i ->
  add_hours t i =
  if toordinal t + (hour t + i) / 24 <=? MAXORDINAL then
    let '(y, m, d) := ord2ymd (toordinal t + (hour t + i) / 24) in
    Some (mk y m d ((hour t + i) mod 24) (minute t) (second t) (microsecond t))
  else None.
Proof.
  intros V Hi. pose proof (toordinal_pos t V) as P.
  apply valid_fields in V. destruct V as (_ & _ & _ & Hh & Hmi & Hs & _).
  unfold add_hours. cbv zeta.
  set (secs := hour t * 3600 + minute t * 60 + second t + i * 3600).
  assert (E1 : secs / 86400 = (hour t + i) / 24)
    by (subst secs; Z.div_mod_to_equations; lia).
  assert (E2 : secs mod 86400 / 3600 = (hour t + i) mod 24)
    by (subst secs; Z.div_mod_to_equations; lia).
  assert (E3 : (secs mod 86400) mod 3600 / 60 = minute t)
    by (subst secs; Z.div_mod_to_equations; lia).
  assert (E4 : ((secs mod 86400) mod 3600) mod 60 = second t)
    by (subst secs; Z.div_mod_to_equations; lia).
  rewrite E1, E2, E3, E4.
  replace (0 <? toordinal t + (hour t + i) / 24) with true; [reflexivity|].
  symmetry. apply Z.ltb_lt. Z.div_mod_to_equations. lia.
Qed.

Lemma add_hours_same_day t i :
  valid t -> 0 <= i -> hour t + i < 24 ->
  add_hours t i =
  Some (mk (year t) (month t) (day t) (hour t + i) (minute t) (second t) (microsecond t)).
Proof.
  intros V Hi H. rewrite add_hours_exact by assumption.
  pose proof (toordinal_max t V) as Mx.
  apply valid_fields in V. destruct V as (Hy & Hm & Hd & Hh & _).
  rewrite Z.div_small, Z.mod_small, Z.add_0_r by lia.
  replace (toordinal t <=? MAXORDINAL) with true by (symmetry; apply Z.leb_le; exact Mx).
  unfold toordinal. rewrite ord2ymd_ymd2ord by lia. reflexivity.
Qed.

Lemma add_hours_next_day t i :
  valid t -> 0 <= i -> 24 <= hour t + i < 48 -> toordinal t < MAXORDINAL ->
  exists y m d,
    ord2ymd (toordinal t + 1) = (y, m, d) /\
    add_hours t i =
    Some (mk y m d (hour t + i - 24) (minute t) (second t) (microsecond t)).
Proof.
  intros V Hi H Mx. rewrite add_hours_exact by assumption.
  replace ((hour t + i) / 24) with 1 by (Z.div_mod_to_equations; lia).
  replace ((hour t + i) mod 24) with (hour t + i - 24) by (Z.div_mod_to_equations; lia).
  replace (toordinal t + 1 <=? MAXORDINAL) with true by (symmetry; apply Z.leb_le; lia).
  destruct (ord2ymd (toordinal t + 1)) as [[y m] d]. now exists y, m, d.
Qed.

Lemma add_hours_overflow t i :
  valid t -> 0 <= i -> 24 <= hour t + i -> toordinal t = MAXORDINAL ->
  add_hours t i = None.
Proof.
  intros V Hi H Mx. rewrite add_hours_exact by assumption.
  replace (toordinal t + (hour t + i) / 24 <=? MAXORDINAL) with false; [reflexivity|].
  symmetry. apply Z.leb_gt. Z.div_mod_to_equations. lia.
Qed.

Lemma add_hours_valid t i t' :
  valid t -> 0 <= i -> add_hours t i = Some t' -> valid t'.
Proof.
  intros V Hi. rewrite add_hours_exact by assumption.
  pose proof (toordinal_pos t V) as P.
  destruct (Z.leb_spec (toordinal t + (hour t + i) / 24) MAXORDINAL) as [L|L]; [|discriminate].
  assert (R : 1 <= toordinal t + (hour t + i) / 24 <= MAXORDINAL).
  { apply valid_fields in V. split; [|exact L]. Z.div_mod_to_equations. lia. }
  pose proof (ord2ymd_valid _ R) as O.
  destruct (ord2ymd (toordinal t + (hour t + i) / 24)) as [[y m] d].
  intros [= <-]. apply valid_fields in V.
  destruct V as (_ & _ & _ & Hh & Hmi & Hs & Hus).
  unfold valid, validb. cbn [year month day hour minute second microsecond].
  rewrite !andb_true_iff, !Z.leb_le, !Z.ltb_lt.
  pose proof (Z.mod_pos_bound (hour t + i) 24 ltac:(lia)). intuition lia.
Qed.

End CalendarFacts.

(** ** The price generator and its report *)

Module EnergyFacts.

Import StringFacts ServerFacts DateTimeFacts CalendarFacts.
Local Open Scope Z_scope.

Lemma forecast_loop_raises base_time steps acc :
  (exists i, In i steps /\ DateTime.add_hours base_time i = None) ->
  forecast_loop base_time steps acc = Raise OverflowError.
Proof.
  revert acc. induction steps as [|j steps IH]; intros acc (i & I & E); [contradiction|].
  cbn [forecast_loop]. unfold forecast_entry.
  destruct (DateTime.add_hours base_time j) as [t|] eqn:Ej; cbn [OverflowError_or rbind];
    [|reflexivity].
  apply IH. exists i. split; [|exact E].
  destruct I as [->|I]; [congruence|exact I].
Qed.

(** The generator, whatever the clock reads. *)
Lemma get_mock_energy_prices_run region w :
  let n := clock_reads w in
  get_mock_energy_prices region w =
  match forecast_loop (now_at w (S n)) (range 24) [] with
  | Ok forecast =>
      Ok (energy_price_report region
            (DateTime.isoformat (now_at w (S (S n))))
            (tier_price (DateTime.hour (now_at w n)))
            (tier_label (DateTime.hour (now_at w n)))
            forecast
            (DateTime.isoformat (now_at w (S (S (S n))))),
          ticks 4 w)
  | Raise e => Raise e
  end.
Proof.
  cbv zeta. unfold get_mock_energy_prices, bind, datetime_now.
  unfold tier_price, tier_label, tier_multiplier.
  destruct (price_tier (DateTime.hour (now_at w (clock_reads w)))) as [multiplier period].
  cbn [tick now_at clock_reads]. unfold lift.
  destruct (forecast_loop (now_at w (S (clock_reads w))) (range 24) []); reflexivity.
Qed.

(** The energy tool, whatever the clock reads. *)
Lemma get_energy_prices_run request w :
  let n := clock_reads w in
  get_energy_prices request w =
  match forecast_loop (now_at w (S n)) (range 24) [] with
  | Ok forecast =>
      match format_energy request
              (energy_price_report (region request)
                 (DateTime.isoformat (now_at w (S (S n))))
                 (tier_price (DateTime.hour (now_at w n)))
                 (tier_label (DateTime.hour (now_at w n)))
                 forecast
                 (DateTime.isoformat (now_at w (S (S (S n)))))) with
      | Ok text =>
          Ok (text, ticks 4 (logged ("Fetching energy prices for region: " ++ region request) w))
      | Raise e => Raise e
      end
  | Raise e => Raise e
  end.
Proof.
  cbv zeta. unfold get_energy_prices.
  erewrite bind_ok by reflexivity. cbv beta.
  unfold bind. rewrite get_mock_energy_prices_run. cbv zeta.
  cbn [logged now_at clock_reads].
  destruct (forecast_loop (now_at w (S (clock_reads w))) (range 24) []); reflexivity.
Qed.

(** On the last day of the calendar, from 01:00 on, the 23rd hour after
    the reading does not exist. *)
Lemma get_energy_prices_overflow request w :
  let base_time := now_at w (S (clock_reads w)) in
  DateTime.valid base_time ->
  DateTime.toordinal base_time = DateTime.MAXORDINAL -> 1 <= DateTime.hour base_time ->
  get_energy_prices request w = Raise OverflowError.
Proof.
  intros base_time V Mx Hh. rewrite get_energy_prices_run. cbv zeta. fold base_time.
  rewrite (forecast_loop_raises base_time (range 24) []); [reflexivity|].
  exists 23. split.
  - apply FloatFacts.in_range. lia.
  - apply add_hours_overflow; (assumption || lia).
Qed.

Lemma energy_reply_renamed region w :
  get_mock_energy_prices region w = renamed region (get_mock_energy_prices "EU" w).
Proof.
  rewrite !get_mock_energy_prices_run. cbv zeta.
  destruct (forecast_loop (now_at w (S (clock_reads w))) (range 24) []); reflexivity.
Qed.

Lemma day_counts_table : forallb day_counts_ok (range 24) = true.
Proof. vm_compute. reflexivity. Qed.

Lemma periods_of_forecast base_time :
  DateTime.valid base_time -> DateTime.toordinal base_time < DateTime.MAXORDINAL ->
  map period_of (forecast_from base_time) = labels_from (DateTime.hour base_time).
Proof.
  intros V R. unfold forecast_from, labels_from. rewrite map_map.
  apply map_ext_in. intros i Hi. apply FloatFacts.in_range in Hi.
  rewrite forecast_point_fields.
  destruct (hours_later_spec base_time i V R ltac:(lia)) as (_ & H & _).
  unfold period_of. cbn [Py.getitem Py.lookup String.eqb Ascii.eqb Bool.eqb].
  now rewrite H.
Qed.

Lemma day_counts_spec h :
  0 <= h <= 23 ->
  count_occ string_dec (labels_from h) "peak" = 7%nat /\
  count_occ string_dec (labels_from h) "off_peak" = 9%nat /\
  count_occ string_dec (labels_from h) "standard" = 8%nat.
Proof.
  intros H.
  assert (C : day_counts_ok h = true).
  { pose proof day_counts_table as T. rewrite forallb_forall in T.
    apply T, FloatFacts.in_range. lia. }
  revert C. unfold day_counts_ok.
  generalize (count_occ string_dec (labels_from h) "peak").
  generalize (count_occ string_dec (labels_from h) "off_peak").
  generalize (count_occ string_dec (labels_from h) "standard").
  intros c b a C.
  apply andb_prop in C. destruct C as [C C3]. apply andb_prop in C. destruct C as [C1 C2].
  apply Nat.eqb_eq in C1, C2, C3. auto.
Qed.

Lemma forecast_from_counts base_time :
  DateTime.valid base_time -> DateTime.toordinal base_time < DateTime.MAXORDINAL ->
  period_count "peak" (forecast_from base_time) = 7%nat /\
  period_count "off_peak" (forecast_from base_time) = 9%nat /\
  period_count "standard" (forecast_from base_time) = 8%nat.
Proof.
  intros V R.
  pose proof (DateTimeFacts.valid_fields _ V) as (_ & _ & _ & Hh & _).
  unfold period_count. rewrite (periods_of_forecast base_time V R).
  apply day_counts_spec. lia.
Qed.

Lemma each_hour_once base_time h :
  DateTime.valid base_time -> DateTime.toordinal base_time < DateTime.MAXORDINAL ->
  0 <= h <= 23 ->
  exists i, (i < 24)%nat /\
    DateTime.hour (hours_later base_time (Z.of_nat i)) = h /\
    forall j, (j < 24)%nat ->
      DateTime.hour (hours_later base_time (Z.of_nat j)) = h -> j = i.
Proof.
  intros V R H.
  pose proof (DateTimeFacts.valid_fields _ V) as (_ & _ & _ & Hh & _).
  assert (T : forall i, (i < 24)%nat ->
            DateTime.hour (hours_later base_time (Z.of_nat i)) =
            (DateTime.hour base_time + Z.of_nat i) mod 24).
  { intros i Hi.
    now destruct (hours_later_spec base_time (Z.of_nat i) V R ltac:(lia)) as (_ & E & _). }
  exists (Z.to_nat ((h - DateTime.hour base_time) mod 24)).
  assert (B : 0 <= (h - DateTime.hour base_time) mod 24 < 24)
    by (apply Z.mod_pos_bound; lia).
  split; [lia|]. split.
  - rewrite T by lia. rewrite Z2Nat.id by lia. Z.div_mod_to_equations. lia.
  - intros j Hj E. rewrite T in E by exact Hj.
    apply Nat2Z.inj. rewrite Z2Nat.id by lia. Z.div_mod_to_equations. lia.
Qed.

Lemma price_tier_cases h :
  (peak_hours h -> price_tier h = (PyFloat.of_decimal 18 1, "peak")) /\
  (~ peak_hours h -> off_peak_hours h -> price_tier h = (PyFloat.of_decimal 7 1, "off_peak")) /\
  (~ peak_hours h -> ~ off_peak_hours h ->
   price_tier h = (PyFloat.of_decimal 10 1, "standard")).
Proof.
  unfold peak_hours, off_peak_hours, price_tier.
  destruct (Z.leb_spec 7 h), (Z.leb_spec h 9), (Z.leb_spec 17 h), (Z.leb_spec h 20),
    (Z.leb_spec 22 h), (Z.leb_spec h 6); cbn [andb orb];
    repeat split; intros; try reflexivity; lia.
Qed.

(** A number of four digits needs no padding. *)
Lemma digits_acc_length fuel : forall n acc k,
  10 ^ Z.of_nat k <= n -> (k <= fuel)%nat ->
  (S k + String.length acc <= String.length (PyStr.digits_acc fuel n acc))%nat.
Proof.
  induction fuel as [|fuel IH]; intros n acc k Hn Hk; cbn [PyStr.digits_acc].
  - cbn [String.length]. lia.
  - destruct (Z.ltb_spec n 10) as [Lt|Ge].
    + destruct k as [|k]; [cbn [String.length]; lia|].
      exfalso.
      assert (10 ^ Z.of_nat 1 <= 10 ^ Z.of_nat (S k)) by (apply Z.pow_le_mono_r; lia).
      change (10 ^ Z.of_nat 1) with 10 in *. lia.
    + destruct k as [|k].
      * assert (P : 10 ^ Z.of_nat 0 <= n / 10)
          by (change (10 ^ Z.of_nat 0) with 1; Z.div_mod_to_equations; lia).
        pose proof (IH (n / 10) (String (PyStr.digit_char (n mod 10)) acc) 0%nat P
                      ltac:(lia)) as L.
        cbn [String.length] in L. lia.
      * assert (P : 10 ^ Z.of_nat k <= n / 10).
        { apply Z.div_le_lower_bound; [lia|].
          rewrite <- Z.pow_succ_r by lia. rewrite <- Nat2Z.inj_succ. exact Hn. }
        pose proof (IH (n / 10) (String (PyStr.digit_char (n mod 10)) acc) k P
                      ltac:(lia)) as L.
        cbn [String.length] in L. lia.
Qed.

Lemma zero_pad_year y : 1000 <= y -> PyStr.zero_pad 4 y = PyStr.of_Z y.
Proof.
  intros H. unfold PyStr.zero_pad. cbv zeta.
  assert (L : (4 <= String.length (PyStr.of_Z y))%nat).
  { unfold PyStr.of_Z. cbv zeta.
    replace (y <? 0) with false by (symmetry; apply Z.ltb_ge; lia).
    rewrite Z.abs_eq by lia.
    pose proof (digits_acc_length (Z.to_nat (Z.log2 y)) y "" 3) as D.
    cbn [String.length] in D. apply D.
    - change (10 ^ Z.of_nat 3) with 1000. lia.
    - assert (9 <= Z.log2 y) by (change 9 with (Z.log2 1000); apply Z.log2_le_mono; lia).
      lia. }
  replace (4 - String.length (PyStr.of_Z y))%nat with 0%nat by lia. reflexivity.
Qed.

(** From the year 1000 on, [%Y-%m-%d] is the date of [isoformat]. *)
Lemma strftime_Ymd_padded t :
  1000 <= DateTime.year t -> DateTime.strftime_Ymd t = DateTime.isoformat_date t.
Proof.
  intros H. unfold DateTime.strftime_Ymd, DateTime.isoformat_date.
  now rewrite zero_pad_year.
Qed.

Lemma day_at_most_31 t : DateTime.valid t -> DateTime.day t <= 31.
Proof.
  intros V. apply DateTimeFacts.valid_fields in V.
  destruct V as (Hy & Hmo & Hd & _).
  rewrite (days_in_month_length (DateTime.year t)) in Hd.
  destruct (day_found_again_spec _ _ _ Hmo Hd) as (_ & _ & _).
  unfold Calendar.month_length in Hd.
  destruct ((DateTime.month t =? 2) && DateTime.is_leap (DateTime.year t)); [lia|].
  assert (C : DateTime.month t = 1 \/ DateTime.month t = 2 \/ DateTime.month t = 3 \/
              DateTime.month t = 4 \/ DateTime.month t = 5 \/ DateTime.month t = 6 \/
              DateTime.month t = 7 \/ DateTime.month t = 8 \/ DateTime.month t = 9 \/
              DateTime.month t = 10 \/ DateTime.month t = 11 \/ DateTime.month t = 12) by lia.
  repeat (destruct C as [C | C];
          [rewrite C in Hd; unfold DateTime.table in Hd; simpl in Hd; lia|]).
  rewrite C in Hd. unfold DateTime.table in Hd. simpl in Hd. lia.
Qed.

Lemma isoformat_date_form t :
  DateTime.valid t -> date_text (DateTime.isoformat_date t) = true.
Proof.
  intros V. pose proof (day_at_most_31 t V) as Hd'.
  apply DateTimeFacts.valid_fields in V.
  destruct V as (Hy & Hmo & Hd & _).
  destruct (zero_pad_digits 3 (DateTime.year t)) as [Ay Ly]; [change (10 ^ Z.of_nat 4) with 10000; lia|].
  destruct (zero_pad_digits 1 (DateTime.month t)) as [Amo Lmo]; [change (10 ^ Z.of_nat 2) with 100; lia|].
  destruct (zero_pad_digits 1 (DateTime.day t)) as [Ad Ld]; [change (10 ^ Z.of_nat 2) with 100; lia|].
  unfold date_text, DateTime.isoformat_date.
  rewrite (digits_then_append 4) by assumption. cbn [append char_then Ascii.eqb Bool.eqb andb].
  rewrite (digits_then_append 2) by assumption. cbn [append char_then Ascii.eqb Bool.eqb andb].
  rewrite <- (append_nil_r (PyStr.zero_pad 2 (DateTime.day t))).
  now rewrite (digits_then_append 2) by assumption.
Qed.

(** [%H:%M] has the form [HH:MM]; [%Y-%m-%d] has the form [YYYY-MM-DD]
    from the year 1000 on. *)
Lemma strftime_forms t :
  DateTime.valid t ->
  clock_text (DateTime.strftime_HM t) = true /\
  (1000 <= DateTime.year t -> date_text (DateTime.strftime_Ymd t) = true).
Proof.
  intros V. pose proof (isoformat_date_form t V) as I.
  split; [|intros Y; now rewrite strftime_Ymd_padded].
  clear I.
  apply DateTimeFacts.valid_fields in V.
  destruct V as (Hy & Hmo & Hd & Hh & Hmi & Hs & Hus).
  destruct (zero_pad_digits 1 (DateTime.hour t)) as [Ah Lh]; [change (10 ^ Z.of_nat 2) with 100; lia|].
  destruct (zero_pad_digits 1 (DateTime.minute t)) as [Ami Lmi]; [change (10 ^ Z.of_nat 2) with 100; lia|].
  unfold clock_text, DateTime.strftime_HM.
  rewrite (digits_then_append 2) by assumption. cbn [append char_then Ascii.eqb Bool.eqb andb].
  rewrite <- (append_nil_r (PyStr.zero_pad 2 (DateTime.minute t))).
  now rewrite (digits_then_append 2) by assumption.
Qed.

Lemma forecast_field_report region timestamp price period base_time last_updated i field :
  (i < 24)%nat ->
  forecast_field
    (energy_price_report region timestamp price period (forecast_from base_time) last_updated)
    i field =
  Py.getitem (forecast_point (hours_later base_time (Z.of_nat i))) field.
Proof.
  intros Hi. unfold forecast_field, energy_price_report.
  cbn [Py.getitem Py.lookup rbind String.eqb Ascii.eqb Bool.eqb Py.getindex].
  rewrite nth_error_forecast_from by exact Hi. reflexivity.
Qed.

Lemma hours_later_date base_time i :
  DateTime.valid base_time -> DateTime.toordinal base_time < DateTime.MAXORDINAL ->
  0 <= i <= 23 ->
  let time := hours_later base_time i in
  DateTime.valid time /\
  (DateTime.hour base_time + i < 24 ->
   DateTime.strftime_Ymd time = DateTime.strftime_Ymd base_time /\
   DateTime.toordinal time = DateTime.toordinal base_time) /\
  (24 <= DateTime.hour base_time + i ->
   DateTime.toordinal time = DateTime.toordinal base_time + 1).
Proof.
  intros V R Hi. cbv zeta.
  pose proof (DateTimeFacts.valid_fields _ V) as (_ & _ & _ & Hh & _).
  pose proof (toordinal_pos _ V) as P.
  destruct (hours_later_spec base_time i V R Hi) as (A & _).
  split; [apply (add_hours_valid base_time i); [assumption|lia|exact A]|].
  split.
  - intros S. rewrite add_hours_same_day in A by (assumption || lia).
    injection A as <-. split; reflexivity.
  - intros S.
    destruct (add_hours_next_day base_time i V ltac:(lia) ltac:(lia) R) as (y & m & d & O & E).
    rewrite E in A. injection A as <-.
    unfold DateTime.toordinal at 1. cbn [DateTime.year DateTime.month DateTime.day].
    pose proof (ymd2ord_ord2ymd (DateTime.toordinal base_time + 1) ltac:(lia)) as Y.
    rewrite O in Y. exact Y.
Qed.

Lemma hours_later_year base_time i :
  DateTime.valid base_time -> DateTime.toordinal base_time < DateTime.MAXORDINAL ->
  0 <= i <= 23 ->
  DateTime.year base_time <= DateTime.year (hours_later base_time i).
Proof.
  intros V R Hi.
  destruct (hours_later_date base_time i V R Hi) as (Vt & Same & Next).
  apply year_monotone; [exact V|exact Vt|].
  destruct (Z.lt_ge_cases (DateTime.hour base_time + i) 24) as [L|G].
  - destruct (Same L) as [_ ->]. lia.
  - rewrite (Next G). lia.
Qed.

Lemma substring_prefix a b : String.substring 0 (String.length a) (a ++ b) = a.
Proof.
  induction a as [|c a IH]; cbn [String.length append String.substring].
  - now destruct b.
  - now rewrite IH.
Qed.

Lemma length_isoformat_whole t :
  DateTime.valid t ->
  String.length (DateTime.isoformat (whole_second t)) = 19%nat /\
  DateTime.isoformat t =
    DateTime.isoformat (whole_second t) ++
    (if DateTime.microsecond t =? 0 then ""
     else "." ++ PyStr.zero_pad 6 (DateTime.microsecond t)).
Proof.
  intros V. pose proof (day_at_most_31 t V) as D.
  apply DateTimeFacts.valid_fields in V.
  destruct V as (Hy & Hmo & Hd & Hh & Hmi & Hs & Hus).
  destruct (zero_pad_digits 3 (DateTime.year t)) as [_ Ly]; [change (10 ^ Z.of_nat 4) with 10000; lia|].
  destruct (zero_pad_digits 1 (DateTime.month t)) as [_ Lmo]; [change (10 ^ Z.of_nat 2) with 100; lia|].
  destruct (zero_pad_digits 1 (DateTime.day t)) as [_ Ld]; [change (10 ^ Z.of_nat 2) with 100; lia|].
  destruct (zero_pad_digits 1 (DateTime.hour t)) as [_ Lh]; [change (10 ^ Z.of_nat 2) with 100; lia|].
  destruct (zero_pad_digits 1 (DateTime.minute t)) as [_ Lmi]; [change (10 ^ Z.of_nat 2) with 100; lia|].
  destruct (zero_pad_digits 1 (DateTime.second t)) as [_ Ls]; [change (10 ^ Z.of_nat 2) with 100; lia|].
  split.
  - unfold DateTime.isoformat, DateTime.isoformat_date, whole_second.
    cbn [DateTime.year DateTime.month DateTime.day DateTime.hour DateTime.minute
         DateTime.second DateTime.microsecond]. cbn [Z.eqb].
    rewrite !length_append, Ly, Lmo, Ld, Lh, Lmi, Ls. reflexivity.
  - unfold DateTime.isoformat, DateTime.isoformat_date, whole_second.
    cbn [DateTime.year DateTime.month DateTime.day DateTime.hour DateTime.minute
         DateTime.second DateTime.microsecond]. cbn [Z.eqb].
    rewrite !append_assoc. cbn [append]. reflexivity.
Qed.

Lemma take_isoformat t :
  DateTime.valid t ->
  PyStr.take 19 (DateTime.isoformat t) = DateTime.isoformat (whole_second t).
Proof.
  intros V. destruct (length_isoformat_whole t V) as [L E].
  rewrite E. unfold PyStr.take. rewrite <- L. apply substring_prefix.
Qed.

Lemma concat_cons x xs : String.concat "" (x :: xs) = x ++ String.concat "" xs.
Proof. destruct xs; cbn [String.concat]; [now rewrite append_nil_r|reflexivity]. Qed.

Lemma forecast_lines_after_points ts rest acc :
  forecast_lines (map forecast_point ts ++ rest) acc =
  forecast_lines rest (acc ++ String.concat "" (map line_for ts)).
Proof.
  revert acc. induction ts as [|t ts IH]; intros acc.
  - cbn [map app String.concat]. now rewrite append_nil_r.
  - cbn [map app forecast_lines]. rewrite forecast_line_point. cbn [rbind].
    rewrite IH, concat_cons. now rewrite append_assoc.
Qed.

Lemma firstn_map_app {A B} (f : A -> B) n (l : list A) (rest : list B) :
  (n <= List.length l)%nat -> firstn n (map f l ++ rest) = map f (firstn n l).
Proof.
  intros H. rewrite firstn_app, length_map.
  replace (n - List.length l)%nat with 0%nat by lia.
  cbn [firstn]. rewrite app_nil_r. apply firstn_map.
Qed.

End EnergyFacts.

(** ** The weather generator and its report *)

Module WeatherFacts.

Import StringFacts ServerFacts.
Local Open Scope Z_scope.

(** The weather generator, whatever the draws. *)
Lemma get_mock_weather_data_cases location w :
  let n := rng_calls w in
  let c := clock_reads w in
  get_mock_weather_data location w =
  match nth_error ["Clear"; "Clouds"; "Rain"]
          (Z.to_nat (randbelow_at w (S (S (S (S n)))) 3)),
        nth_error conditions (Z.to_nat (randbelow_at w (S (S (S (S (S n))))) 4)) with
  | Some main, Some description =>
      match timestamps_error w with
      | Some e => Raise e
      | None =>
          Ok (weather_reading location
                (PyFloat.round
                   (uniform_value (PyFloat.of_decimal 150 1) (PyFloat.of_decimal 250 1)
                      (random_at w n)) 1)
                (PyFloat.round
                   (uniform_value (PyFloat.of_decimal 140 1) (PyFloat.of_decimal 260 1)
                      (random_at w (S n))) 1)
                (40 + randbelow_at w (S (S n)) (80 - 40 + 1))
                (1000 + randbelow_at w (S (S (S n))) (1020 - 1000 + 1))
                main description
                (PyFloat.round
                   (uniform_value (PyFloat.of_decimal 10 1) (PyFloat.of_decimal 100 1)
                      (random_at w (S (S (S (S (S (S n)))))))) 1)
                (timestamp_at w (now_at w c))
                (timestamp_at w (DateTime.replace_hm (now_at w (S c)) 6 30))
                (timestamp_at w (DateTime.replace_hm (now_at w (S (S c))) 19 45)),
              ticks 3 (draws 7 w))
      end
  | _, _ => Raise IndexError
  end.
Proof.
  cbv zeta. unfold get_mock_weather_data.
  do 2 (erewrite bind_ok by apply random_uniform_run; cbv beta).
  do 2 (erewrite bind_ok by apply random_randint_run; cbv beta).
  unfold bind at 1. unfold random_choice at 1. unfold bind at 1. unfold randbelow at 1.
  cbn [next_draw rng_calls randbelow_at List.length Z.of_nat Pos.of_succ_nat Pos.succ].
  destruct (nth_error ["Clear"; "Clouds"; "Rain"] _) as [main|]; [|reflexivity].
  unfold ret at 1.
  unfold bind at 1. unfold random_choice at 1. unfold conditions at 1.
  unfold bind at 1. unfold randbelow at 1.
  cbn [next_draw rng_calls randbelow_at List.length Z.of_nat Pos.of_succ_nat Pos.succ].
  unfold conditions.
  destruct (nth_error ["clear sky"; "few clouds"; "scattered clouds"; "light rain"] _)
    as [description|]; [|reflexivity].
  unfold ret at 1.
  erewrite bind_ok by apply random_uniform_run. cbv beta.
  erewrite bind_ok by reflexivity. cbv beta.
  unfold timestamps_error, converted_moments. cbv zeta. cbn [map first_error].
  unfold bind at 1. unfold int_timestamp at 1.
  cbn [next_draw tick timestamp_error clock_reads now_at].
  destruct (timestamp_error w (now_at w (clock_reads w))); [reflexivity|].
  erewrite bind_ok by reflexivity. cbv beta.
  unfold bind at 1. unfold int_timestamp at 1.
  cbn [next_draw tick timestamp_error clock_reads now_at].
  destruct (timestamp_error w (DateTime.replace_hm (now_at w (S (clock_reads w))) 6 30));
    [reflexivity|].
  erewrite bind_ok by reflexivity. cbv beta.
  unfold bind at 1. unfold int_timestamp at 1.
  cbn [next_draw tick timestamp_error clock_reads now_at].
  destruct (timestamp_error w (DateTime.replace_hm (now_at w (S (S (clock_reads w)))) 19 45));
    reflexivity.
Qed.

Lemma timestamps_error_none w : timestamps_error w = None <-> timestamps_defined w.
Proof.
  unfold timestamps_error, timestamps_defined, converted_moments. cbv zeta.
  cbn [map first_error In]. split.
  - intros H t.
    destruct (timestamp_error w (now_at w (clock_reads w))) eqn:E0; [discriminate|].
    destruct (timestamp_error w (DateTime.replace_hm (now_at w (S (clock_reads w))) 6 30))
      eqn:E1; [discriminate|].
    intros [<- | [<- | [<- | []]]]; try assumption.
    revert H.
    now destruct (timestamp_error w
                    (DateTime.replace_hm (now_at w (S (S (clock_reads w)))) 19 45)).
  - intros H.
    rewrite (H (now_at w (clock_reads w))) by auto.
    rewrite (H (DateTime.replace_hm (now_at w (S (clock_reads w))) 6 30)) by auto.
    rewrite (H (DateTime.replace_hm (now_at w (S (S (clock_reads w)))) 19 45)) by auto.
    reflexivity.
Qed.

Lemma sample_world_timestamps : timestamps_defined sample_world.
Proof. intros t [<- | [<- | [<- | []]]]; reflexivity. Qed.

Lemma world_drawing_timestamps k j : timestamps_defined (world_drawing k j).
Proof. intros t [<- | [<- | [<- | []]]]; reflexivity. Qed.

(** With draws in their ranges the generator and the tool raise what the
    first failing [timestamp()] raises. *)
Lemma get_mock_weather_data_raises location w e :
  random_source_ok w -> timestamps_error w = Some e ->
  get_mock_weather_data location w = Raise e.
Proof.
  intros [_ Hb] E. rewrite get_mock_weather_data_cases. cbv zeta.
  destruct (nth_error ["Clear"; "Clouds"; "Rain"] _) eqn:N1.
  2:{ apply nth_error_None in N1. cbn [List.length] in N1.
      pose proof (Hb (S (S (S (S (rng_calls w))))) 3 ltac:(lia)). lia. }
  destruct (nth_error conditions _) eqn:N2.
  2:{ apply nth_error_None in N2. cbn [List.length conditions] in N2.
      pose proof (Hb (S (S (S (S (S (rng_calls w)))))) 4 ltac:(lia)). lia. }
  now rewrite E.
Qed.

Lemma get_weather_data_raises request w e :
  random_source_ok w -> timestamps_error w = Some e ->
  get_weather_data request w = Raise e.
Proof.
  intros R E. unfold get_weather_data.
  erewrite bind_ok by reflexivity. cbv beta.
  unfold bind at 1.
  rewrite (get_mock_weather_data_raises _ _ e); [reflexivity|exact R|exact E].
Qed.

(** A reading that the generator returned, with draws in their ranges,
    is the one built from the draws, and no [timestamp()] raised. *)
Lemma get_mock_weather_data_returned location w reading w' :
  random_source_ok w -> get_mock_weather_data location w = Ok (reading, w') ->
  timestamps_defined w /\ reading = generated_reading location w.
Proof.
  intros R G.
  destruct (timestamps_error w) as [e|] eqn:E.
  - rewrite (get_mock_weather_data_raises location w e R E) in G. discriminate.
  - apply timestamps_error_none in E. split; [exact E|].
    rewrite (get_mock_weather_data_run location w R E) in G.
    apply (f_equal answer) in G. cbn [answer] in G.
    apply (f_equal (fun o => match o with Ok x => x | Raise _ => reading end)) in G.
    now symmetry.
Qed.

Lemma weather_reply_renamed location w :
  get_mock_weather_data location w = renamed location (get_mock_weather_data "London" w).
Proof.
  rewrite !get_mock_weather_data_cases. cbv zeta.
  destruct (nth_error ["Clear"; "Clouds"; "Rain"] _); [|reflexivity].
  destruct (nth_error conditions _); [|reflexivity].
  destruct (timestamps_error w); reflexivity.
Qed.

(** The weather tool, whatever the draws. *)
Lemma get_weather_data_state request w text w' :
  get_weather_data request w = Ok (text, w') ->
  w' = ticks 3 (draws 7 (logged ("Fetching weather data for: " ++ location request) w)).
Proof.
  unfold get_weather_data.
  erewrite bind_ok by reflexivity. cbv beta.
  unfold bind. rewrite get_mock_weather_data_cases. cbv zeta.
  destruct (nth_error ["Clear"; "Clouds"; "Rain"] _); [|discriminate].
  destruct (nth_error conditions _); [|discriminate].
  destruct (timestamps_error _); [discriminate|].
  unfold lift. destruct (format_weather _); [|discriminate].
  now intros [= _ <-].
Qed.

(** The weather tool on a random source that keeps its ranges. *)
Lemma get_weather_data_text request w :
  random_source_ok w -> timestamps_defined w ->
  let w1 := logged ("Fetching weather data for: " ++ location request) w in
  let n := rng_calls w in
  get_weather_data request w =
  Ok (weather_text (generated_reading (location request) w1) (location request)
        (PyFloat.round
           (uniform_value (PyFloat.of_decimal 150 1) (PyFloat.of_decimal 250 1)
              (random_at w n)) 1)
        (40 + randbelow_at w (S (S n)) (80 - 40 + 1))
        (1000 + randbelow_at w (S (S (S n))) (1020 - 1000 + 1))
        (choice_at conditions w (S (S (S (S (S n))))))
        (PyFloat.round
           (uniform_value (PyFloat.of_decimal 10 1) (PyFloat.of_decimal 100 1)
              (random_at w (S (S (S (S (S (S n)))))))) 1),
      ticks 3 (draws 7 w1)).
Proof.
  intros R T. cbv zeta. unfold get_weather_data.
  erewrite bind_ok by reflexivity. cbv beta.
  erewrite bind_ok by (apply get_mock_weather_data_run; [exact R|exact T]).
  unfold generated_reading. cbv zeta. unfold lift.
  rewrite format_weather_reading. reflexivity.
Qed.

Lemma prints_one_decimal_spec lo hi q :
  prints_one_decimal lo hi = true -> lo <= q <= hi ->
  PyFloat.repr (PyFloat.of_decimal q 1) = one_decimal_text q.
Proof.
  unfold prints_one_decimal. rewrite forallb_forall. intros T H.
  specialize (T (q - lo)). replace (lo + (q - lo)) with q in T by lia.
  apply String.eqb_eq, T, FloatFacts.in_range. lia.
Qed.

Lemma same_float_eq x y : same_float x y = true -> x = y.
Proof.
  destruct x as [a|a| |a m e], y as [b|b| |b n f]; cbn [same_float]; try discriminate.
  - now intros ->%Bool.eqb_prop.
  - now intros ->%Bool.eqb_prop.
  - reflexivity.
  - rewrite !andb_true_iff. intros [[->%Bool.eqb_prop ->%Pos.eqb_eq] ->%Z.eqb_eq]. reflexivity.
Qed.

Lemma draws_reach_spec lo hi q :
  draws_reach lo hi = true -> lo < hi -> lo <= q <= hi ->
  0 <= draw_for lo hi q < 2 ^ 53 /\
  PyFloat.round (uniform_value (PyFloat.of_decimal lo 1) (PyFloat.of_decimal hi 1)
                   (draw_for lo hi q)) 1 = PyFloat.of_decimal q 1.
Proof.
  unfold draws_reach. rewrite forallb_forall. intros T L H.
  specialize (T (q - lo)). replace (lo + (q - lo)) with q in T by lia.
  split.
  - unfold draw_for. split; [|lia].
    apply Z.min_glb; [lia|]. apply Z.div_pos; [|lia].
    apply Z.mul_nonneg_nonneg; lia.
  - apply same_float_eq, T, FloatFacts.in_range. lia.
Qed.

Lemma world_drawing_ok k j : 0 <= k < 2 ^ 53 -> random_source_ok (world_drawing k j).
Proof.
  intros H. split; [intros n; exact H|].
  intros n m Hm. cbn [world_drawing randbelow_at]. now apply Z.mod_pos_bound.
Qed.

Lemma occurs_first_3 a b c rest : occurs_in (a ++ b ++ c) (a ++ b ++ c ++ rest).
Proof. exists "", rest. now rewrite !append_assoc. Qed.

Lemma occurs_first_4 a b c d rest : occurs_in (a ++ b ++ c ++ d) (a ++ b ++ c ++ d ++ rest).
Proof. exists "", rest. now rewrite !append_assoc. Qed.

End WeatherFacts.

(** ** Floating point: bounds on a finer grid, and whole seconds *)

Module TimestampFacts.
Import FloatFacts.

Section Scaled.

Variable k : Z.
Hypothesis k_range : 0 <= k <= 1074.

Lemma shr_iter_m n mrs :
  0 <= shr_m mrs -> shr_m (Nat.iter n shr_1 mrs) = shr_m mrs / 2 ^ Z.of_nat n.
Proof.
  intros Hm. induction n as [|n IH].
  - simpl. now rewrite Z.div_1_r.
  - rewrite Nat.iter_succ.
    assert (P : 0 < 2 ^ Z.of_nat n) by (apply Z.pow_pos_nonneg; lia).
    rewrite shr_1_m by (rewrite IH; apply Z.div_pos; lia).
    rewrite IH, Nat2Z.inj_succ, Z.pow_succ_r by lia.
    rewrite Z.div_div by lia. f_equal. lia.
Qed.

Lemma shr_record_of_loc_m m l : shr_m (shr_record_of_loc m l) = m.
Proof. now destruct l as [|[| |]]. Qed.

(** One truncation step, from any location: a mantissa strictly below
    the upper bound stays within the bounds. *)
Lemma shr_fexp_stage_below m e l lo hi :
  0 <= m -> e <= - k -> 0 <= lo -> hi < 2 ^ 53 ->
  lo * 2 ^ (- k - e) <= m -> m + 1 <= hi * 2 ^ (- k - e) ->
  exists mrs e',
    shr_fexp PyFloat.prec PyFloat.emax m e l = (mrs, e') /\
    e' <= - k /\
    0 <= shr_m mrs /\
    lo * 2 ^ (- k - e') <= round_nearest_even (shr_m mrs) (loc_of_shr_record mrs) /\
    round_nearest_even (shr_m mrs) (loc_of_shr_record mrs) <= hi * 2 ^ (- k - e').
Proof.
  intros Hm He Hlo Hhi L H.
  assert (P : 0 < 2 ^ (- k - e)) by (apply Z.pow_pos_nonneg; lia).
  assert (D : Zdigits2 m <= 53 - k - e).
  { apply digits_le; [lia|]. split; [assumption|].
    replace (53 - k - e) with (53 + (- k - e)) by lia. rewrite Z.pow_add_r by lia. nia. }
  unfold shr_fexp. rewrite fexp_eq.
  set (s := Z.max (Zdigits2 m + e - 53) (-1074) - e).
  assert (Hs : e + s <= - k) by (subst s; lia).
  unfold shr.
  destruct s as [|p|p] eqn:Es.
  - eexists _, _. split; [reflexivity|]. rewrite shr_record_of_loc_m.
    pose proof (rne_bounds m (loc_of_shr_record (shr_record_of_loc m l))). lia.
  - eexists _, _. split; [reflexivity|].
    rewrite iter_pos_nat.
    pose proof (shr_iter_m (Pos.to_nat p) (shr_record_of_loc m l)) as Em.
    rewrite shr_record_of_loc_m, positive_nat_Z in Em. specialize (Em Hm).
    set (mrs := Nat.iter (Pos.to_nat p) shr_1 _) in *.
    assert (Q : 0 < 2 ^ Z.pos p) by (apply Z.pow_pos_nonneg; lia).
    assert (Q' : 0 < 2 ^ (- k - (e + Z.pos p))) by (apply Z.pow_pos_nonneg; lia).
    assert (S : 2 ^ (- k - e) = 2 ^ (- k - (e + Z.pos p)) * 2 ^ Z.pos p).
    { rewrite <- Z.pow_add_r by lia. f_equal. lia. }
    rewrite S in L, H.
    pose proof (rne_bounds (shr_m mrs) (loc_of_shr_record mrs)) as B.
    assert (Lo : lo * 2 ^ (- k - (e + Z.pos p)) <= shr_m mrs)
      by (rewrite Em; apply Z.div_le_lower_bound; lia).
    assert (Hi : shr_m mrs < hi * 2 ^ (- k - (e + Z.pos p)))
      by (rewrite Em; apply Z.div_lt_upper_bound; lia).
    split; [exact Hs|]. split; [rewrite Em; apply Z.div_pos; lia|]. lia.
  - eexists _, _. split; [reflexivity|]. rewrite shr_record_of_loc_m.
    pose proof (rne_bounds m (loc_of_shr_record (shr_record_of_loc m l))). lia.
Qed.

(** The same step from an exact mantissa, which may be the upper bound. *)
Lemma shr_fexp_stage_at m e lo hi :
  0 <= m -> e <= - k -> 0 <= lo -> hi < 2 ^ 53 ->
  lo * 2 ^ (- k - e) <= m <= hi * 2 ^ (- k - e) ->
  exists mrs e',
    shr_fexp PyFloat.prec PyFloat.emax m e loc_Exact = (mrs, e') /\
    e' <= - k /\
    lo * 2 ^ (- k - e') <= shr_m mrs /\
    shr_m mrs <= round_nearest_even (shr_m mrs) (loc_of_shr_record mrs) /\
    round_nearest_even (shr_m mrs) (loc_of_shr_record mrs) <= hi * 2 ^ (- k - e').
Proof.
  intros Hm He Hlo Hhi [L H].
  assert (P : 0 < 2 ^ (- k - e)) by (apply Z.pow_pos_nonneg; lia).
  assert (D : Zdigits2 m <= 53 - k - e).
  { apply digits_le; [lia|]. split; [assumption|].
    replace (53 - k - e) with (53 + (- k - e)) by lia. rewrite Z.pow_add_r by lia. nia. }
  unfold shr_fexp. rewrite fexp_eq.
  set (s := Z.max (Zdigits2 m + e - 53) (-1074) - e).
  assert (Hs : e + s <= - k) by (subst s; lia).
  unfold shr, shr_record_of_loc.
  destruct s as [|p|p] eqn:Es.
  - eexists _, _. split; [reflexivity|]. cbn [shr_m loc_of_shr_record round_nearest_even]. lia.
  - eexists _, _. split; [reflexivity|].
    rewrite iter_pos_nat.
    destruct (shr_iter (Pos.to_nat p) m Hm) as [Em Ee].
    rewrite positive_nat_Z in Em, Ee.
    set (mrs := Nat.iter (Pos.to_nat p) shr_1 _) in *.
    assert (Q : 0 < 2 ^ Z.pos p) by (apply Z.pow_pos_nonneg; lia).
    assert (Q' : 0 < 2 ^ (- k - (e + Z.pos p))) by (apply Z.pow_pos_nonneg; lia).
    assert (S : 2 ^ (- k - e) = 2 ^ (- k - (e + Z.pos p)) * 2 ^ Z.pos p).
    { rewrite <- Z.pow_add_r by lia. f_equal. lia. }
    rewrite S in L, H.
    pose proof (rne_bounds (shr_m mrs) (loc_of_shr_record mrs)) as B.
    split; [exact Hs|]. split; [|split; [lia|]].
    + rewrite Em. apply Z.div_le_lower_bound; lia.
    + destruct (Z.eq_dec (m mod 2 ^ Z.pos p) 0) as [Z0|NZ].
      * destruct (Ee Z0) as [Hr Hsb]. rewrite (loc_exact _ Hr Hsb). cbn [round_nearest_even].
        rewrite Em. apply Z.div_le_upper_bound; lia.
      * assert (shr_m mrs < hi * 2 ^ (- k - (e + Z.pos p))); [|lia].
        rewrite Em. apply Z.div_lt_upper_bound; [lia|].
        assert (m <> hi * 2 ^ (- k - (e + Z.pos p)) * 2 ^ Z.pos p); [|lia].
        intros ->. apply NZ. now rewrite Z.mod_mul by lia.
  - eexists _, _. split; [reflexivity|]. cbn [shr_m loc_of_shr_record round_nearest_even]. lia.
Qed.

(** The second step of a rounding and the float it builds. *)
Lemma binary_round_tail m e lo hi :
  0 <= m -> e <= - k -> 0 <= lo -> hi < 2 ^ 53 ->
  lo * 2 ^ (- k - e) <= m <= hi * 2 ^ (- k - e) ->
  between_at k lo hi
    (let '(mrs, e') := shr_fexp PyFloat.prec PyFloat.emax m e loc_Exact in
     match shr_m mrs with
     | 0 => S754_zero false
     | Z.pos m0 =>
         if e' <=? PyFloat.emax - PyFloat.prec then S754_finite false m0 e'
         else S754_infinity false
     | Z.neg _ => S754_nan
     end).
Proof.
  intros Hm He Hlo Hhi B.
  destruct (shr_fexp_stage_at m e lo hi Hm He Hlo Hhi B) as (mrs & e' & -> & He' & L & M & H).
  assert (P : 0 < 2 ^ (- k - e')) by (apply Z.pow_pos_nonneg; lia).
  destruct (shr_m mrs) as [|p|p] eqn:E; cbn [between_at].
  - nia.
  - replace (e' <=? PyFloat.emax - PyFloat.prec) with true
      by (symmetry; apply Z.leb_le; unfold PyFloat.emax, PyFloat.prec; lia).
    cbn [between_at]. lia.
  - nia.
Qed.

Lemma binary_round_aux_below m e l lo hi :
  0 <= m -> e <= - k -> 0 <= lo -> hi < 2 ^ 53 ->
  lo * 2 ^ (- k - e) <= m -> m + 1 <= hi * 2 ^ (- k - e) ->
  between_at k lo hi (binary_round_aux PyFloat.prec PyFloat.emax false m e l).
Proof.
  intros Hm He Hlo Hhi L H. unfold binary_round_aux.
  destruct (shr_fexp_stage_below m e l lo hi Hm He Hlo Hhi L H)
    as (mrs & e' & -> & He' & N & L' & H').
  apply binary_round_tail; try assumption; [|lia].
  pose proof (rne_bounds (shr_m mrs) (loc_of_shr_record mrs)). lia.
Qed.

Lemma binary_round_aux_at m e lo hi :
  0 <= m -> e <= - k -> 0 <= lo -> hi < 2 ^ 53 ->
  lo * 2 ^ (- k - e) <= m <= hi * 2 ^ (- k - e) ->
  between_at k lo hi (binary_round_aux PyFloat.prec PyFloat.emax false m e loc_Exact).
Proof.
  intros Hm He Hlo Hhi B. unfold binary_round_aux.
  destruct (shr_fexp_stage_at m e lo hi Hm He Hlo Hhi B) as (mrs & e' & -> & He' & L & M & H).
  assert (P : 0 < 2 ^ (- k - e')) by (apply Z.pow_pos_nonneg; lia).
  apply binary_round_tail; try assumption; nia.
Qed.

(** Rounding a mantissa whose exponent may lie above [- k]. *)
Lemma binary_round_at p e lo hi :
  0 <= lo -> hi < 2 ^ 53 ->
  (e <= - k -> lo * 2 ^ (- k - e) <= Zpos p <= hi * 2 ^ (- k - e)) ->
  (- k < e -> lo <= Zpos p * 2 ^ (e + k) <= hi) ->
  between_at k lo hi (binary_round PyFloat.prec PyFloat.emax false p e).
Proof.
  intros Hlo Hhi Low High. unfold binary_round, shl_align.
  rewrite fexp_eq.
  set (e' := Z.max (Zpos (digits2_pos p) + e - 53) (-1074)).
  destruct (Z_le_gt_dec e (- k)) as [He|He].
  - specialize (Low He). clear High.
    destruct (e' - e) as [|d|d] eqn:Ed.
    + apply binary_round_aux_at; auto; lia.
    + apply binary_round_aux_at; auto; lia.
    + assert (e' = e - Zpos d) by lia.
      apply binary_round_aux_at; auto; try lia.
      rewrite pos_iter_xO.
      replace (- k - e') with (- k - e + Zpos d) by lia. rewrite Z.pow_add_r by lia.
      assert (0 < 2 ^ Zpos d) by (apply Z.pow_pos_nonneg; lia).
      nia.
  - specialize (High ltac:(lia)). clear Low.
    assert (Q : 0 < 2 ^ (e + k)) by (apply Z.pow_pos_nonneg; lia).
    assert (N : 0 <= 53 - (e + k)).
    { destruct (Z_le_gt_dec 0 (53 - (e + k))) as [|G]; [assumption|exfalso].
      assert (2 ^ 53 <= 2 ^ (e + k)) by (apply Z.pow_le_mono_r; lia). nia. }
    assert (D : Zpos (digits2_pos p) <= 53 - (e + k)).
    { apply (digits_le (Zpos p)); [assumption|split; [lia|]].
      destruct (Z_lt_le_dec (Zpos p) (2 ^ (53 - (e + k)))) as [|G]; [assumption|exfalso].
      assert (2 ^ (53 - (e + k)) * 2 ^ (e + k) = 2 ^ 53)
        by (rewrite <- Z.pow_add_r by lia; f_equal; lia).
      nia. }
    assert (E : e' <= - k) by (subst e'; lia).
    destruct (e' - e) as [|d|d] eqn:Ed; try lia.
    assert (e' = e - Zpos d) by lia.
    apply binary_round_aux_at; auto; try lia.
    rewrite pos_iter_xO.
    assert (S : 2 ^ Zpos d = 2 ^ (e + k) * 2 ^ (- k - e')).
    { rewrite <- Z.pow_add_r by lia. f_equal. lia. }
    rewrite S. assert (0 < 2 ^ (- k - e')) by (apply Z.pow_pos_nonneg; lia). nia.
Qed.

End Scaled.

Lemma of_Z_at k s :
  0 <= k <= 1074 -> 0 <= s -> s * 2 ^ k < 2 ^ 53 ->
  between_at k (s * 2 ^ k) (s * 2 ^ k) (PyFloat.of_Z s).
Proof.
  intros Hk Hs B. assert (P : 0 < 2 ^ k) by (apply Z.pow_pos_nonneg; lia).
  unfold PyFloat.of_Z.
  destruct s as [|p|p]; cbn [binary_normalize between_at]; try lia.
  apply (binary_round_at k Hk).
  - lia.
  - exact B.
  - intros H0. replace k with 0 by lia. cbn. lia.
  - intros H0. rewrite Z.add_0_l. lia.
Qed.

Lemma between_at_weaken k lo hi lo' hi' x :
  between_at k lo hi x -> lo' <= lo -> hi <= hi' -> between_at k lo' hi' x.
Proof.
  destruct x as [s| | |[|] m e]; cbn [between_at]; try tauto; try lia.
  intros (He & L & H) Hl Hh.
  assert (0 < 2 ^ (- k - e)) by (apply Z.pow_pos_nonneg; lia). nia.
Qed.

Lemma between_at_nonneg k lo hi x : between_at k lo hi x -> 0 <= lo -> 0 <= hi.
Proof.
  destruct x as [s| | |[|] m e]; cbn [between_at]; try tauto; lia.
Qed.

Lemma add_between_at k l1 h1 l2 h2 x y :
  0 <= k <= 1074 ->
  between_at k l1 h1 x -> between_at k l2 h2 y -> 0 <= l1 -> 0 <= l2 -> h1 + h2 < 2 ^ 53 ->
  between_at k (l1 + l2) (h1 + h2) (PyFloat.add x y).
Proof.
  intros Hk Bx By H1 H2 Hh.
  pose proof (between_at_nonneg _ _ _ _ Bx H1). pose proof (between_at_nonneg _ _ _ _ By H2).
  unfold PyFloat.add.
  destruct x as [sx| | |[|] mx ex], y as [sy| | |[|] my ey];
    try (cbn [between_at] in Bx, By; tauto); cbn [SFadd].
  - destruct sx, sy; cbn [between_at] in *; lia.
  - apply (between_at_weaken k l2 h2); [exact By| |]; cbn [between_at] in Bx; lia.
  - apply (between_at_weaken k l1 h1); [exact Bx| |]; cbn [between_at] in By; lia.
  - cbn [between_at] in Bx, By. destruct Bx as (Ex & Lx & Hx), By as (Ey & Ly & Hy).
    cbn [cond_Zopp]. set (ez := Z.min ex ey).
    assert (ez <= ex /\ ez <= ey /\ ez <= - k) as (Zx & Zy & Z0) by (subst ez; lia).
    change (Zpos (fst (shl_align mx ex ez)) + Zpos (fst (shl_align my ey ez)))
      with (Zpos (fst (shl_align mx ex ez) + fst (shl_align my ey ez))).
    cbn [binary_normalize].
    apply (binary_round_at k Hk); try lia.
    intros _.
    rewrite Pos2Z.inj_add, !FloatFacts.shl_align_fst by assumption.
    assert (Sx : 2 ^ (- k - ez) = 2 ^ (- k - ex) * 2 ^ (ex - ez))
      by (rewrite <- Z.pow_add_r by lia; f_equal; lia).
    assert (Sy : 2 ^ (- k - ez) = 2 ^ (- k - ey) * 2 ^ (ey - ez))
      by (rewrite <- Z.pow_add_r by lia; f_equal; lia).
    assert (0 < 2 ^ (ex - ez)) by (apply Z.pow_pos_nonneg; lia).
    assert (0 < 2 ^ (ey - ez)) by (apply Z.pow_pos_nonneg; lia).
    rewrite !Z.mul_add_distr_r. rewrite Sx at 1 3. rewrite Sy. nia.
Qed.

(** An integer as a float: its mantissa and exponent give it back. *)
Lemma of_Z_exact u :
  0 < u < 2 ^ 53 ->
  exists m e, PyFloat.of_Z u = S754_finite false m e /\ e <= 0 /\ Zpos m = u * 2 ^ (- e).
Proof.
  intros Hu. pose proof (of_Z_at 0 u ltac:(lia) ltac:(lia) ltac:(lia)) as B.
  destruct (PyFloat.of_Z u) as [s| | |[|] m e]; cbn [between_at] in B; try tauto; try lia.
  exists m, e. split; [reflexivity|]. destruct B as (He & L & H).
  split; [lia|]. replace (- 0 - e) with (- e) in * by lia.
  change (2 ^ 0) with 1 in *. lia.
Qed.

(** The fraction [microsecond / 1e6] of a second stays below
    [1 - 2^-20]. *)
Lemma fraction_below u :
  0 <= u < 1000000 ->
  between_at 20 0 (2 ^ 20 - 1) (PyFloat.div (PyFloat.of_Z u) (PyFloat.of_Z 1000000)).
Proof.
  intros Hu. destruct (Z.eq_dec u 0) as [->|NZ]; [cbn; lia|].
  destruct (of_Z_exact u ltac:(lia)) as (mx & ex & -> & Hex & Emx).
  change (PyFloat.of_Z 1000000) with (S754_finite false 8589934592000000 (-33)).
  unfold PyFloat.div. cbn [SFdiv xorb]. unfold SFdiv_core_binary.
  rewrite FloatFacts.fexp_eq.
  change (Zdigits2 8589934592000000) with 53.
  set (d1 := Zdigits2 (Z.pos mx)).
  assert (Px : 0 < 2 ^ (- ex)) by (apply Z.pow_pos_nonneg; lia).
  assert (D1 : d1 <= 20 - ex).
  { apply FloatFacts.digits_le; [lia|]. split; [lia|]. rewrite Emx.
    replace (20 - ex) with (20 + - ex) by lia. rewrite Z.pow_add_r by lia.
    apply Z.mul_lt_mono_pos_r; lia. }
  set (e' := Z.min (Z.max (d1 + ex - (53 + -33) - 53) (-1074)) (ex - -33)).
  assert (E' : e' <= -53 /\ e' <= ex + 33) by (subst e'; lia).
  set (m' := match ex - -33 - e' with
             | 0 => Z.pos mx
             | Z.pos _ => Z.shiftl (Z.pos mx) (ex - -33 - e')
             | Z.neg _ => 0
             end).
  assert (M : m' = u * 2 ^ 33 * 2 ^ (- e')).
  { assert (m' = Z.pos mx * 2 ^ (ex + 33 - e')) as ->.
    { subst m'. replace (ex - -33 - e') with (ex + 33 - e') by lia.
      destruct (ex + 33 - e') as [|p|p] eqn:S; [lia| |lia].
      now rewrite Z.shiftl_mul_pow2 by lia. }
    rewrite Emx, <- !Z.mul_assoc, <- !Z.pow_add_r by lia. do 2 f_equal. lia. }
  clearbody m'. subst m'.
  set (T := 2 ^ (- 20 - e')).
  assert (HT : 2 ^ 33 <= T) by (apply Z.pow_le_mono_r; lia).
  assert (ET : 2 ^ (- e') = 2 ^ 20 * T)
    by (subst T; rewrite <- Z.pow_add_r by lia; f_equal; lia).
  rewrite ET.
  pose proof (Z.div_eucl_eq (u * 2 ^ 33 * (2 ^ 20 * T)) 8589934592000000 ltac:(lia)) as Q.
  pose proof (Z.mod_pos_bound (u * 2 ^ 33 * (2 ^ 20 * T)) 8589934592000000 ltac:(lia)) as R.
  unfold Z.modulo in R.
  destruct (Z.div_eucl (u * 2 ^ 33 * (2 ^ 20 * T)) 8589934592000000) as [q r].
  change (2 ^ 33) with 8589934592 in *. change (2 ^ 20) with 1048576 in *.
  assert (U : 0 <= u * T <= 999999 * T) by nia.
  apply (binary_round_aux_below 20); change (- (20) - e') with (-20 - e'); fold T; lia.
Qed.

(** [int(float(s) + microsecond / 1e6)] is [s]. *)
Lemma whole_seconds s u :
  0 <= s < 2 ^ 33 -> 0 <= u < 1000000 ->
  PyFloat.trunc
    (PyFloat.add (PyFloat.of_Z s) (PyFloat.div (PyFloat.of_Z u) (PyFloat.of_Z 1000000))) = s.
Proof.
  intros Hs Hu.
  assert (B : between_at 20 (s * 2 ^ 20 + 0) (s * 2 ^ 20 + (2 ^ 20 - 1))
                (PyFloat.add (PyFloat.of_Z s)
                   (PyFloat.div (PyFloat.of_Z u) (PyFloat.of_Z 1000000)))).
  { assert (s * 2 ^ 20 < 2 ^ 53) by (change (2 ^ 53) with (2 ^ 33 * 2 ^ 20); nia).
    apply add_between_at; [lia| | |lia|lia|].
    - apply of_Z_at; lia.
    - now apply fraction_below.
    - change (2 ^ 53) with (2 ^ 33 * 2 ^ 20) in *. lia. }
  destruct (PyFloat.add _ _) as [sg| | |[|] m e]; cbn [between_at] in B; try tauto.
  - cbn [PyFloat.trunc]. lia.
  - destruct B as (He & L & H). unfold PyFloat.trunc, PyFloat.frac_of.
    replace (0 <=? e) with false by (symmetry; apply Z.leb_gt; lia).
    assert (P : 0 < 2 ^ (- 20 - e)) by (apply Z.pow_pos_nonneg; lia).
    assert (S : 2 ^ (- e) = 2 ^ 20 * 2 ^ (- 20 - e))
      by (rewrite <- Z.pow_add_r by lia; f_equal; lia).
    rewrite S. change (- (20)) with (-20) in *.
    set (X := 2 ^ (- 20 - e)) in *. change (2 ^ 20) with 1048576 in *.
    symmetry. apply Z.div_unique with (Zpos m - s * (1048576 * X)); nia.
Qed.

Lemma timestamp_at_whole w t :
  0 <= DateTime.microsecond t < 1000000 -> 0 <= local_seconds w t < 2 ^ 33 ->
  timestamp_at w t = local_seconds w t.
Proof. intros Hu Hs. unfold timestamp_at. now apply whole_seconds. Qed.

End TimestampFacts.

(** ** [json.dumps] writes ASCII *)

Module JsonFacts.
Import StringFacts.

Lemma all_text_append a b : all_text (a ++ b) = all_text a && all_text b.
Proof. induction a; simpl; [reflexivity|now rewrite IHa, andb_assoc]. Qed.

Lemma all_text_repeat c n : is_text c = true -> all_text (PyStr.repeat c n) = true.
Proof. intros H. induction n; simpl; [reflexivity|now rewrite H]. Qed.

Lemma all_text_substring s : forall n m, all_text s = true -> all_text (String.substring n m s) = true.
Proof.
  induction s as [|c s IH]; intros n m H; [now destruct n, m|].
  cbn [all_text] in H. apply andb_true_iff in H. destruct H as [Hc Hs].
  destruct n as [|n]; cbn [String.substring].
  - destruct m as [|m]; [reflexivity|]. cbn [all_text]. now rewrite Hc, IH.
  - now apply IH.
Qed.

Lemma all_text_concat parts :
  Forall (fun p => all_text p = true) parts -> all_text (String.concat "" parts) = true.
Proof.
  induction 1 as [|p parts Hp _ IH]; [reflexivity|].
  cbn [String.concat]. destruct parts; [exact Hp|].
  rewrite !all_text_append, Hp. exact IH.
Qed.

Lemma all_text_join sep parts :
  all_text sep = true -> Forall (fun p => all_text p = true) parts ->
  all_text (PyStr.join sep parts) = true.
Proof.
  intros Hs. induction 1 as [|p parts Hp _ IH]; [reflexivity|].
  cbn [PyStr.join]. destruct parts; [exact Hp|].
  rewrite !all_text_append, Hp, Hs. exact IH.
Qed.

Lemma digit_char_text d : 0 <= d < 10 -> is_text (PyStr.digit_char d) = true.
Proof.
  intros H.
  assert (C : d = 0 \/ d = 1 \/ d = 2 \/ d = 3 \/ d = 4 \/ d = 5 \/ d = 6 \/ d = 7 \/
              d = 8 \/ d = 9) by lia.
  repeat (destruct C as [-> | C]; [reflexivity|]). now subst.
Qed.

Lemma digits_acc_text fuel : forall n acc,
  all_text acc = true -> all_text (PyStr.digits_acc fuel n acc) = true.
Proof.
  induction fuel as [|fuel IH]; intros n acc H; cbn [PyStr.digits_acc].
  - cbn [all_text]. rewrite digit_char_text, H by (apply Z.mod_pos_bound; lia). reflexivity.
  - assert (A : all_text (String (PyStr.digit_char (n mod 10)) acc) = true).
    { cbn [all_text]. rewrite digit_char_text, H by (apply Z.mod_pos_bound; lia). reflexivity. }
    destruct (n <? 10); [exact A|]. apply IH, A.
Qed.

Lemma of_Z_text n : all_text (PyStr.of_Z n) = true.
Proof.
  unfold PyStr.of_Z. cbv zeta.
  pose proof (digits_acc_text (Z.to_nat (Z.log2 (Z.abs n))) (Z.abs n) "" eq_refl) as D.
  destruct (n <? 0); [|exact D]. rewrite all_text_append, D. reflexivity.
Qed.

Lemma zero_pad_text w n : all_text (PyStr.zero_pad w n) = true.
Proof.
  unfold PyStr.zero_pad. cbv zeta.
  rewrite all_text_append, all_text_repeat, of_Z_text; reflexivity.
Qed.

Lemma format_digits_text ds decpt :
  all_text ds = true -> all_text (PyFloat.format_digits ds decpt) = true.
Proof.
  intros H. unfold PyFloat.format_digits. cbv zeta.
  destruct ((decpt <=? -4) || (16 <? decpt)).
  - rewrite !all_text_append, zero_pad_text.
    assert (M : all_text match ds with
                         | "" => ds
                         | String d "" => ds
                         | String d (String _ _ as rest) => String d (String "." rest)
                         end = true).
    { destruct ds as [|d [|c rest]]; exact H. }
    rewrite M. now destruct (decpt - 1 <? 0).
  - destruct (decpt <=? 0).
    + rewrite !all_text_append, all_text_repeat, H; reflexivity.
    + destruct (Z.of_nat (String.length ds) <=? decpt).
      * rewrite !all_text_append, all_text_repeat, H; reflexivity.
      * rewrite !all_text_append, !all_text_substring by exact H. reflexivity.
Qed.

Lemma repr_text x : all_text (PyFloat.repr x) = true.
Proof.
  destruct x as [s|s| |s m e]; cbn [PyFloat.repr];
    [now destruct s|now destruct s|reflexivity|].
  unfold PyFloat.shortest_digits. cbv zeta.
  destruct (PyFloat.shortest 16 m e (PyFloat.decpt_of m e) 1) as [c ndig].
  destruct (c =? 10 ^ ndig).
  - rewrite all_text_append, format_digits_text by reflexivity. now destruct s.
  - rewrite all_text_append, format_digits_text by apply of_Z_text. now destruct s.
Qed.

Lemma encode_float_text f : all_text (encode_float f) = true.
Proof.
  destruct f as [s|s| |s m e]; cbn [encode_float];
    [apply (repr_text (S754_zero s))|now destruct s|reflexivity
    |apply (repr_text (S754_finite s m e))].
Qed.

Lemma hex_digit_text d : 0 <= d < 16 -> is_text (hex_digit d) = true.
Proof.
  intros H.
  assert (C : d = 0 \/ d = 1 \/ d = 2 \/ d = 3 \/ d = 4 \/ d = 5 \/ d = 6 \/ d = 7 \/
              d = 8 \/ d = 9 \/ d = 10 \/ d = 11 \/ d = 12 \/ d = 13 \/ d = 14 \/ d = 15) by lia.
  repeat (destruct C as [-> | C]; [reflexivity|]). now subst.
Qed.

Lemma u_escape_text n : all_text (u_escape n) = true.
Proof.
  unfold u_escape. rewrite !all_text_append. cbn [all_text].
  rewrite !hex_digit_text by (apply Z.mod_pos_bound; lia). reflexivity.
Qed.

Lemma escape_code_point_text n : all_text (escape_code_point n) = true.
Proof.
  unfold escape_code_point.
  repeat match goal with
         | |- context [if ?b =? ?c then _ else _] => destruct (b =? c); [reflexivity|]
         end.
  destruct ((32 <=? n) && (n <=? 126)) eqn:E.
  - apply andb_true_iff in E. rewrite !Z.leb_le in E.
    cbn [all_text]. unfold is_text. rewrite nat_ascii_embedding by lia.
    replace (32 <=? Z.to_nat n)%nat with true by (symmetry; apply Nat.leb_le; lia).
    replace (Z.to_nat n <=? 126)%nat with true by (symmetry; apply Nat.leb_le; lia).
    reflexivity.
  - destruct (n <? 65536); [apply u_escape_text|].
    cbv zeta. now rewrite all_text_append, !u_escape_text.
Qed.

Lemma encode_string_text s : all_text (encode_string s) = true.
Proof.
  unfold encode_string. rewrite !all_text_append.
  rewrite all_text_concat; [reflexivity|].
  apply Forall_forall. intros p Hp. apply in_map_iff in Hp.
  destruct Hp as (n & <- & _). apply escape_code_point_text.
Qed.

Lemma newline_indent_text indent level : all_text (newline_indent indent level) = true.
Proof.
  unfold newline_indent. destruct indent; [|reflexivity].
  rewrite all_text_append, all_text_repeat; reflexivity.
Qed.

Lemma separator_text indent level : all_text (separator indent level) = true.
Proof.
  unfold separator. destruct indent eqn:E; [|reflexivity].
  rewrite all_text_append. rewrite <- E at 1. now rewrite newline_indent_text.
Qed.

Lemma bracket_text indent opening closing level parts :
  all_text opening = true -> all_text closing = true ->
  Forall (fun p => all_text p = true) parts ->
  all_text (bracket indent opening closing level parts) = true.
Proof.
  intros Ho Hc Hp. unfold bracket. destruct parts as [|p parts].
  - now rewrite all_text_append, Ho, Hc.
  - rewrite !all_text_append, Ho, Hc, !newline_indent_text, all_text_join;
      [reflexivity|apply separator_text|exact Hp].
Qed.

(** Induction over a value and the values inside it. *)
Lemma value_induction (P : value -> Prop) :
  P Null -> (forall b, P (Bool b)) -> (forall z, P (Int z)) -> (forall f, P (Float f)) ->
  (forall s, P (Str s)) ->
  (forall items, Forall P items -> P (List items)) ->
  (forall items, Forall (fun member => P (snd member)) items -> P (Dict items)) ->
  forall v, P v.
Proof.
  intros HN HB HI HF HS HL HD.
  fix IH 1. intros [ |b|z|f|s|items|items].
  - exact HN.
  - apply HB.
  - apply HI.
  - apply HF.
  - apply HS.
  - apply HL. induction items as [|x items IHi]; constructor; [apply IH|exact IHi].
  - apply HD. induction items as [|[k x] items IHi]; constructor; [apply IH|exact IHi].
Qed.

Lemma encode_text indent v : forall level, all_text (encode indent level v) = true.
Proof.
  induction v as [ |b|z|f|s|items IH|items IH] using value_induction; intros level;
    cbn [encode].
  - reflexivity.
  - now destruct b.
  - apply of_Z_text.
  - apply encode_float_text.
  - apply encode_string_text.
  - apply bracket_text; try reflexivity.
    apply Forall_forall. intros p Hp. apply in_map_iff in Hp.
    destruct Hp as (x & <- & Hx). rewrite Forall_forall in IH. now apply IH.
  - apply bracket_text; try reflexivity.
    apply Forall_forall. intros p Hp. apply in_map_iff in Hp.
    destruct Hp as ([k x] & <- & Hx). rewrite Forall_forall in IH.
    rewrite !all_text_append, encode_string_text. cbn [all_text andb].
    apply (IH (k, x) Hx).
Qed.

Lemma format_energy_tail request price_data text :
  format_energy request price_data = Ok text ->
  exists head, text = head ++ dumps (Some 2%nat) price_data.
Proof.
  unfold format_energy.
  destruct (Py.getitem price_data "current_price") as [current|]; [|discriminate].
  cbn [rbind].
  destruct (energy_summary request price_data current) as [result|]; [|discriminate].
  cbn [rbind].
  destruct (if include_forecast request then forecast_section price_data result
            else Ok result) as [result'|]; [|discriminate].
  cbn [rbind]. intros [= <-]. unfold raw_data.
  exists (result' ++ nl ++ nl ++ "📱 Raw Data: "). now rewrite !append_assoc.
Qed.

Lemma first_member_occurs indent k v rest :
  occurs_in (encode_string k ++ ": " ++ encode indent 1 v)
    (dumps indent (Dict ((k, v) :: rest))).
Proof.
  unfold dumps. cbn [encode map]. apply occurs_in_bracket. now left.
Qed.

End JsonFacts.

(** ** The main block *)

Module StartupFacts.

Import Startup.

Lemma production_spec h :
  String.eqb (host_of h) "0.0.0.0" || truthy (getenv h "PRODUCTION") = true <-> production h.
Proof.
  unfold production, truthy, getenv.
  rewrite orb_true_iff, String.eqb_eq. split.
  - intros [H|H]; [now left|right].
    destruct (environ h "PRODUCTION") as [s|]; [|discriminate].
    exists s. split; [reflexivity|]. apply negb_true_iff, String.eqb_neq in H. exact H.
  - intros [H|(s & -> & N)]; [now left|right].
    now apply negb_true_iff, String.eqb_neq.
Qed.

(** The script once [uvicorn] is imported and the port is read. *)
Lemma main_run h port :
  import_module h "uvicorn" = None -> port_of h = inl port ->
  main h = script_after h port (serve h (host_of h) port).
Proof.
  intros U P. unfold main, script_after. rewrite U, P. cbv zeta.
  now destruct (handled _).
Qed.

Lemma serve_production h host port :
  String.eqb host "0.0.0.0" || truthy (getenv h "PRODUCTION") = true ->
  serve h host port =
  and_then (import_module h "fastapi")
    (and_then (import_module h "fastapi.responses")
       (uvicorn_run h app host port "info")).
Proof. intros H. unfold serve. now rewrite H. Qed.

Lemma serve_development h host port :
  String.eqb host "0.0.0.0" || truthy (getenv h "PRODUCTION") = false ->
  serve h host port = mcp_run h.
Proof. intros H. unfold serve. now rewrite H. Qed.

(** Hosts with the same environment and the same [int] read the same
    host and port and choose the same server. *)
Lemma same_environment h1 h2 :
  (forall name, environ h1 name = environ h2 name) ->
  (forall s, int_of_str h1 s = int_of_str h2 s) ->
  host_of h1 = host_of h2 /\ port_of h1 = port_of h2 /\
  getenv h1 "PRODUCTION" = getenv h2 "PRODUCTION".
Proof.
  intros E I. unfold host_of, port_of, getenv. rewrite !E.
  split; [reflexivity|]. split; [|reflexivity].
  destruct (environ h2 "PORT"); [apply I|reflexivity].
Qed.

End StartupFacts.

(* ================================================================== *)
(** * The claims *)
(* ================================================================== *)

Import StringFacts ServerFacts.

(** A literal lies between the integers it is written with. *)
Ltac literal_between := clear; vm_compute; repeat split; discriminate.

(** C1.  On the hours 0 to 23 the tier function gives multiplier 1.8 and
    label [peak] on 7..9 and 17..20, multiplier 0.7 and label [off_peak] on
    22..23 and 0..6, and multiplier 1.0 and label [standard] on the other
    hours; the first two ranges do not meet, so the order of the tests
    decides nothing there, and the labels of the 24 hours are as listed. *)
Theorem price_tier_table (h : Z) :
  0 <= h <= 23 ->
  (peak_hours h -> price_tier h = (PyFloat.of_decimal 18 1, "peak")) /\
  (~ peak_hours h -> off_peak_hours h ->
   price_tier h = (PyFloat.of_decimal 7 1, "off_peak")) /\
  (~ peak_hours h -> ~ off_peak_hours h ->
   price_tier h = (PyFloat.of_decimal 10 1, "standard")) /\
  ~ (peak_hours h /\ off_peak_hours h) /\
  (In (tier_label h) ["peak"; "off_peak"; "standard"]) /\
  map tier_label (range 24) =
    ["off_peak"; "off_peak"; "off_peak"; "off_peak"; "off_peak"; "off_peak"; "off_peak";
     "peak"; "peak"; "peak";
     "standard"; "standard"; "standard"; "standard"; "standard"; "standard"; "standard";
     "peak"; "peak"; "peak"; "peak";
     "standard"; "off_peak"; "off_peak"].
Proof.
  intros Hh. unfold peak_hours, off_peak_hours, tier_label, price_tier.
  repeat split.
  - intros P.
    replace ((7 <=? h) && (h <=? 9) || (17 <=? h) && (h <=? 20)) with true; [reflexivity|].
    symmetry. rewrite orb_true_iff, !andb_true_iff, !Z.leb_le. lia.
  - intros NP O.
    replace ((7 <=? h) && (h <=? 9) || (17 <=? h) && (h <=? 20)) with false.
    + replace ((22 <=? h) || (h <=? 6)) with true; [reflexivity|].
      symmetry. rewrite orb_true_iff, !Z.leb_le. lia.
    + symmetry. apply not_true_iff_false.
      rewrite orb_true_iff, !andb_true_iff, !Z.leb_le. lia.
  - intros NP NO.
    replace ((7 <=? h) && (h <=? 9) || (17 <=? h) && (h <=? 20)) with false.
    + replace ((22 <=? h) || (h <=? 6)) with false; [reflexivity|].
      symmetry. apply not_true_iff_false. rewrite orb_true_iff, !Z.leb_le. lia.
    + symmetry. apply not_true_iff_false.
      rewrite orb_true_iff, !andb_true_iff, !Z.leb_le. lia.
  - lia.
  - destruct ((7 <=? h) && (h <=? 9) || (17 <=? h) && (h <=? 20)); [simpl; auto|].
    destruct ((22 <=? h) || (h <=? 6)); simpl; auto.
Qed.

Lemma price_tier_table_witness :
  price_tier 8 = (PyFloat.of_decimal 18 1, "peak").
Proof.
  apply (proj1 (price_tier_table 8 ltac:(lia))). unfold peak_hours. lia.
Defined.

(** C2.  When the forecast is representable the generator returns, and its
    [current_price.price_per_kwh] is [round(0.25 * multiplier, 3)] for the
    tier of the hour read first from the clock: 0.45 at hour 8, 0.175 at
    hour 23 and 0.25 at hour 12. *)
Theorem current_price_rounded (region : string) (w : World) :
  forecast_representable w ->
  let hour := DateTime.hour (now_at w (clock_reads w)) in
  exists price_data w',
    get_mock_energy_prices region w = Ok (price_data, w') /\
    current_price_of price_data =
      Ok (Float (PyFloat.round
                   (PyFloat.mul (PyFloat.of_decimal 25 2) (tier_multiplier hour)) 3)) /\
    (hour = 8 -> current_price_of price_data = Ok (Float (PyFloat.of_decimal 45 2))) /\
    (hour = 23 -> current_price_of price_data = Ok (Float (PyFloat.of_decimal 175 3))) /\
    (hour = 12 -> current_price_of price_data = Ok (Float (PyFloat.of_decimal 25 2))).
Proof.
  intros R hour. eexists _, _. split; [apply (get_mock_energy_prices_spec region w R)|].
  fold hour. unfold current_price_of, energy_price_report.
  cbn [Py.getitem Py.lookup rbind String.eqb Ascii.eqb Bool.eqb].
  repeat split; intros ->; reflexivity.
Qed.

Lemma current_price_rounded_witness :
  exists price_data w',
    get_mock_energy_prices "EU" sample_world = Ok (price_data, w') /\
    current_price_of price_data = Ok (Float (PyFloat.of_decimal 45 2)).
Proof.
  assert (R : forecast_representable sample_world) by (split; reflexivity).
  destruct (current_price_rounded "EU" sample_world R) as (pd & w' & G & _ & H8 & _).
  exists pd, w'. split; [exact G|]. apply H8. reflexivity.
Defined.

(** C3.  The generator takes no [include_forecast] argument, and the tool
    runs it before it looks at the flag.  It builds 24 forecast entries:
    entry [i] is the point for the moment [i] hours after [base_time], its
    period and price are those of the tier of its hour, consecutive entries
    are 3600 seconds apart, and the first one has the hour of [base_time].
    With [base_time] at 08:00 entry 0 reads ["08:00"] and [peak], and entry
    14 reads ["22:00"] and [off_peak]. *)
Theorem forecast_24_hourly (region : string) (w : World) :
  forecast_representable w ->
  let base_time := now_at w (S (clock_reads w)) in
  let time i := hours_later base_time (Z.of_nat i) in
  exists price_data w' forecast,
    get_mock_energy_prices region w = Ok (price_data, w') /\
    Py.getitem price_data "price_forecast" = Ok (List forecast) /\
    List.length forecast = 24%nat /\
    (forall i, (i < 24)%nat ->
       DateTime.add_hours base_time (Z.of_nat i) = Some (time i) /\
       nth_error forecast i = Some (forecast_point (time i)) /\
       forecast_field price_data i "time" = Ok (Str (DateTime.strftime_HM (time i))) /\
       forecast_field price_data i "date" = Ok (Str (DateTime.strftime_Ymd (time i))) /\
       forecast_field price_data i "period" =
         Ok (Str (tier_label (DateTime.hour (time i)))) /\
       forecast_field price_data i "price_per_kwh" =
         Ok (Float (tier_price (DateTime.hour (time i)))) /\
       DateTime.hour (time i) = (DateTime.hour base_time + Z.of_nat i) mod 24 /\
       DateTime.minute (time i) = DateTime.minute base_time /\
       DateTime.to_seconds (time i) = DateTime.to_seconds base_time + 3600 * Z.of_nat i) /\
    (forall i, (S i < 24)%nat ->
       DateTime.to_seconds (time (S i)) = DateTime.to_seconds (time i) + 3600) /\
    DateTime.hour (time 0%nat) = DateTime.hour base_time /\
    (DateTime.hour base_time = 8 -> DateTime.minute base_time = 0 ->
     forecast_field price_data 0 "time" = Ok (Str "08:00") /\
     forecast_field price_data 0 "period" = Ok (Str "peak") /\
     forecast_field price_data 14 "time" = Ok (Str "22:00") /\
     forecast_field price_data 14 "period" = Ok (Str "off_peak")) /\
    (forall flag,
       let request := {| region := region; include_forecast := flag |} in
       get_energy_prices request w =
       bind (get_mock_energy_prices region)
            (fun price_data => lift (format_energy request price_data))
            (logged ("Fetching energy prices for region: " ++ region) w)).
Proof.
  intros R base_time time.
  pose proof (get_mock_energy_prices_spec region w R) as G. cbv zeta in G.
  destruct R as [V R]. fold base_time in V, R, G.
  assert (P : forall i, (i < 24)%nat ->
            forecast_field
              (energy_price_report region
                 (DateTime.isoformat (now_at w (S (S (clock_reads w)))))
                 (tier_price (DateTime.hour (now_at w (clock_reads w))))
                 (tier_label (DateTime.hour (now_at w (clock_reads w))))
                 (forecast_from base_time)
                 (DateTime.isoformat (now_at w (S (S (S (clock_reads w))))))) i
            = fun field => Py.getitem (forecast_point (time i)) field).
  { intros i Hi. unfold forecast_field, energy_price_report.
    cbn [Py.getitem Py.lookup rbind String.eqb Ascii.eqb Bool.eqb Py.getindex].
    rewrite nth_error_forecast_from by exact Hi. reflexivity. }
  assert (T : forall i, (i < 24)%nat ->
            DateTime.add_hours base_time (Z.of_nat i) = Some (time i) /\
            DateTime.hour (time i) = (DateTime.hour base_time + Z.of_nat i) mod 24 /\
            DateTime.minute (time i) = DateTime.minute base_time /\
            DateTime.to_seconds (time i) = DateTime.to_seconds base_time + 3600 * Z.of_nat i).
  { intros i Hi.
    destruct (hours_later_spec base_time (Z.of_nat i) V R ltac:(lia)) as (A & B & C & _ & _ & D).
    auto. }
  eexists _, _, _. split; [exact G|]. split; [reflexivity|].
  split; [unfold forecast_from; now rewrite length_map, length_range|].
  split; [|split; [|split; [|split]]]; [| | | |reflexivity].
  - intros i Hi. destruct (T i Hi) as (A & B & C & D).
    split; [exact A|]. split; [now apply nth_error_forecast_from|].
    rewrite (P i Hi), forecast_point_fields.
    repeat split; assumption.
  - intros i Hi.
    destruct (T i ltac:(lia)) as (_ & _ & _ & D), (T (S i) Hi) as (_ & _ & _ & D').
    rewrite D, D'. lia.
  - destruct (T 0%nat ltac:(lia)) as (_ & B & _).
    rewrite B. apply DateTimeFacts.valid_fields in V.
    rewrite Z.add_0_r. apply Z.mod_small. lia.
  - intros H8 H0.
    destruct (T 0%nat ltac:(lia)) as (_ & B0 & C0 & _), (T 14%nat ltac:(lia)) as (_ & B14 & C14 & _).
    rewrite H8 in B0, B14. rewrite H0 in C0, C14.
    change ((8 + Z.of_nat 0) mod 24) with 8 in B0.
    change ((8 + Z.of_nat 14) mod 24) with 22 in B14.
    rewrite (P 0%nat), (P 14%nat), !forecast_point_fields by lia.
    unfold DateTime.strftime_HM. rewrite B0, C0, B14, C14.
    repeat split.
Qed.

Lemma forecast_24_hourly_witness :
  exists price_data w',
    get_mock_energy_prices "EU" sample_world = Ok (price_data, w') /\
    forecast_field price_data 14 "period" = Ok (Str "off_peak").
Proof.
  assert (R : forecast_representable sample_world) by (split; reflexivity).
  destruct (forecast_24_hourly "EU" sample_world R)
    as (pd & w' & fc & G & _ & _ & _ & _ & _ & H8 & _).
  exists pd, w'. split; [exact G|]. now apply H8.
Defined.

(** C4 (amended).  For every reading the report carries these
    recommendations: heating is [Increase] below 18, [Maintain] below 22 and
    [Decrease] otherwise (so 16.0, 20.0 and 23.0 give the three in turn, and
    a one-decimal temperature [q / 10] is judged as [q] against 180 and 220);
    lighting is [Low - consider increasing indoor lighting] when the
    description contains [cloud] or [rain] and [Good] otherwise; windows are
    [Close windows] when it contains [rain] and [Consider ventilation]
    otherwise.  The code compares case; on the four descriptions of the data
    model this is the test that ignores case. *)
Theorem weather_recommendations
    (name : string) (temp feels_like : float) (humidity pressure : Z)
    (main description : string) (speed : float) (dt sunrise sunset : Z) :
  let reading := weather_reading name temp feels_like humidity pressure main description
                   speed dt sunrise sunset in
  format_weather reading =
    Ok (weather_text reading name temp humidity pressure description speed) /\
  heating_recommendation (Float temp) =
    Ok (if below temp 18 then "Increase"
        else if below temp 22 then "Maintain" else "Decrease") /\
  natural_lighting (Str description) =
    Ok (if PyStr.contains "cloud" description || PyStr.contains "rain" description
        then "Low - consider increasing indoor lighting" else "Good") /\
  window_management (Str description) =
    Ok (if PyStr.contains "rain" description
        then "Close windows" else "Consider ventilation") /\
  heating_recommendation (Float (PyFloat.of_decimal 160 1)) = Ok "Increase" /\
  heating_recommendation (Float (PyFloat.of_decimal 200 1)) = Ok "Maintain" /\
  heating_recommendation (Float (PyFloat.of_decimal 230 1)) = Ok "Decrease" /\
  (forall q, 150 <= q <= 250 ->
     heating_recommendation (Float (PyFloat.of_decimal q 1)) =
     Ok (if q <? 180 then "Increase" else if q <? 220 then "Maintain" else "Decrease")) /\
  (forall d, In d conditions ->
     natural_lighting (Str d) =
       Ok (if PyStr.contains "cloud" (PyStr.lower d) || PyStr.contains "rain" (PyStr.lower d)
           then "Low - consider increasing indoor lighting" else "Good") /\
     window_management (Str d) =
       Ok (if PyStr.contains "rain" (PyStr.lower d)
           then "Close windows" else "Consider ventilation")).
Proof.
  cbv zeta.
  split; [apply format_weather_reading|].
  split; [apply heating_recommendation_float|].
  split; [apply natural_lighting_str|].
  split; [apply window_management_str|].
  split; [reflexivity|]. split; [reflexivity|]. split; [reflexivity|]. split.
  - intros q Hq. rewrite heating_recommendation_float. f_equal.
    assert (T : forallb (fun k => String.eqb (heating_for (PyFloat.of_decimal (150 + k) 1))
                 (if 150 + k <? 180 then "Increase"
                  else if 150 + k <? 220 then "Maintain" else "Decrease"))
                (range 101) = true) by now vm_compute.
    rewrite forallb_forall in T. specialize (T (q - 150)).
    replace (150 + (q - 150)) with q in T by lia.
    apply String.eqb_eq, T, FloatFacts.in_range. lia.
  - intros d Hd. simpl in Hd.
    repeat (destruct Hd as [<- | Hd]; [split; reflexivity|]). contradiction.
Qed.

(** C4 as stated fails: for the description [few clouds] the label the code
    gives is not the one the claim quotes. *)
Lemma lighting_rule_differs :
  natural_lighting (Str "few clouds") = Ok "Low - consider increasing indoor lighting" /\
  natural_lighting (Str "few clouds") <> Ok (lighting_as_specified "few clouds").
Proof. split; [reflexivity | vm_compute; discriminate]. Qed.

(** C5 (amended).  For every report the summary carries a cost impact of
    [High cost - consider energy saving] when the price is above 0.35,
    [Standard cost] when it is above 0.20 and
    [Low cost - good time for energy-intensive tasks] otherwise (a price
    [q / 1000] is judged as [q] against 350 and 200), and a smart action of
    [Delay washing/heating] for [peak], [Good time for appliances] for
    [off_peak] and [Normal usage] for any other period. *)
Theorem energy_recommendations
    (request : EnergyRequest) (timestamp : string) (price : float) (period : string)
    (forecast : list value) (last_updated : string) :
  let report := energy_price_report (region request) timestamp price period forecast
                  last_updated in
  let current := current_price_entry price period in
  Py.getitem report "current_price" = Ok current /\
  energy_summary request report current =
    Ok (summary_for (region request) price period timestamp) /\
  cost_impact current =
    Ok (if PyFloat.ltb (PyFloat.of_decimal 35 2) price
        then "High cost - consider energy saving"
        else if PyFloat.ltb (PyFloat.of_decimal 20 2) price then "Standard cost"
        else "Low cost - good time for energy-intensive tasks") /\
  smart_actions current =
    Ok (if String.eqb period "peak" then "Delay washing/heating"
        else if String.eqb period "off_peak" then "Good time for appliances"
        else "Normal usage") /\
  (forall q, 0 <= q <= 1000 ->
     cost_impact (current_price_entry (PyFloat.of_decimal q 3) period) =
     Ok (if 350 <? q then "High cost - consider energy saving"
         else if 200 <? q then "Standard cost"
         else "Low cost - good time for energy-intensive tasks")) /\
  smart_actions (current_price_entry price "peak") = Ok "Delay washing/heating" /\
  smart_actions (current_price_entry price "off_peak") = Ok "Good time for appliances" /\
  (period <> "peak" -> period <> "off_peak" -> smart_actions current = Ok "Normal usage").
Proof.
  cbv zeta. split; [reflexivity|]. split; [apply energy_summary_report|].
  split; [apply cost_impact_entry|]. split; [apply smart_actions_entry|].
  split; [|split; [reflexivity|split; [reflexivity|]]].
  - intros q Hq. rewrite cost_impact_entry. f_equal.
    assert (T : forallb (fun k => String.eqb (cost_for (PyFloat.of_decimal k 3))
                 (if 350 <? k then "High cost - consider energy saving"
                  else if 200 <? k then "Standard cost"
                  else "Low cost - good time for energy-intensive tasks"))
                (range 1001) = true) by now vm_compute.
    rewrite forallb_forall in T.
    apply String.eqb_eq, T, FloatFacts.in_range. lia.
  - intros N1 N2. rewrite smart_actions_entry. unfold action_for.
    apply String.eqb_neq in N1, N2. now rewrite N1, N2.
Qed.

(** C5 as stated fails: at the off-peak price 0.175 and at the peak price
    0.45 the label the code gives is not the one the claim quotes. *)
Lemma cost_rule_differs :
  cost_impact (current_price_entry (PyFloat.of_decimal 175 3) "off_peak")
    = Ok "Low cost - good time for energy-intensive tasks" /\
  cost_impact (current_price_entry (PyFloat.of_decimal 175 3) "off_peak")
    <> Ok (cost_as_specified (PyFloat.of_decimal 175 3)) /\
  cost_impact (current_price_entry (PyFloat.of_decimal 45 2) "peak")
    = Ok "High cost - consider energy saving" /\
  cost_impact (current_price_entry (PyFloat.of_decimal 45 2) "peak")
    <> Ok (cost_as_specified (PyFloat.of_decimal 45 2)).
Proof. repeat split; try reflexivity; vm_compute; discriminate. Qed.

(** C6.  The text returned is the summary, then the forecast section,
    then the raw data.  The section is empty when [include_forecast] is
    false; when it is true it is the header followed by eight lines, the
    [i]-th for the moment [i] hours after [base_time], each with the time,
    the price and the period of that forecast entry. *)
Theorem forecast_section_by_flag (request : EnergyRequest) (w : World) :
  forecast_representable w ->
  let base_time := now_at w (S (clock_reads w)) in
  exists summary section raw w',
    get_energy_prices request w = Ok (summary ++ section ++ raw, w') /\
    summary = summary_at (region request) w /\
    raw = raw_data (report_at (region request) w) /\
    (include_forecast request = false -> section = "") /\
    (include_forecast request = true ->
     section = forecast_header ++
               String.concat "" (map line_for (first_hours base_time 8))) /\
    List.length (map line_for (first_hours base_time 8)) = 8%nat /\
    (forall i, (i < 8)%nat ->
       nth_error (first_hours base_time 8) i = Some (hours_later base_time (Z.of_nat i)) /\
       forecast_field (report_at (region request) w) i "time" =
         Ok (Str (DateTime.strftime_HM (hours_later base_time (Z.of_nat i)))) /\
       forecast_field (report_at (region request) w) i "price_per_kwh" =
         Ok (Float (tier_price (DateTime.hour (hours_later base_time (Z.of_nat i))))) /\
       forecast_field (report_at (region request) w) i "period" =
         Ok (Str (tier_label (DateTime.hour (hours_later base_time (Z.of_nat i))))) /\
       DateTime.hour (hours_later base_time (Z.of_nat i)) =
         (DateTime.hour base_time + Z.of_nat i) mod 24).
Proof.
  intros R base_time.
  eexists _, _, _, _. split; [apply (get_energy_prices_spec request w R)|].
  split; [reflexivity|]. split; [reflexivity|].
  split; [now intros ->|]. split; [now intros ->|]. split; [reflexivity|].
  intros i Hi. destruct R as [V R].
  assert (F : forall field,
            forecast_field (report_at (region request) w) i field =
            Py.getitem (forecast_point (hours_later base_time (Z.of_nat i))) field).
  { intros field. unfold forecast_field, report_at, energy_price_report.
    cbn [Py.getitem Py.lookup rbind String.eqb Ascii.eqb Bool.eqb Py.getindex].
    rewrite nth_error_forecast_from by lia. reflexivity. }
  rewrite !F, forecast_point_fields.
  split; [|split; [reflexivity|split; [reflexivity|split; [reflexivity|]]]].
  - unfold first_hours. rewrite nth_error_map, nth_error_range by exact Hi. reflexivity.
  - now destruct (hours_later_spec _ (Z.of_nat i) V R ltac:(lia)) as (_ & B & _).
Qed.

Lemma forecast_section_by_flag_witness :
  exists text w',
    get_energy_prices {| region := "EU"; include_forecast := false |} sample_world
      = Ok (text, w') /\
    PyStr.contains "Forecast" text = false.
Proof.
  assert (R : forecast_representable sample_world) by (split; reflexivity).
  destruct (forecast_section_by_flag {| region := "EU"; include_forecast := false |}
              sample_world R)
    as (summary & section & raw & w' & G & -> & -> & S & _).
  rewrite (S eq_refl) in G.
  eexists _, _. split; [exact G|]. vm_compute. reflexivity.
Defined.

(** C7.  Whatever the draws, every reading that the generator returns
    has a temperature that is a one-decimal number in [15.0, 25.0], a felt
    temperature that is one in [14.0, 26.0], a wind speed that is one in
    [1.0, 10.0], a humidity that is an integer in [40, 80] and a pressure
    that is an integer in [1000, 1020]; its two condition fields come from
    the lists they are chosen from.  The generator returns a reading exactly
    when [timestamp()] raises for none of the three moments it converts. *)
Theorem weather_fields_bounded (location : string) (w : World) :
  random_source_ok w ->
  (timestamps_defined w <->
   exists reading w', get_mock_weather_data location w = Ok (reading, w')) /\
  (forall reading w', get_mock_weather_data location w = Ok (reading, w') ->
   exists temp feels_like humidity pressure speed main description,
     main_field reading "temp" = Ok (Float temp) /\
     one_decimal_between 150 250 temp /\
     main_field reading "feels_like" = Ok (Float feels_like) /\
     one_decimal_between 140 260 feels_like /\
     main_field reading "humidity" = Ok (Int humidity) /\
     40 <= humidity <= 80 /\
     main_field reading "pressure" = Ok (Int pressure) /\
     1000 <= pressure <= 1020 /\
     wind_speed_of reading = Ok (Float speed) /\
     one_decimal_between 10 100 speed /\
     weather_field reading "main" = Ok (Str main) /\
     In main ["Clear"; "Clouds"; "Rain"] /\
     weather_field reading "description" = Ok (Str description) /\
     In description conditions).
Proof.
  intros R. split.
  { split.
    - intros T. eexists _, _. apply (get_mock_weather_data_run location w R T).
    - intros (reading & w' & G).
      apply (WeatherFacts.get_mock_weather_data_returned location w reading w' R G). }
  intros reading w' G.
  destruct (WeatherFacts.get_mock_weather_data_returned location w reading w' R G)
    as [_ ->].
  destruct R as [Hr Hb]. unfold generated_reading. cbv zeta.
  unfold main_field, wind_speed_of, weather_field, weather_reading.
  cbn [Py.getitem Py.getindex Py.lookup nth_error rbind String.eqb Ascii.eqb Bool.eqb].
  eexists _, _, _, _, _, _, _.
  assert (H41 : 0 <= randbelow_at w (S (S (rng_calls w))) (80 - 40 + 1) < 41)
    by (apply Hb; reflexivity).
  assert (H21 : 0 <= randbelow_at w (S (S (S (rng_calls w)))) (1020 - 1000 + 1) < 21)
    by (apply Hb; reflexivity).
  split; [reflexivity|]. split.
  { apply (FloatFacts.rounded_uniform 150 250 15 25);
      [ literal_between | literal_between | lia | reflexivity | apply Hr
      | reflexivity | reflexivity | now vm_compute ]. }
  split; [reflexivity|]. split.
  { apply (FloatFacts.rounded_uniform 140 260 14 26);
      [ literal_between | literal_between | lia | reflexivity | apply Hr
      | reflexivity | reflexivity | now vm_compute ]. }
  split; [reflexivity|]. split; [lia|].
  split; [reflexivity|]. split; [lia|].
  split; [reflexivity|]. split.
  { apply (FloatFacts.rounded_uniform 10 100 1 10);
      [ literal_between | literal_between | lia | reflexivity | apply Hr
      | reflexivity | reflexivity | now vm_compute ]. }
  split; [reflexivity|]. split.
  { apply nth_In.
    match goal with |- (Z.to_nat ?k < _)%nat => assert (0 <= k < 3) by (apply Hb; reflexivity) end.
    simpl List.length in *. lia. }
  split; [reflexivity|].
  apply nth_In.
  match goal with |- (Z.to_nat ?k < _)%nat => assert (0 <= k < 4) by (apply Hb; reflexivity) end.
  simpl List.length in *. lia.
Qed.

Lemma weather_fields_bounded_witness :
  (exists reading w' temp,
     get_mock_weather_data "London" sample_world = Ok (reading, w') /\
     main_field reading "temp" = Ok (Float temp) /\
     one_decimal_between 150 250 temp) /\
  get_mock_weather_data "London" (world_at (DateTime.mk 1 1 1 0 0 0 0)) = Raise ValueError.
Proof.
  split.
  - assert (R : random_source_ok sample_world).
    { split.
      - intros n. apply Z.mod_pos_bound. reflexivity.
      - intros n k Hk. apply Z.mod_pos_bound. exact Hk. }
    destruct (weather_fields_bounded "London" sample_world R) as [[Returns _] Bounds].
    destruct (Returns WeatherFacts.sample_world_timestamps) as (reading & w' & G).
    destruct (Bounds reading w' G) as (t & f & h & p & s & m & d & Et & Ht & _).
    exists reading, w', t. split; [exact G|]. split; [exact Et | exact Ht].
  - apply WeatherFacts.get_mock_weather_data_raises; [|reflexivity].
    split; [intros n; cbn; lia|intros n k Hk; cbn; lia].
Defined.

(** C8 (amended).  A request without [location] gets ["London"]; one
    with a string gets that string as it is, the empty string included; one
    with a value that is not a string is rejected.  An energy request that
    is accepted has the region ["EU"] where [region] is absent and the
    string given for it otherwise, whatever its [include_forecast], which is
    [true] where absent and the boolean given otherwise; a [region] that is
    not a string is rejected, and so is an [include_forecast] that is
    [null], a list, an object or an integer other than 0 and 1.  A request
    that passed validation makes no tool fail: for every request the weather
    tool returns when the draws are in range and [timestamp()] raises for
    none of the three moments converted, and raises what [timestamp()]
    raises otherwise; the energy tool returns when the forecast is
    representable, and raises [OverflowError] on the last day of the
    calendar from 01:00 on; the health check always returns. *)
Theorem request_defaults :
  (forall payload, Py.lookup "location" payload = None ->
     WeatherRequest_validate payload = Ok {| location := "London" |}) /\
  (forall payload s, Py.lookup "location" payload = Some (Str s) ->
     WeatherRequest_validate payload = Ok {| location := s |}) /\
  WeatherRequest_validate [("location", Str "")] = Ok {| location := "" |} /\
  (forall payload v, Py.lookup "location" payload = Some v ->
     (forall s, v <> Str s) -> WeatherRequest_validate payload = Raise ValidationError) /\
  (forall payload, Py.lookup "region" payload = None ->
     Py.lookup "include_forecast" payload = None ->
     EnergyRequest_validate payload = Ok {| region := "EU"; include_forecast := true |}) /\
  (forall payload b, Py.lookup "region" payload = None ->
     Py.lookup "include_forecast" payload = Some (Bool b) ->
     EnergyRequest_validate payload = Ok {| region := "EU"; include_forecast := b |}) /\
  (forall payload s, Py.lookup "region" payload = Some (Str s) ->
     Py.lookup "include_forecast" payload = None ->
     EnergyRequest_validate payload = Ok {| region := s; include_forecast := true |}) /\
  (forall payload s b, Py.lookup "region" payload = Some (Str s) ->
     Py.lookup "include_forecast" payload = Some (Bool b) ->
     EnergyRequest_validate payload = Ok {| region := s; include_forecast := b |}) /\
  (forall payload request, EnergyRequest_validate payload = Ok request ->
     (Py.lookup "region" payload = None /\ region request = "EU" \/
      Py.lookup "region" payload = Some (Str (region request))) /\
     (Py.lookup "include_forecast" payload = None -> include_forecast request = true)) /\
  (forall payload v, Py.lookup "region" payload = Some v ->
     (forall s, v <> Str s) -> EnergyRequest_validate payload = Raise ValidationError) /\
  (forall payload v, Py.lookup "include_forecast" payload = Some v ->
     v = Null \/ (exists items, v = List items) \/ (exists items, v = Dict items) \/
     (exists z, v = Int z /\ z <> 0 /\ z <> 1) ->
     EnergyRequest_validate payload = Raise ValidationError) /\
  (forall request w, random_source_ok w -> timestamps_defined w ->
     exists text w', get_weather_data request w = Ok (text, w')) /\
  (forall request w e, random_source_ok w -> timestamps_error w = Some e ->
     get_weather_data request w = Raise e) /\
  (forall request w, forecast_representable w ->
     exists text w', get_energy_prices request w = Ok (text, w')) /\
  (forall request w,
     DateTime.valid (now_at w (S (clock_reads w))) ->
     DateTime.toordinal (now_at w (S (clock_reads w))) = DateTime.MAXORDINAL ->
     1 <= DateTime.hour (now_at w (S (clock_reads w))) ->
     get_energy_prices request w = Raise OverflowError) /\
  (forall w, exists text, health_check w = Ok (text, tick w)).
Proof.
  repeat match goal with |- _ /\ _ => split end.
  - intros payload H. unfold WeatherRequest_validate, validate_str. now rewrite H.
  - intros payload s H. unfold WeatherRequest_validate, validate_str. now rewrite H.
  - reflexivity.
  - intros payload v H N. unfold WeatherRequest_validate, validate_str. rewrite H.
    destruct v; try reflexivity. now elim (N s).
  - intros payload Hr Hf.
    unfold EnergyRequest_validate, validate_str, validate_bool. now rewrite Hr, Hf.
  - intros payload b Hr Hf.
    unfold EnergyRequest_validate, validate_str, validate_bool. now rewrite Hr, Hf.
  - intros payload s Hr Hf.
    unfold EnergyRequest_validate, validate_str, validate_bool. now rewrite Hr, Hf.
  - intros payload s b Hr Hf.
    unfold EnergyRequest_validate, validate_str, validate_bool. now rewrite Hr, Hf.
  - intros payload request. unfold EnergyRequest_validate, validate_str.
    destruct (Py.lookup "region" payload) as [[| | | |s| |]|]; cbn [rbind]; try discriminate;
      destruct (validate_bool payload "include_forecast" true) as [f|] eqn:F;
      cbn [rbind]; try discriminate; intros [= <-]; cbn [region include_forecast];
      (split; [auto|]); intros N; unfold validate_bool in F; rewrite N in F; congruence.
  - intros payload v H N. unfold EnergyRequest_validate, validate_str. rewrite H.
    destruct v; try reflexivity. now elim (N s).
  - intros payload v H W. unfold EnergyRequest_validate.
    assert (F : validate_bool payload "include_forecast" true = Raise ValidationError).
    { unfold validate_bool. rewrite H.
      destruct W as [-> | [[items ->] | [[items ->] | (z & -> & N0 & N1)]]];
        try reflexivity.
      destruct z as [|[p|p|]|p]; try reflexivity; congruence. }
    rewrite F. unfold validate_str.
    now destruct (Py.lookup "region" payload) as [[]|].
  - intros request w R T. now apply get_weather_data_run.
  - intros request w e R E. now apply WeatherFacts.get_weather_data_raises.
  - intros request w R. eexists _, _. apply (get_energy_prices_spec request w R).
  - intros request w V Mx Hh.
    now apply (EnergyFacts.get_energy_prices_overflow request w).
  - intros w. eexists. reflexivity.
Qed.

(** C8 as stated fails: an empty [location] is kept, not replaced by
    ["London"], and a [location] that is not a string is rejected, not
    replaced. *)
Lemma empty_location_kept :
  WeatherRequest_validate [("location", Str "")] = Ok {| location := "" |} /\
  WeatherRequest_validate [("location", Str "")]
    <> Ok {| location := location_as_specified (Some "") |} /\
  WeatherRequest_validate [("location", Null)] = Raise ValidationError.
Proof. repeat split; try reflexivity. vm_compute. discriminate. Qed.

(** C9.  Every call of [health_check] returns, without raising, the JSON
    object with [status] ["healthy"], the [timestamp] of the clock reading
    taken by the call, the service name and the version; the timestamp of a
    well-formed reading has the ISO 8601 form. *)
Theorem health_check_healthy (w : World) :
  DateTime.valid (now_at w (clock_reads w)) ->
  let now := now_at w (clock_reads w) in
  health_check w = Ok (health_payload now, tick w) /\
  iso8601 (DateTime.isoformat now) = true.
Proof.
  intros V now. pose proof (isoformat_iso8601 now V) as I.
  split; [|exact I].
  unfold health_check, bind, datetime_now, ret. fold now.
  unfold dumps. cbn [encode map bracket PyStr.join newline_indent separator].
  rewrite (encode_string_plain _ (iso8601_plain _ I)).
  unfold health_payload. rewrite !append_assoc. reflexivity.
Qed.

Lemma health_check_healthy_witness :
  exists payload w',
    health_check sample_world = Ok (payload, w') /\
    PyStr.contains "2024-02-28T08:00:00" payload = true.
Proof.
  destruct (health_check_healthy sample_world eq_refl) as [H _].
  eexists _, _. split; [exact H|]. vm_compute. reflexivity.
Defined.

(** C10.  With and without [include_forecast] the text ends with the same
    raw data: the JSON text, indented by 2, of the report the generator
    returned, whose 24 forecast entries all occur in it.  The two texts
    differ by the forecast section only. *)
Theorem raw_data_keeps_forecast (code : string) (w : World) :
  forecast_representable w ->
  let base_time := now_at w (S (clock_reads w)) in
  let shown := {| region := code; include_forecast := true |} in
  let hidden := {| region := code; include_forecast := false |} in
  exists text price_data forecast w',
    get_energy_prices hidden w = Ok (text ++ raw_data price_data, w') /\
    get_energy_prices shown w =
      Ok ((text ++ forecast_text base_time) ++ raw_data price_data, w') /\
    get_mock_energy_prices code
      (logged ("Fetching energy prices for region: " ++ code) w) = Ok (price_data, w') /\
    raw_data price_data = nl ++ nl ++ "📱 Raw Data: " ++ dumps (Some 2%nat) price_data /\
    Py.getitem price_data "price_forecast" = Ok (List forecast) /\
    List.length forecast = 24%nat /\
    occurs_in
      (PyStr.join ("," ++ nl ++ "    ") (map (encode (Some 2%nat) 2) forecast))
      (dumps (Some 2%nat) price_data) /\
    (forall entry, In entry forecast ->
       occurs_in (encode (Some 2%nat) 2 entry) (dumps (Some 2%nat) price_data)).
Proof.
  intros R base_time shown hidden.
  assert (L : List.length (forecast_from base_time) = 24%nat)
    by (unfold forecast_from; now rewrite length_map, length_range).
  assert (O : occurs_in
      (PyStr.join ("," ++ nl ++ "    ")
         (map (encode (Some 2%nat) 2) (forecast_from base_time)))
      (dumps (Some 2%nat) (report_at code w))).
  { apply dumps_report_forecast. intros E.
    apply (f_equal (@List.length value)) in E. fold base_time in E.
    rewrite L in E. discriminate E. }
  exists (summary_at code w), (report_at code w), (forecast_from base_time).
  eexists. split; [|split; [|split; [|split; [|split; [|split; [|split]]]]]].
  - rewrite (get_energy_prices_spec hidden w R). reflexivity.
  - rewrite (get_energy_prices_spec shown w R). unfold shown. cbn [include_forecast region].
    now rewrite append_assoc.
  - exact (get_mock_energy_prices_spec code
             (logged ("Fetching energy prices for region: " ++ code) w) R).
  - reflexivity.
  - reflexivity.
  - exact L.
  - exact O.
  - intros entry H. eapply occurs_trans; [|exact O].
    apply occurs_in_join, in_map, H.
Qed.

Lemma raw_data_keeps_forecast_witness :
  exists text price_data forecast w',
    get_energy_prices {| region := "EU"; include_forecast := false |} sample_world
      = Ok (text ++ raw_data price_data, w') /\
    Py.getitem price_data "price_forecast" = Ok (List forecast) /\
    List.length forecast = 24%nat.
Proof.
  assert (R : forecast_representable sample_world) by (split; reflexivity).
  destruct (raw_data_keeps_forecast "EU" sample_world R)
    as (text & pd & fc & w' & G & _ & _ & _ & F & L & _).
  exists text, pd, fc, w'. split; [exact G|]. split; [exact F|exact L].
Defined.

(* ================================================================== *)
(** * Further properties of the code *)
(* ================================================================== *)

Import DateTimeFacts CalendarFacts EnergyFacts WeatherFacts TimestampFacts JsonFacts.

(** ** The price generator *)

(** X1.  The price generator adds up to 23 hours to [base_time], so it
    needs the day after: for a well-formed [base_time] before the last day
    of the calendar, or in that day's first hour, the generator and the tool
    return; on 9999-12-31 from 01:00 on both raise [OverflowError], the tool
    also when no forecast was asked for. *)
Theorem forecast_needs_the_next_day (request : EnergyRequest) (w : World) :
  let base_time := now_at w (S (clock_reads w)) in
  DateTime.valid base_time ->
  (DateTime.toordinal base_time < DateTime.MAXORDINAL \/ DateTime.hour base_time = 0 ->
   (exists price_data, get_mock_energy_prices (region request) w = Ok (price_data, ticks 4 w)) /\
   (exists text w', get_energy_prices request w = Ok (text, w'))) /\
  (DateTime.toordinal base_time = DateTime.MAXORDINAL -> 1 <= DateTime.hour base_time ->
   get_mock_energy_prices (region request) w = Raise OverflowError /\
   get_energy_prices request w = Raise OverflowError).
Proof.
  intros base_time V. split.
  - intros C.
    assert (F : forecast_loop base_time (range 24) [] = Ok (forecast_from base_time)).
    { apply forecast_loop_ok. intros i Hi. apply FloatFacts.in_range in Hi.
      destruct C as [C|C].
      - destruct (add_hours_spec base_time i V ltac:(lia) C) as (t' & E & _).
        rewrite E. discriminate.
      - rewrite add_hours_same_day by (assumption || lia). discriminate. }
    split.
    + rewrite get_mock_energy_prices_run. cbv zeta. fold base_time. rewrite F.
      eexists. reflexivity.
    + unfold get_energy_prices. erewrite bind_ok by reflexivity. cbv beta.
      unfold bind. rewrite get_mock_energy_prices_run. cbv zeta.
      cbn [logged now_at clock_reads]. fold base_time. rewrite F.
      unfold lift. rewrite format_energy_report. eexists _, _. reflexivity.
  - intros Mx Hh.
    assert (F : forall acc, forecast_loop base_time (range 24) acc = Raise OverflowError).
    { intros acc. apply forecast_loop_raises. exists 23. split.
      - apply FloatFacts.in_range. lia.
      - apply add_hours_overflow; (assumption || lia). }
    split.
    + rewrite get_mock_energy_prices_run. cbv zeta. fold base_time. now rewrite F.
    + unfold get_energy_prices. erewrite bind_ok by reflexivity. cbv beta.
      unfold bind. rewrite get_mock_energy_prices_run. cbv zeta.
      cbn [logged now_at clock_reads]. fold base_time. now rewrite F.
Qed.

Lemma forecast_needs_the_next_day_witness :
  get_energy_prices {| region := "EU"; include_forecast := false |}
    (world_at (DateTime.mk 9999 12 31 1 0 0 0)) = Raise OverflowError /\
  exists text w',
    get_energy_prices {| region := "EU"; include_forecast := false |}
      (world_at (DateTime.mk 9999 12 31 0 59 59 0)) = Ok (text, w').
Proof.
  split.
  - apply (forecast_needs_the_next_day {| region := "EU"; include_forecast := false |}
             (world_at (DateTime.mk 9999 12 31 1 0 0 0)));
      [reflexivity | reflexivity | cbn; lia].
  - apply (forecast_needs_the_next_day {| region := "EU"; include_forecast := false |}
             (world_at (DateTime.mk 9999 12 31 0 59 59 0)));
      [reflexivity | right; reflexivity].
Defined.

(** X2.  A generated forecast covers each hour of the day once: for
    every hour from 0 to 23 exactly one of the 24 entries has it, and so the
    forecast always holds 7 [peak], 9 [off_peak] and 8 [standard] entries,
    whatever the time it starts at. *)
Theorem forecast_covers_each_hour (region : string) (w : World) :
  forecast_representable w ->
  let base_time := now_at w (S (clock_reads w)) in
  exists price_data w' forecast,
    get_mock_energy_prices region w = Ok (price_data, w') /\
    Py.getitem price_data "price_forecast" = Ok (List forecast) /\
    period_count "peak" forecast = 7%nat /\
    period_count "off_peak" forecast = 9%nat /\
    period_count "standard" forecast = 8%nat /\
    (forall h, 0 <= h <= 23 ->
     exists i, (i < 24)%nat /\
       DateTime.hour (hours_later base_time (Z.of_nat i)) = h /\
       forall j, (j < 24)%nat ->
         DateTime.hour (hours_later base_time (Z.of_nat j)) = h -> j = i).
Proof.
  intros R. cbv zeta.
  pose proof (get_mock_energy_prices_spec region w R) as G. cbv zeta in G.
  destruct R as [V R].
  destruct (forecast_from_counts _ V R) as (C1 & C2 & C3).
  eexists _, _, _. split; [exact G|]. split; [reflexivity|].
  split; [exact C1|]. split; [exact C2|]. split; [exact C3|].
  intros h H. now apply each_hour_once.
Qed.

Lemma forecast_covers_each_hour_witness :
  exists price_data w' forecast,
    get_mock_energy_prices "EU" sample_world = Ok (price_data, w') /\
    Py.getitem price_data "price_forecast" = Ok (List forecast) /\
    period_count "peak" forecast = 7%nat.
Proof.
  assert (R : forecast_representable sample_world) by (split; reflexivity).
  destruct (forecast_covers_each_hour "EU" sample_world R)
    as (pd & w' & fc & G & F & P & _).
  exists pd, w', fc. auto.
Defined.

(** X3.  For every integer hour the price block and the recommendations
    of the summary come in one of three combinations: peak hours give
    0.45, [Peak], the high cost label and [Delay washing/heating]; off-peak
    hours give 0.175, [Off Peak], the low cost label and
    [Good time for appliances]; the other hours give 0.25, [Standard],
    [Standard cost] and [Normal usage]. *)
Theorem summary_follows_the_tier (h : Z) :
  let price := tier_price h in
  let current := current_price_entry price (tier_label h) in
  (peak_hours h ->
   tier_label h = "peak" /\ Py.format (Float price) = Ok "0.45" /\
   period_title current = Ok "Peak" /\
   cost_impact current = Ok "High cost - consider energy saving" /\
   smart_actions current = Ok "Delay washing/heating") /\
  (~ peak_hours h -> off_peak_hours h ->
   tier_label h = "off_peak" /\ Py.format (Float price) = Ok "0.175" /\
   period_title current = Ok "Off Peak" /\
   cost_impact current = Ok "Low cost - good time for energy-intensive tasks" /\
   smart_actions current = Ok "Good time for appliances") /\
  (~ peak_hours h -> ~ off_peak_hours h ->
   tier_label h = "standard" /\ Py.format (Float price) = Ok "0.25" /\
   period_title current = Ok "Standard" /\
   cost_impact current = Ok "Standard cost" /\
   smart_actions current = Ok "Normal usage").
Proof.
  cbv zeta. unfold tier_price, tier_label, tier_multiplier.
  destruct (price_tier_cases h) as (P & O & S).
  split; [|split].
  - intros H. rewrite (P H). repeat split; vm_compute; reflexivity.
  - intros H1 H2. rewrite (O H1 H2). repeat split; vm_compute; reflexivity.
  - intros H1 H2. rewrite (S H1 H2). repeat split; vm_compute; reflexivity.
Qed.

(** X4.  The first forecast entry is [base_time] itself, with its own
    time and date.  Every entry carries the time and the date of a
    well-formed moment, the time in the form [HH:MM] and, from the year 1000
    on, the date in the form [YYYY-MM-DD]; before that the year has fewer
    digits ([999-02-28]).  The date is that of [base_time] as long as the
    hours stay below 24 and the one of the next calendar day after that. *)
Theorem forecast_dates_roll_over (region : string) (w : World) :
  forecast_representable w ->
  let base_time := now_at w (S (clock_reads w)) in
  exists price_data w',
    get_mock_energy_prices region w = Ok (price_data, w') /\
    forecast_field price_data 0 "time" = Ok (Str (DateTime.strftime_HM base_time)) /\
    forecast_field price_data 0 "date" = Ok (Str (DateTime.strftime_Ymd base_time)) /\
    (forall i, (i < 24)%nat ->
     exists time,
       DateTime.valid time /\
       forecast_field price_data i "time" = Ok (Str (DateTime.strftime_HM time)) /\
       clock_text (DateTime.strftime_HM time) = true /\
       forecast_field price_data i "date" = Ok (Str (DateTime.strftime_Ymd time)) /\
       (1000 <= DateTime.year base_time ->
        date_text (DateTime.strftime_Ymd time) = true) /\
       (DateTime.hour base_time + Z.of_nat i < 24 ->
        DateTime.strftime_Ymd time = DateTime.strftime_Ymd base_time) /\
       (24 <= DateTime.hour base_time + Z.of_nat i ->
        DateTime.toordinal time = DateTime.toordinal base_time + 1)).
Proof.
  intros R. cbv zeta.
  pose proof (get_mock_energy_prices_spec region w R) as G. cbv zeta in G.
  destruct R as [V R].
  eexists _, _. split; [exact G|].
  pose proof (DateTimeFacts.valid_fields _ V) as (_ & _ & _ & Hh & _).
  split; [|split].
  - rewrite forecast_field_report, forecast_point_fields by lia.
    unfold hours_later. rewrite add_hours_same_day by (assumption || simpl; lia).
    cbn [Py.getitem Py.lookup String.eqb Ascii.eqb Bool.eqb].
    unfold DateTime.strftime_HM. cbn [DateTime.hour DateTime.minute].
    now rewrite Z.add_0_r.
  - rewrite forecast_field_report, forecast_point_fields by lia.
    unfold hours_later. rewrite add_hours_same_day by (assumption || simpl; lia).
    reflexivity.
  - intros i Hi.
    destruct (hours_later_date _ (Z.of_nat i) V R ltac:(lia)) as (Vt & Same & Next).
    destruct (strftime_forms _ Vt) as [C D].
    exists (hours_later (now_at w (S (clock_reads w))) (Z.of_nat i)).
    rewrite !forecast_field_report, forecast_point_fields by exact Hi.
    split; [exact Vt|]. split; [reflexivity|]. split; [exact C|].
    split; [reflexivity|]. split.
    { intros Y. apply D.
      pose proof (hours_later_year _ (Z.of_nat i) V R ltac:(lia)). lia. }
    split; [|exact Next].
    intros S. now apply Same.
Qed.

Lemma forecast_dates_roll_over_witness :
  (exists price_data w',
     get_mock_energy_prices "EU" sample_world = Ok (price_data, w') /\
     forecast_field price_data 0 "time" = Ok (Str "08:00") /\
     forecast_field price_data 0 "date" = Ok (Str "2024-02-28")) /\
  (exists price_data w',
     get_mock_energy_prices "EU" (world_at (DateTime.mk 999 2 28 8 0 0 0)) =
       Ok (price_data, w') /\
     forecast_field price_data 0 "date" = Ok (Str "999-02-28")).
Proof.
  split.
  - assert (R : forecast_representable sample_world) by (split; reflexivity).
    destruct (forecast_dates_roll_over "EU" sample_world R) as (pd & w' & G & T & D & _).
    exists pd, w'. split; [exact G|]. split; [exact T|exact D].
  - assert (R : forecast_representable (world_at (DateTime.mk 999 2 28 8 0 0 0)))
      by (split; reflexivity).
    destruct (forecast_dates_roll_over "EU" (world_at (DateTime.mk 999 2 28 8 0 0 0)) R)
      as (pd & w' & G & _ & D & _).
    exists pd, w'. split; [exact G|exact D].
Defined.

(** X17.  Whatever the region, a generated report has the five entries
    [region], [timestamp], [current_price], [price_forecast] and
    [market_info], prices in [EUR] per [kWh] and the market [Day Ahead] of
    the source [Energy Exchange].  Its [timestamp] and [last_updated] are the
    third and the fourth clock reading of the call, each in the ISO 8601
    form when the reading is well formed. *)
Theorem report_constants_and_timestamps (region : string) (w : World) :
  forecast_representable w ->
  let third := now_at w (S (S (clock_reads w))) in
  let fourth := now_at w (S (S (S (clock_reads w)))) in
  exists price_data w',
    get_mock_energy_prices region w = Ok (price_data, w') /\
    keys price_data =
      ["region"; "timestamp"; "current_price"; "price_forecast"; "market_info"] /\
    Py.getitem price_data "region" = Ok (Str region) /\
    current_field price_data "currency" = Ok (Str "EUR") /\
    current_field price_data "unit" = Ok (Str "kWh") /\
    market_field price_data "market" = Ok (Str "Day Ahead") /\
    market_field price_data "source" = Ok (Str "Energy Exchange") /\
    Py.getitem price_data "timestamp" = Ok (Str (DateTime.isoformat third)) /\
    market_field price_data "last_updated" = Ok (Str (DateTime.isoformat fourth)) /\
    (DateTime.valid third -> iso8601 (DateTime.isoformat third) = true) /\
    (DateTime.valid fourth -> iso8601 (DateTime.isoformat fourth) = true).
Proof.
  intros R. cbv zeta.
  pose proof (get_mock_energy_prices_spec region w R) as G. cbv zeta in G.
  eexists _, _. split; [exact G|].
  unfold current_field, market_field, energy_price_report, current_price_entry.
  cbn [Py.getitem Py.lookup rbind String.eqb Ascii.eqb Bool.eqb keys map fst].
  repeat (split; [reflexivity|]).
  split; apply isoformat_iso8601.
Qed.

Lemma report_constants_and_timestamps_witness :
  exists price_data w',
    get_mock_energy_prices "US" sample_world = Ok (price_data, w') /\
    current_field price_data "currency" = Ok (Str "EUR") /\
    Py.getitem price_data "timestamp" = Ok (Str "2024-02-28T08:00:00.002000").
Proof.
  assert (R : forecast_representable sample_world) by (split; reflexivity).
  destruct (report_constants_and_timestamps "US" sample_world R)
    as (pd & w' & G & _ & _ & C & _ & _ & _ & T & _).
  exists pd, w'. split; [exact G|]. split; [exact C|exact T].
Defined.

(** ** The energy tool *)

(** X5.  The forecast section reads [price_forecast] with a default: a
    report without that key gets the header and no line, and no [KeyError].
    A list of entries gives one line for each of its first eight, so a
    shorter list gives fewer lines and whatever follows the eighth entry is
    never looked at; an entry without [time] among the first eight raises
    [KeyError]. *)
Theorem forecast_section_first_eight
    (items : list (string * value)) (times : list datetime) (rest : list value)
    (result : string) :
  (Py.lookup "price_forecast" items = None ->
   forecast_section (Dict items) result = Ok (result ++ forecast_header)) /\
  (Py.lookup "price_forecast" items = Some (List (map forecast_point times)) ->
   forecast_section (Dict items) result =
     Ok (result ++ forecast_header ++ String.concat "" (map line_for (firstn 8 times))) /\
   List.length (map line_for (firstn 8 times)) = Nat.min 8 (List.length times)) /\
  (Py.lookup "price_forecast" items = Some (List (map forecast_point times ++ rest)) ->
   (8 <= List.length times)%nat ->
   forecast_section (Dict items) result =
     Ok (result ++ forecast_header ++ String.concat "" (map line_for (firstn 8 times)))) /\
  (forall entry, Py.lookup "time" entry = None ->
   Py.lookup "price_forecast" items =
     Some (List (map forecast_point times ++ Dict entry :: rest)) ->
   (List.length times < 8)%nat ->
   forecast_section (Dict items) result = Raise KeyError).
Proof.
  unfold forecast_section. cbn [Py.dict_get].
  split; [|split; [|split]].
  - intros ->. cbn [rbind Py.slice_to firstn forecast_lines]. reflexivity.
  - intros ->. cbn [rbind Py.slice_to]. split.
    + rewrite firstn_map, forecast_lines_points. now rewrite append_assoc.
    + now rewrite length_map, length_firstn.
  - intros -> H. cbn [rbind Py.slice_to].
    rewrite firstn_map_app by exact H.
    rewrite forecast_lines_points. now rewrite append_assoc.
  - intros entry E -> H. cbn [rbind Py.slice_to].
    rewrite firstn_app, length_map, firstn_all2 by (rewrite length_map; lia).
    destruct (8 - List.length times)%nat as [|n] eqn:N; [lia|].
    cbn [firstn]. rewrite forecast_lines_after_points.
    cbn [forecast_lines]. unfold forecast_line. cbn [Py.getitem]. rewrite E. reflexivity.
Qed.

(** X6.  The [Last Updated] line shows the timestamp to the second: the
    first 19 characters of the [isoformat] of a well-formed moment are the
    [isoformat] of that moment without its microseconds. *)
Theorem last_updated_to_the_second
    (request : EnergyRequest) (t : datetime) (price : float) (period : string)
    (forecast : list value) (last_updated : string) :
  DateTime.valid t ->
  let report := energy_price_report (region request) (DateTime.isoformat t) price period
                  forecast last_updated in
  PyStr.take 19 (DateTime.isoformat t) = DateTime.isoformat (whole_second t) /\
  String.length (DateTime.isoformat (whole_second t)) = 19%nat /\
  exists text,
    energy_summary request report (current_price_entry price period) = Ok text /\
    occurs_in ("• Last Updated: " ++ DateTime.isoformat (whole_second t) ++ nl) text.
Proof.
  intros V. cbv zeta.
  split; [now apply take_isoformat|]. split; [now apply length_isoformat_whole|].
  eexists. split; [apply energy_summary_report|].
  unfold summary_for. rewrite (take_isoformat t V).
  do 18 apply occurs_app_r.
  exists "", (nl ++
    "🏠 HomeGenie Recommendations:" ++ nl ++
    "• Period Type: " ++ PyStr.title (PyStr.replace "_" " " period) ++ nl ++
    "• Cost Impact: " ++ cost_for price ++ nl ++
    "• Smart Actions: " ++ action_for period).
  rewrite !append_assoc. reflexivity.
Qed.

Lemma last_updated_to_the_second_witness :
  PyStr.take 19 (DateTime.isoformat (DateTime.mk 2024 2 28 8 0 0 123456)) =
  "2024-02-28T08:00:00".
Proof.
  apply (last_updated_to_the_second {| region := "EU"; include_forecast := true |}
           (DateTime.mk 2024 2 28 8 0 0 123456) base_price "peak" [] "").
  reflexivity.
Defined.

(** X7.  The region and the location are only echoed: with another
    region the price generator returns the same report and the same state
    but for the [region] entry, and with another location the weather
    generator returns the same reading and the same state but for the [name]
    entry. *)
Theorem inputs_are_only_echoed (name : string) (w : World) :
  get_mock_energy_prices name w = renamed name (get_mock_energy_prices "EU" w) /\
  get_mock_weather_data name w = renamed name (get_mock_weather_data "London" w) /\
  (forall price_data w', get_mock_energy_prices "EU" w = Ok (price_data, w') ->
     Py.getitem (with_first (Str name) price_data) "region" = Ok (Str name)) /\
  (forall reading w', get_mock_weather_data "London" w = Ok (reading, w') ->
     Py.getitem (with_first (Str name) reading) "name" = Ok (Str name)).
Proof.
  split; [apply energy_reply_renamed|]. split; [apply weather_reply_renamed|]. split.
  - intros pd w'. rewrite get_mock_energy_prices_run. cbv zeta.
    destruct (forecast_loop (now_at w (S (clock_reads w))) (range 24) []); [|discriminate].
    intros [= <- _]. reflexivity.
  - intros rd w'. rewrite get_mock_weather_data_cases. cbv zeta.
    destruct (nth_error ["Clear"; "Clouds"; "Rain"] _); [|discriminate].
    destruct (nth_error conditions _); [|discriminate].
    destruct (timestamps_error w); [discriminate|].
    intros H. apply (f_equal answer) in H. cbn [answer] in H.
    apply (f_equal (fun o => match o with Ok x => x | Raise _ => rd end)) in H.
    now subst rd.
Qed.

(** X8.  The energy tool, the price generator and the health check read
    nothing but the clock: in two worlds whose clocks agree they answer the
    same, whatever the random sources, the time zones and the logs. *)
Theorem energy_prices_read_only_the_clock (request : EnergyRequest) (w1 w2 : World) :
  (forall n, now_at w1 n = now_at w2 n) -> clock_reads w1 = clock_reads w2 ->
  answer (get_energy_prices request w1) = answer (get_energy_prices request w2) /\
  answer (get_mock_energy_prices (region request) w1) =
    answer (get_mock_energy_prices (region request) w2) /\
  answer (health_check w1) = answer (health_check w2).
Proof.
  intros N C. split; [|split].
  - rewrite !get_energy_prices_run. cbv zeta. rewrite C, !N.
    destruct (forecast_loop _ _ _); [|reflexivity].
    now destruct (format_energy _ _).
  - rewrite !get_mock_energy_prices_run. cbv zeta. rewrite C, !N.
    now destruct (forecast_loop _ _ _).
  - unfold health_check, bind, datetime_now, ret, answer. now rewrite C, N.
Qed.

Lemma energy_prices_read_only_the_clock_witness :
  answer (get_energy_prices {| region := "EU"; include_forecast := true |} sample_world) =
  answer (get_energy_prices {| region := "EU"; include_forecast := true |} other_sources).
Proof.
  apply (energy_prices_read_only_the_clock {| region := "EU"; include_forecast := true |}
           sample_world other_sources); reflexivity.
Defined.

(** X9.  What a call that returns leaves behind: the weather tool has
    drawn seven random numbers, read the clock three times and logged one
    line; the energy tool has drawn none, read the clock four times and
    logged one line; the health check has read the clock once and done
    nothing else. *)
Theorem tool_footprints :
  (forall request w text w', get_weather_data request w = Ok (text, w') ->
     rng_calls w' = (7 + rng_calls w)%nat /\
     clock_reads w' = (3 + clock_reads w)%nat /\
     log w' = (log w ++ [("Fetching weather data for: " ++ location request)%string])%list) /\
  (forall request w text w', get_energy_prices request w = Ok (text, w') ->
     rng_calls w' = rng_calls w /\
     clock_reads w' = (4 + clock_reads w)%nat /\
     log w' = (log w ++ [("Fetching energy prices for region: " ++ region request)%string])%list) /\
  (forall w text w', health_check w = Ok (text, w') ->
     rng_calls w' = rng_calls w /\
     clock_reads w' = (1 + clock_reads w)%nat /\
     log w' = log w).
Proof.
  split; [|split].
  - intros request w text w' H. apply get_weather_data_state in H. subst w'.
    repeat split.
  - intros request w text w'. rewrite get_energy_prices_run. cbv zeta.
    destruct (forecast_loop _ _ _); [|discriminate].
    destruct (format_energy _ _); [|discriminate].
    intros [= _ <-]. repeat split.
  - intros w text w'. unfold health_check, bind, datetime_now, ret.
    intros [= _ <-]. repeat split.
Qed.

(** ** The weather tool *)

(** X10.  The lighting and the window recommendations agree for every
    description: windows are closed only where the lighting is low, and good
    lighting comes with ventilation.  Of the four descriptions of the
    generator only [light rain] closes the windows. *)
Theorem windows_close_only_in_low_light (description : string) :
  (window_management (Str description) = Ok "Close windows" ->
   natural_lighting (Str description) = Ok "Low - consider increasing indoor lighting") /\
  (natural_lighting (Str description) = Ok "Good" ->
   window_management (Str description) = Ok "Consider ventilation") /\
  map (fun d => (natural_lighting (Str d), window_management (Str d))) conditions =
    [(Ok "Good", Ok "Consider ventilation");
     (Ok "Low - consider increasing indoor lighting", Ok "Consider ventilation");
     (Ok "Low - consider increasing indoor lighting", Ok "Consider ventilation");
     (Ok "Low - consider increasing indoor lighting", Ok "Close windows")].
Proof.
  rewrite natural_lighting_str, window_management_str.
  unfold lighting_for, window_for.
  destruct (PyStr.contains "cloud" description), (PyStr.contains "rain" description);
    cbn [orb]; repeat split; try reflexivity; discriminate.
Qed.

(** X11.  The ranges of the generated reading are tight: every
    one-decimal temperature from 15.0 to 25.0, felt temperature from 14.0 to
    26.0 and wind speed from 1.0 to 10.0, the ends included, and every
    humidity from 40 to 80 and pressure from 1000 to 1020 is returned for
    some random source that keeps its ranges.  The two condition fields are
    drawn apart: each of the three [main] values comes with each of the four
    descriptions, [Clear] with [light rain] included. *)
Theorem every_value_is_reached (location : string) :
  (forall q, 150 <= q <= 250 ->
   exists w reading w', random_source_ok w /\
     get_mock_weather_data location w = Ok (reading, w') /\
     main_field reading "temp" = Ok (Float (PyFloat.of_decimal q 1))) /\
  (forall q, 140 <= q <= 260 ->
   exists w reading w', random_source_ok w /\
     get_mock_weather_data location w = Ok (reading, w') /\
     main_field reading "feels_like" = Ok (Float (PyFloat.of_decimal q 1))) /\
  (forall q, 10 <= q <= 100 ->
   exists w reading w', random_source_ok w /\
     get_mock_weather_data location w = Ok (reading, w') /\
     wind_speed_of reading = Ok (Float (PyFloat.of_decimal q 1))) /\
  (forall h, 40 <= h <= 80 ->
   exists w reading w', random_source_ok w /\
     get_mock_weather_data location w = Ok (reading, w') /\
     main_field reading "humidity" = Ok (Int h)) /\
  (forall p, 1000 <= p <= 1020 ->
   exists w reading w', random_source_ok w /\
     get_mock_weather_data location w = Ok (reading, w') /\
     main_field reading "pressure" = Ok (Int p)) /\
  (forall main description,
   In main ["Clear"; "Clouds"; "Rain"] -> In description conditions ->
   exists w reading w', random_source_ok w /\
     get_mock_weather_data location w = Ok (reading, w') /\
     weather_field reading "main" = Ok (Str main) /\
     weather_field reading "description" = Ok (Str description)).
Proof.
  assert (G : forall k j, 0 <= k < 2 ^ 53 ->
            random_source_ok (world_drawing k j) /\
            get_mock_weather_data location (world_drawing k j) =
            Ok (generated_reading location (world_drawing k j),
                ticks 3 (draws 7 (world_drawing k j)))).
  { intros k j H. pose proof (world_drawing_ok k j H) as R.
    split; [exact R|].
    apply get_mock_weather_data_run; [exact R|apply world_drawing_timestamps]. }
  split; [|split; [|split; [|split; [|split]]]].
  - intros q H.
    destruct (draws_reach_spec 150 250 q) as [K E]; [now vm_compute|lia|exact H|].
    destruct (G _ 0 K) as [R Run].
    eexists _, _, _. split; [exact R|]. split; [exact Run|].
    unfold main_field, generated_reading, weather_reading.
    cbn [Py.getitem Py.lookup rbind String.eqb Ascii.eqb Bool.eqb].
    cbn [world_drawing random_at rng_calls]. now rewrite E.
  - intros q H.
    destruct (draws_reach_spec 140 260 q) as [K E]; [now vm_compute|lia|exact H|].
    destruct (G _ 0 K) as [R Run].
    eexists _, _, _. split; [exact R|]. split; [exact Run|].
    unfold main_field, generated_reading, weather_reading.
    cbn [Py.getitem Py.lookup rbind String.eqb Ascii.eqb Bool.eqb].
    cbn [world_drawing random_at rng_calls]. now rewrite E.
  - intros q H.
    destruct (draws_reach_spec 10 100 q) as [K E]; [now vm_compute|lia|exact H|].
    destruct (G _ 0 K) as [R Run].
    eexists _, _, _. split; [exact R|]. split; [exact Run|].
    unfold wind_speed_of, generated_reading, weather_reading.
    cbn [Py.getitem Py.lookup rbind String.eqb Ascii.eqb Bool.eqb].
    cbn [world_drawing random_at rng_calls]. now rewrite E.
  - intros h H.
    destruct (G 0 (h - 40) ltac:(lia)) as [R Run].
    eexists _, _, _. split; [exact R|]. split; [exact Run|].
    unfold main_field, generated_reading, weather_reading.
    cbn [Py.getitem Py.lookup rbind String.eqb Ascii.eqb Bool.eqb].
    cbn [world_drawing randbelow_at rng_calls].
    do 2 f_equal. change (80 - 40 + 1) with 41. rewrite Z.mod_small by lia. lia.
  - intros p H.
    destruct (G 0 (p - 1000) ltac:(lia)) as [R Run].
    eexists _, _, _. split; [exact R|]. split; [exact Run|].
    unfold main_field, generated_reading, weather_reading.
    cbn [Py.getitem Py.lookup rbind String.eqb Ascii.eqb Bool.eqb].
    cbn [world_drawing randbelow_at rng_calls].
    do 2 f_equal. change (1020 - 1000 + 1) with 21. rewrite Z.mod_small by lia. lia.
  - intros main description Hm Hd.
    assert (J : exists j,
              choice_at ["Clear"; "Clouds"; "Rain"] (world_drawing 0 j) 4 = main /\
              choice_at conditions (world_drawing 0 j) 5 = description).
    { cbn [In conditions] in Hm, Hd.
      destruct Hm as [<- | [<- | [<- | []]]], Hd as [<- | [<- | [<- | [<- | []]]]];
        [ exists 0 | exists 9 | exists 6 | exists 3 | exists 4 | exists 1
        | exists 10 | exists 7 | exists 8 | exists 5 | exists 2 | exists 11 ];
        split; reflexivity. }
    destruct J as (j & <- & <-).
    destruct (G 0 j ltac:(lia)) as [R Run].
    eexists _, _, _. split; [exact R|]. split; [exact Run|].
    split; reflexivity.
Qed.

(** X12.  Where [timestamp()] raises for none of the three moments
    converted, the weather tool returns a report that starts with the
    location as it was given and shows the temperature and the wind speed
    with one decimal, as [q / 10] is written, the humidity and the pressure
    as integers of their ranges, and one of the four descriptions in title
    case. *)
Theorem report_shows_one_decimal (request : WeatherRequest) (w : World) :
  random_source_ok w -> timestamps_defined w ->
  exists text w' rest temperature humidity speed pressure description,
    get_weather_data request w = Ok (text, w') /\
    text = "🌤️ Weather Data for " ++ location request ++ ":" ++ nl ++ rest /\
    150 <= temperature <= 250 /\
    occurs_in ("• Temperature: " ++ one_decimal_text temperature ++ "°C" ++ nl) text /\
    In description ["Clear Sky"; "Few Clouds"; "Scattered Clouds"; "Light Rain"] /\
    occurs_in ("• Description: " ++ description ++ nl) text /\
    40 <= humidity <= 80 /\
    occurs_in ("• Humidity: " ++ PyStr.of_Z humidity ++ "%" ++ nl) text /\
    10 <= speed <= 100 /\
    occurs_in ("• Wind Speed: " ++ one_decimal_text speed ++ " m/s" ++ nl) text /\
    1000 <= pressure <= 1020 /\
    occurs_in ("• Pressure: " ++ PyStr.of_Z pressure ++ " hPa" ++ nl) text.
Proof.
  intros R T. pose proof (get_weather_data_text request w R T) as G. cbv zeta in G.
  destruct R as [Hr Hb].
  destruct (FloatFacts.rounded_uniform 150 250 15 25
              (PyFloat.of_decimal 150 1) (PyFloat.of_decimal 250 1)
              (random_at w (rng_calls w)))
    as (qt & Ht & Et & _);
    [ literal_between | literal_between | lia | reflexivity | apply Hr
    | reflexivity | reflexivity | now vm_compute | ].
  destruct (FloatFacts.rounded_uniform 10 100 1 10
              (PyFloat.of_decimal 10 1) (PyFloat.of_decimal 100 1)
              (random_at w (S (S (S (S (S (S (rng_calls w)))))))))
    as (qs & Hs & Es & _);
    [ literal_between | literal_between | lia | reflexivity | apply Hr
    | reflexivity | reflexivity | now vm_compute | ].
  rewrite Et, Es in G.
  assert (H41 : 0 <= randbelow_at w (S (S (rng_calls w))) (80 - 40 + 1) < 41)
    by (apply Hb; reflexivity).
  assert (H21 : 0 <= randbelow_at w (S (S (S (rng_calls w)))) (1020 - 1000 + 1) < 21)
    by (apply Hb; reflexivity).
  assert (H4 : 0 <= randbelow_at w (S (S (S (S (S (rng_calls w))))))
                 (Z.of_nat (List.length conditions)) < 4)
    by (apply Hb; reflexivity).
  eexists _, _, _, qt, (40 + randbelow_at w (S (S (rng_calls w))) (80 - 40 + 1)), qs,
    (1000 + randbelow_at w (S (S (S (rng_calls w)))) (1020 - 1000 + 1)), (PyStr.title (choice_at conditions w (S (S (S (S (S (rng_calls w)))))))).
  split; [exact G|]. unfold weather_text.
  rewrite (prints_one_decimal_spec 150 250 qt); [|now vm_compute|exact Ht].
  rewrite (prints_one_decimal_spec 10 100 qs); [|now vm_compute|exact Hs].
  split; [reflexivity|]. split; [lia|].
  split; [do 8 apply occurs_app_r; apply occurs_first_4|].
  split.
  { unfold choice_at.
    revert H4.
    generalize (randbelow_at w (S (S (S (S (S (rng_calls w))))))
                  (Z.of_nat (List.length conditions))).
    clear. intros k H4.
    assert (C : k = 0 \/ k = 1 \/ k = 2 \/ k = 3) by lia.
    destruct C as [-> | [-> | [-> | ->]]]; vm_compute; auto 6. }
  split; [do 12 apply occurs_app_r; apply occurs_first_3|].
  split; [lia|].
  split; [do 15 apply occurs_app_r; apply occurs_first_4|].
  split; [lia|].
  split; [do 19 apply occurs_app_r; apply occurs_first_4|].
  split; [lia|].
  do 23 apply occurs_app_r. apply occurs_first_4.
Qed.

Lemma report_shows_one_decimal_witness :
  exists text w' rest temperature,
    get_weather_data {| location := "London" |} sample_world = Ok (text, w') /\
    text = "🌤️ Weather Data for " ++ "London" ++ ":" ++ nl ++ rest /\
    150 <= temperature <= 250 /\
    occurs_in ("• Temperature: " ++ one_decimal_text temperature ++ "°C" ++ nl) text.
Proof.
  assert (R : random_source_ok sample_world).
  { split.
    - intros n. apply Z.mod_pos_bound. reflexivity.
    - intros n k Hk. apply Z.mod_pos_bound. exact Hk. }
  destruct (report_shows_one_decimal {| location := "London" |} sample_world R
              sample_world_timestamps)
    as (text & w' & rest & t & h & s & p & d & G & E & Ht & Ot & _).
  exists text, w', rest, t. auto.
Defined.

(** X13.  The three timestamps of a reading are whole epoch seconds:
    for moments from 1970 up to 2^33 seconds after it, where [timestamp()]
    does not raise, [int(t.timestamp())] is the local epoch second of [t],
    the microseconds never rounding it up.
    [sunrise] and [sunset] are those of 06:30 and 19:45 on the days of the
    second and third clock readings, with the seconds of those readings: in
    a zone at a fixed offset they lie 47700 seconds apart, plus the
    difference of the two readings in seconds-of-minute and in days. *)
Theorem timestamps_are_whole_seconds (location : string) (w : World) (offset : Z) :
  random_source_ok w ->
  let c := clock_reads w in
  let sunrise_time := DateTime.replace_hm (now_at w (S c)) 6 30 in
  let sunset_time := DateTime.replace_hm (now_at w (S (S c))) 19 45 in
  (forall t, In t [now_at w c; sunrise_time; sunset_time] ->
     timestamp_error w t = None /\
     0 <= DateTime.microsecond t < 1000000 /\ 0 <= local_seconds w t < 2 ^ 33) ->
  exists reading w' sunrise sunset,
    get_mock_weather_data location w = Ok (reading, w') /\
    Py.getitem reading "dt" = Ok (Int (local_seconds w (now_at w c))) /\
    sys_field reading "sunrise" = Ok (Int sunrise) /\
    sys_field reading "sunset" = Ok (Int sunset) /\
    sunrise = local_seconds w sunrise_time /\
    sunset = local_seconds w sunset_time /\
    ((forall t, local_seconds w t = DateTime.to_seconds t - offset) ->
     sunset - sunrise =
       47700 + (DateTime.second (now_at w (S (S c))) - DateTime.second (now_at w (S c))) +
       86400 * (DateTime.toordinal (now_at w (S (S c))) - DateTime.toordinal (now_at w (S c)))).
Proof.
  intros R. cbv zeta. intros B.
  assert (T : timestamps_defined w) by (intros t H; now apply B).
  pose proof (get_mock_weather_data_run location w R T) as G.
  eexists _, _, _, _. split; [exact G|].
  unfold generated_reading, weather_reading, sys_field.
  cbn [Py.getitem Py.lookup rbind String.eqb Ascii.eqb Bool.eqb].
  destruct (B (now_at w (clock_reads w)) ltac:(simpl; auto)) as (_ & U0 & S0).
  destruct (B (DateTime.replace_hm (now_at w (S (clock_reads w))) 6 30) ltac:(simpl; auto))
    as (_ & U1 & S1).
  destruct (B (DateTime.replace_hm (now_at w (S (S (clock_reads w)))) 19 45)
              ltac:(simpl; auto)) as (_ & U2 & S2).
  rewrite !timestamp_at_whole by assumption.
  split; [reflexivity|]. split; [reflexivity|]. split; [reflexivity|].
  split; [reflexivity|]. split; [reflexivity|].
  intros Z. rewrite !Z. unfold DateTime.to_seconds, DateTime.replace_hm, DateTime.toordinal.
  cbn [DateTime.year DateTime.month DateTime.day DateTime.hour DateTime.minute
       DateTime.second]. lia.
Qed.

Lemma timestamps_are_whole_seconds_witness :
  exists reading w',
    get_mock_weather_data "London" sample_world = Ok (reading, w') /\
    Py.getitem reading "dt" = Ok (Int 1709107200) /\
    sys_field reading "sunrise" = Ok (Int 1709101800) /\
    sys_field reading "sunset" = Ok (Int 1709149500).
Proof.
  assert (R : random_source_ok sample_world).
  { split.
    - intros n. apply Z.mod_pos_bound. reflexivity.
    - intros n k Hk. apply Z.mod_pos_bound. exact Hk. }
  destruct (timestamps_are_whole_seconds "London" sample_world 62135683200 R)
    as (reading & w' & sunrise & sunset & G & D & Sr & Ss & -> & -> & _).
  { intros t [<- | [<- | [<- | []]]]; vm_compute; repeat split; discriminate. }
  exists reading, w'. split; [exact G|]. split; [exact D|]. split; [exact Sr|exact Ss].
Defined.

(** X14.  What [json.dumps] writes is ASCII: printable characters and
    line feeds, for every value and indent.  The text of either tool ends
    with such a JSON text, in which the location or the region stands as
    [json.dumps] encodes it: between quotes as it is when it is plain text,
    escaped otherwise. *)
Theorem raw_data_is_ascii :
  (forall indent v, all_text (dumps indent v) = true) /\
  (forall request w text w', get_weather_data request w = Ok (text, w') ->
   exists head reading,
     text = head ++ dumps (Some 2%nat) reading /\
     Py.getitem reading "name" = Ok (Str (location request)) /\
     occurs_in (dquote ++ "name" ++ dquote ++ ": " ++ encode_string (location request))
       (dumps (Some 2%nat) reading)) /\
  (forall request w text w', get_energy_prices request w = Ok (text, w') ->
   exists head price_data,
     text = head ++ dumps (Some 2%nat) price_data /\
     Py.getitem price_data "region" = Ok (Str (region request)) /\
     occurs_in (dquote ++ "region" ++ dquote ++ ": " ++ encode_string (region request))
       (dumps (Some 2%nat) price_data)) /\
  (forall s, all_plain s = true -> encode_string s = dquote ++ s ++ dquote).
Proof.
  split; [intros indent v; apply encode_text|]. split; [|split].
  - intros request w text w'. unfold get_weather_data.
    erewrite bind_ok by reflexivity. cbv beta.
    unfold bind. rewrite WeatherFacts.get_mock_weather_data_cases. cbv zeta.
    destruct (nth_error ["Clear"; "Clouds"; "Rain"] _); [|discriminate].
    destruct (nth_error conditions _); [|discriminate].
    destruct (timestamps_error _); [discriminate|].
    unfold lift. rewrite format_weather_reading. intros H.
    apply (f_equal answer) in H. cbn [answer] in H.
    apply (f_equal (fun o => match o with Ok x => x | Raise _ => text end)) in H.
    subst text. unfold weather_text.
    eexists _, _. split; [|split].
    + rewrite <- !append_assoc. reflexivity.
    + reflexivity.
    + apply (first_member_occurs (Some 2%nat) "name").
  - intros request w text w'. rewrite EnergyFacts.get_energy_prices_run. cbv zeta.
    destruct (forecast_loop _ _ _) as [forecast|]; [|discriminate].
    destruct (format_energy _ _) as [t|] eqn:F; [|discriminate].
    intros [= <- _]. destruct (format_energy_tail _ _ _ F) as (head & ->).
    eexists _, _. split; [reflexivity|]. split; [reflexivity|].
    apply (first_member_occurs (Some 2%nat) "region").
  - apply encode_string_plain.
Qed.

(** ** The main block *)

Import Startup StartupFacts.

(** X15.  The environment alone decides which server the script runs:
    the HTTP server when [HOST] is [0.0.0.0] or [PRODUCTION] is set to any
    string that is not empty, [false] included, and the stdio server
    otherwise, as with [HOST] unset and [PRODUCTION] unset or empty.  With
    the HTTP server the script ends as [uvicorn.run] of the application on
    the host and port read, at log level [info], ends, once [fastapi] is
    imported, and nothing depends on [mcp.run]; with the stdio server it
    ends as [mcp.run()] ends, and nothing depends on [fastapi] being there
    or on [uvicorn.run].  The [/health] handler answers with the object that
    the [health_check] tool writes out. *)
Theorem production_is_chosen_by_any_value (h1 h2 : Host) (port : Z) :
  (forall name, environ h1 name = environ h2 name) ->
  (forall s, int_of_str h1 s = int_of_str h2 s) ->
  import_module h1 "uvicorn" = None -> import_module h2 "uvicorn" = None ->
  port_of h1 = inl port ->
  (forall s, environ h1 "PRODUCTION" = Some s -> s <> "" -> production h1) /\
  (environ h1 "HOST" = Some "0.0.0.0" -> production h1) /\
  (environ h1 "HOST" = None ->
   environ h1 "PRODUCTION" = None \/ environ h1 "PRODUCTION" = Some "" ->
   ~ production h1) /\
  (production h1 ->
   import_module h1 "fastapi" = None -> import_module h1 "fastapi.responses" = None ->
   main h1 = script_after h1 port (uvicorn_run h1 app (host_of h1) port "info")) /\
  (production h1 ->
   import_module h1 "fastapi" = import_module h2 "fastapi" ->
   import_module h1 "fastapi.responses" = import_module h2 "fastapi.responses" ->
   uvicorn_run h1 app (host_of h1) port "info" =
     uvicorn_run h2 app (host_of h1) port "info" ->
   main h1 = main h2) /\
  (~ production h1 -> main h1 = script_after h1 port (mcp_run h1)) /\
  (~ production h1 -> mcp_run h1 = mcp_run h2 -> main h1 = main h2) /\
  (forall w, health_check w = bind health (fun content => ret (dumps None content)) w).
Proof.
  intros E I U1 U2 P.
  destruct (same_environment h1 h2 E I) as (Hh & Hp & Ht).
  assert (P2 : port_of h2 = inl port) by (now rewrite <- Hp).
  pose proof (production_spec h1) as S.
  repeat match goal with |- _ /\ _ => split end.
  - intros s Es N. right. now exists s.
  - intros Eh. left. unfold host_of, getenv. now rewrite Eh.
  - intros Eh Ep [H|(s & Es & N)].
    + unfold host_of, getenv in H. rewrite Eh in H. discriminate.
    + destruct Ep as [Ep|Ep]; congruence.
  - intros Pr F1 F2. apply S in Pr.
    rewrite (main_run h1 port U1 P), (serve_production h1 _ _ Pr), F1, F2. reflexivity.
  - intros Pr F1 F2 R. apply S in Pr.
    rewrite (main_run h1 port U1 P), (main_run h2 port U2 P2).
    rewrite (serve_production h1 _ _ Pr).
    rewrite <- Hh. rewrite (serve_production h2 (host_of h1) port) by (now rewrite <- Ht).
    unfold script_after. now rewrite F1, F2, R, Hh.
  - intros N. rewrite (main_run h1 port U1 P).
    rewrite serve_development; [reflexivity|].
    destruct (_ || _) eqn:B; [|reflexivity]. now elim N; apply S.
  - intros N M.
    assert (B : String.eqb (host_of h1) "0.0.0.0" || truthy (getenv h1 "PRODUCTION") = false).
    { destruct (_ || _) eqn:B; [|reflexivity]. now elim N; apply S. }
    rewrite (main_run h1 port U1 P), (main_run h2 port U2 P2).
    rewrite (serve_development h1 _ _ B).
    rewrite <- Hh. rewrite (serve_development h2 (host_of h1) port) by (now rewrite <- Ht).
    unfold script_after. now rewrite M, Hh.
  - reflexivity.
Qed.

Lemma production_is_chosen_by_any_value_witness :
  production sample_host /\ main sample_host = main sample_host_without_stdio.
Proof.
  assert (T : (forall s, environ sample_host "PRODUCTION" = Some s -> s <> "" ->
               production sample_host) /\
          (production sample_host ->
           import_module sample_host "fastapi" =
             import_module sample_host_without_stdio "fastapi" ->
           import_module sample_host "fastapi.responses" =
             import_module sample_host_without_stdio "fastapi.responses" ->
           uvicorn_run sample_host app (host_of sample_host) 8000 "info" =
             uvicorn_run sample_host_without_stdio app (host_of sample_host) 8000 "info" ->
           main sample_host = main sample_host_without_stdio)).
  { destruct (production_is_chosen_by_any_value sample_host sample_host_without_stdio 8000)
      as (A & _ & _ & _ & B & _); try reflexivity.
    split; [exact A|exact B]. }
  destruct T as [A B].
  assert (Pr : production sample_host) by (apply (A "false"); [reflexivity|discriminate]).
  split; [exact Pr|]. apply B; [exact Pr|reflexivity..].
Defined.

